(** * Forecast synthesis and market aggregation: a shallow embedding

    The development embeds the statistical forecast generator
    ([update_predictions_1003.py]), the date walk of
    [fix_qqq_predictions.py], the trend buckets of [generate_stats.py] and
    the market overview of [data/process_candlestick.py]; then the batch
    driver and the rest of the QQQ repair, the statistics summary, the
    file monitor, the structure validator
    ([scripts/validate_data_structure.py]), the homepage counter
    ([update_homepage_stats.py]), the ticker list
    ([update_available_tickers.py]) and the formatter of
    [kronos_workflow.py].

    Modelling conventions.
    - A Python float is an exact rational ([Q]), and a float division by
      zero that Python raises is an explicit [None].  NaN and the
      infinities arise in one place, the returns that pandas computes
      after a zero close, and what follows from them: an entry of that
      series is a finite number or an infinity ([Num.Float]), and a
      statistic of it that is not a finite number is [None].
    - A calendar date is its proleptic Gregorian ordinal
      ([datetime.date.toordinal]); the ISO string written to JSON is an
      injective, order preserving rendering of it.
    - The global NumPy generator is an explicit state: an infinite stream of
      raw variates and a cursor.
    - The square root of the numeric library is a parameter [fsqrt] of every
      definition that reaches it; [sqrt_fix] is one concrete instance, used
      for evaluation only.
    - A Python dict is an association list in insertion order. *)

From Stdlib Require Import Qabs Ascii.
From Stdlib Require Import ZArith QArith Qround Lqa Lia Bool String List.
From Stdlib Require Import Sorted Permutation.
Import ListNotations.

Open Scope Q_scope.

(** ** Numeric primitives *)

Module Num.

(** [max(a, b)] and [min(a, b)] of Python: the first argument wins a tie. *)
Definition py_max (a b : Q) : Q := if Qlt_le_dec a b then b else a.
Definition py_min (a b : Q) : Q := if Qlt_le_dec b a then b else a.

(** [max(a, b, c)] and [min(a, b, c)]: one left-to-right scan. *)
Definition py_max3 (a b c : Q) : Q := py_max (py_max a b) c.
Definition py_min3 (a b c : Q) : Q := py_min (py_min a b) c.

(** Round half to even on the integers, the rule of [round]. *)
Definition round_half_even (t : Q) : Z :=
  let f := Qfloor t in
  let r := t - inject_Z f in
  match Qcompare r (1 # 2) with
  | Lt => f
  | Gt => (f + 1)%Z
  | Eq => if Z.even f then f else (f + 1)%Z
  end.

(** [round(x, 2)]. *)
Definition py_round2 (x : Q) : Q := inject_Z (round_half_even (x * 100)) / 100.

(** [np.sign]. *)
Definition np_sign (x : Q) : Q :=
  match Qcompare x 0 with Lt => -1 | Eq => 0 | Gt => 1 end.

Definition sum (l : list Q) : Q := fold_right Qplus 0 l.

Definition len (A : Type) (l : list A) : Q := inject_Z (Z.of_nat (length l)).
Arguments len {A} l.

(** [np.mean], [Series.mean], [statistics.mean]. *)
Definition mean (l : list Q) : Q := sum l / len l.

(** Sum of squared deviations from the mean. *)
Definition sq_dev (l : list Q) : Q :=
  let m := mean l in sum (map (fun x => (x - m) * (x - m)) l).

(** [Series.tail(n)], [l[-n:]]. *)
Definition tail (A : Type) (n : nat) (l : list A) : list A :=
  skipn (length l - n) l.
Arguments tail {A} n l.

(** An entry of a float series after [dropna]: a finite number, or an
    infinity of either sign, which [dropna] keeps. *)
Inductive Float :=
| Finite (x : Q)
| Infinite.

(** [Series.pct_change().dropna()]: the simple returns
    [close_t / close_(t-1) - 1].  The undefined first one is NaN and is
    dropped, and so is the return 0/0 between two zero closes; a non-zero
    close after a zero close gives an infinite return, which stays. *)
Fixpoint pct_change (l : list Q) : list Float :=
  match l with
  | [] => []
  | p :: rest =>
      match rest with
      | [] => []
      | c :: _ =>
          if Qeq_bool p 0 then
            if Qeq_bool c 0 then pct_change rest
            else Infinite :: pct_change rest
          else Finite (c / p - 1) :: pct_change rest
      end
  end.

(** The values of a series, when every entry is finite. *)
Fixpoint finite_values (s : list Float) : option (list Q) :=
  match s with
  | [] => Some []
  | Finite x :: s' =>
      match finite_values s' with
      | Some l => Some (x :: l)
      | None => None
      end
  | Infinite :: _ => None
  end.

(** [Series.mean()]; [None] when the result is not a finite number: NaN on
    an empty series, an infinity or NaN when an entry is infinite. *)
Definition series_mean (s : list Float) : option Q :=
  match finite_values s with
  | Some (x :: l) => Some (mean (x :: l))
  | _ => None
  end.

(** One concrete square root on the rationals: the integer square root at
    a resolution of [10^-16]. *)
Definition sqrt_fix (x : Q) : Q :=
  inject_Z (Z.sqrt (Qfloor (x * inject_Z (10 ^ 32)))) / inject_Z (10 ^ 16).

Section WithSqrt.
Variable fsqrt : Q -> Q.

(** [statistics.stdev], and [Series.std()] on finite values: the sample
    deviation (ddof = 1) of at least two values; every caller checks the
    length first. *)
Definition std_sample (l : list Q) : Q := fsqrt (sq_dev l / (len l - 1)).

(** [Series.std()]; [None] is NaN: fewer than two entries, or an infinite
    one. *)
Definition series_std (s : list Float) : option Q :=
  match finite_values s with
  | Some l => if (2 <=? length l)%nat then Some (std_sample l) else None
  | None => None
  end.

(** [np.std]: population deviation (ddof = 0). *)
Definition std_pop (l : list Q) : Q := fsqrt (sq_dev l / len l).
End WithSqrt.

End Num.

(** ** Calendar *)

Module Calendar.

(** [date.weekday()]: Monday is 0, Sunday is 6.  Ordinal 1 is a Monday. *)
Definition weekday (d : Z) : Z := ((d + 6) mod 7)%Z.

(** [while pred_date.weekday() >= 5: pred_date += timedelta(days=1)],
    unrolled [fuel] times. *)
Fixpoint skip_weekends (fuel : nat) (d : Z) : Z :=
  match fuel with
  | O => d
  | S fuel' => if (5 <=? weekday d)%Z then skip_weekends fuel' (d + 1)%Z else d
  end.

(** The forecast date of step [i] in [generate_predictions]:
    [last_date + timedelta(days=i+1)], then the weekend skip. *)
Definition pred_date (last_date : Z) (i : nat) : Z :=
  skip_weekends 2 (last_date + Z.of_nat i + 1)%Z.

(** The forecast dates of one path of [generate_predictions]. *)
Definition prediction_dates (last_date : Z) (prediction_days : nat) : list Z :=
  map (pred_date last_date) (seq 0 prediction_days).

(** The date loop of [fix_qqq_predictions]:
    [while len(predicted_dates) < 5: current_date += 1 day; append it when
    its weekday is below 5], unrolled [fuel] times. *)
Fixpoint qqq_dates_loop (fuel : nat) (current_date : Z) (predicted_dates : list Z)
  : list Z :=
  match fuel with
  | O => predicted_dates
  | S fuel' =>
      if (length predicted_dates <? 5)%nat then
        let current_date := (current_date + 1)%Z in
        qqq_dates_loop fuel' current_date
          (if (weekday current_date <? 5)%Z
           then predicted_dates ++ [current_date]
           else predicted_dates)
      else predicted_dates
  end.

Definition qqq_predicted_dates (last_date : Z) : list Z :=
  qqq_dates_loop 7 last_date [].

(** Strictly increasing chronological order. *)
Definition increasing (l : list Z) : Prop := StronglySorted Z.lt l.

Definition trading_day (d : Z) : Prop := (weekday d < 5)%Z.

(** "Advance by one calendar day, then keep advancing while the weekday is
    Saturday or Sunday": the walk the specification describes. *)
Definition next_trading_day (d : Z) : Z := skip_weekends 2 (d + 1)%Z.

Fixpoint trading_walk (d : Z) (n : nat) : list Z :=
  match n with
  | O => []
  | S n' => let d' := next_trading_day d in d' :: trading_walk d' n'
  end.

End Calendar.

(** ** Python containers *)

Module Py.

(** [sorted(l, key=key, reverse=reverse)] and [list.sort]: a stable sort.
    A stable sort is determined by its input and the key order, so the
    insertion sort below has the results of the interpreter's. *)
Section Sort.
Context {A : Type} (key : A -> Q).

Fixpoint insert_asc (x : A) (l : list A) : list A :=
  match l with
  | [] => [x]
  | y :: l' =>
      if Qlt_le_dec (key y) (key x) then y :: insert_asc x l' else x :: l
  end.

Fixpoint insert_desc (x : A) (l : list A) : list A :=
  match l with
  | [] => [x]
  | y :: l' =>
      if Qlt_le_dec (key x) (key y) then y :: insert_desc x l' else x :: l
  end.

Definition sorted_by (reverse : bool) (l : list A) : list A :=
  fold_right (if reverse then insert_desc else insert_asc) [] l.

(** The two orders a list can be sorted in, and the test "has key [k]". *)
Definition asc (a b : A) : Prop := key a <= key b.
Definition desc (a b : A) : Prop := key b <= key a.
Definition same_key (k : Q) (x : A) : bool := Qeq_bool (key x) k.
End Sort.

(** [d[k] = v] on a dict kept in insertion order: an existing key keeps its
    position, a new key goes last. *)
Section Dict.
Context {K V : Type} (eqb : K -> K -> bool).

Fixpoint dict_set (k : K) (v : V) (d : list (K * V)) : list (K * V) :=
  match d with
  | [] => [(k, v)]
  | (k', v') :: d' =>
      if eqb k' k then (k, v) :: d' else (k', v') :: dict_set k v d'
  end.
End Dict.

(** [l[:n]]. *)
Definition slice_to {A : Type} (n : nat) (l : list A) : list A := firstn n l.

(** [l[-1]]; [None] on the empty list, where Python raises. *)
Definition last_item {A : Type} (l : list A) : option A := hd_error (rev l).

(** Sequencing of computations that may raise. *)
Definition bind {A B : Type} (m : option A) (k : A -> option B) : option B :=
  match m with Some a => k a | None => None end.

End Py.

Notation "x <- m ;; k" := (Py.bind m (fun x => k))
  (at level 61, m at next level, right associativity).

(** The linear interpolation of [np.percentile] at a virtual index of the
    sorted sample: the order statistics just below and just above (the
    latter clipped to the last one), weighted by the fractional part. *)
Definition interpolate (s : list Q) (virtual_index : Q) : Q :=
  let previous := Z.to_nat (Qfloor virtual_index) in
  let next := Nat.min (S previous) (length s - 1) in
  let gamma := virtual_index - inject_Z (Qfloor virtual_index) in
  let a := nth previous s 0 in
  let b := nth next s 0 in
  a + (b - a) * gamma.

(** [np.percentile(values, q)], the default linear method: the sample is
    sorted and read at the virtual index [(n - 1) * q / 100]. *)
Definition np_percentile (values : list Q) (q : Q) : Q :=
  let s := Py.sorted_by (fun x => x) false values in
  interpolate s ((Num.len s - 1) * (q / 100)).

(** ** The random generator *)

Record RandomState := mkRandomState { stream : nat -> Q; cursor : nat }.

Module Rng.

Definition next_sample (st : RandomState) : Q * RandomState :=
  (stream st (cursor st), mkRandomState (stream st) (S (cursor st))).

(** [np.random.normal(loc, scale)]: [loc + scale * z], [z] the next
    standard normal variate. *)
Definition normal (loc scale : Q) (st : RandomState) : Q * RandomState :=
  let (z, st') := next_sample st in (loc + scale * z, st').

(** [np.random.uniform(low, high)]: [low + (high - low) * u], [u] the next
    variate of the unit interval. *)
Definition uniform (low high : Q) (st : RandomState) : Q * RandomState :=
  let (u, st') := next_sample st in (low + (high - low) * u, st').

(** [np.random.randint(low, high)]: an integer of [low, high). *)
Definition randint (low high : Z) (st : RandomState) : Z * RandomState :=
  let (u, st') := next_sample st in ((low + Qfloor u mod (high - low))%Z, st').

End Rng.

(** ** Candles and the per-ticker record *)

Record Candle := mkCandle {
  date : Z;
  open : Q;
  high : Q;
  low : Q;
  close : Q;
  volume : Q
}.

(** The OHLC invariant of a candle. *)
Definition ohlc_ok (c : Candle) : Prop :=
  low c <= open c /\ open c <= high c /\ low c <= close c /\ close c <= high c.

(** Paths of one common length. *)
Definition rectangular (n : nat) (paths : list (list Candle)) : Prop :=
  Forall (fun path => length path = n) paths.

(** No close of the window is zero. *)
Definition nonzero_closes (hist : list Candle) : Prop :=
  Forall (fun row => ~ close row == 0) hist.

(** The returns of the window are finite numbers, at least two of them:
    the statistics that the simulator draws from are finite. *)
Definition steady (hist : list Candle) : Prop :=
  exists returns,
    Num.finite_values (Num.pct_change (map close hist)) = Some returns
    /\ (2 <= length returns)%nat.

(** The values of one metric on one day across the paths, in path order. *)
Definition ensemble_values (metric : Candle -> Q) (day_idx : nat)
    (paths : list (list Candle)) : list Q :=
  map (fun path =>
         match nth_error path day_idx with Some c => metric c | None => 0 end)
    paths.

(** The arithmetic mean as the specification words it: the sum of the
    values over their number. *)
Definition arithmetic_mean (values : list Q) : Q :=
  Num.sum values / inject_Z (Z.of_nat (length values)).

(** The candle of the mean path on one day, as the specification words it:
    each field is the arithmetic mean of that field across the ensemble; the
    date is the one of the first path. *)
Definition spec_mean_candle (paths : list (list Candle)) (day_idx : nat) : Candle :=
  mkCandle
    (match nth_error (hd [] paths) day_idx with Some c => date c | None => 0%Z end)
    (arithmetic_mean (ensemble_values open day_idx paths))
    (arithmetic_mean (ensemble_values high day_idx paths))
    (arithmetic_mean (ensemble_values low day_idx paths))
    (arithmetic_mean (ensemble_values close day_idx paths))
    (arithmetic_mean (ensemble_values volume day_idx paths)).

Record Stats := mkStats {
  p10 : Q; p25 : Q; p50 : Q; p75 : Q; p90 : Q; stat_mean : Q; stat_std : Q
}.

Record DayStats := mkDayStats {
  stats_open : Stats; stats_high : Stats; stats_low : Stats; stats_close : Stats
}.

Definition percentiles_monotone (s : Stats) : Prop :=
  p10 s <= p25 s /\ p25 s <= p50 s /\ p50 s <= p75 s /\ p75 s <= p90 s.

Definition day_monotone (ds : DayStats) : Prop :=
  percentiles_monotone (stats_open ds) /\ percentiles_monotone (stats_high ds)
  /\ percentiles_monotone (stats_low ds) /\ percentiles_monotone (stats_close ds).

Record TickerInfo := mkTickerInfo {
  symbol : string;
  generated_at : string;
  model_type : string;
  info_monte_carlo_runs : nat;
  info_data_completeness : string;
  chart_compatibility : string
}.

Record Metadata := mkMetadata {
  lookback_start : Z;
  lookback_end : Z;
  lookback_days : nat;
  prediction_start : Z;
  prediction_end : Z;
  prediction_days : nat;
  meta_monte_carlo_runs : nat;
  meta_data_completeness : string
}.

Record ChartData := mkChartData {
  historical_candlesticks : list Candle;
  predicted_candlesticks : list Candle;
  monte_carlo_paths : list (list Candle);
  prediction_percentiles : list (Z * DayStats);
  actual_candlesticks : list Candle
}.

(** The [volatility] written is a number or NaN ([None]). *)
Record SummaryStats := mkSummaryStats {
  overall_score : Z;
  prediction_quality : string;
  volatility : option Q;
  stats_monte_carlo_runs : nat
}.

Record PredictionJson := mkPredictionJson {
  ticker_info : TickerInfo;
  data_ticker : string;
  data_metadata : Metadata;
  chart_data : ChartData;
  summary_stats : SummaryStats
}.

(** ** [update_predictions_1003.py] *)

Module Predictions.

Definition LOOKBACK_DAYS : nat := 120.
Definition PREDICTION_DAYS : nat := 5.
(** ["2025-10-03"], a Friday. *)
Definition LOOKBACK_END : Z := 739527.
Definition MONTE_CARLO_RUNS : nat := 10.

(** [get_lookback_data]: the rows up to [end_date], the last
    [lookback_days] of them. *)
Definition get_lookback_data (df : list Candle) (end_date : Z) (lookback_days : nat)
  : list Candle :=
  Num.tail lookback_days (filter (fun row => (date row <=? end_date)%Z) df).

(** The clamp of [generate_predictions]:
    [pred_high = max(pred_high, pred_open, pred_close)] and
    [pred_low = min(pred_low, pred_open, pred_close)], then the candle with
    its prices rounded to two decimals. *)
Definition clamp_candle (pred_date : Z) (pred_open pred_high pred_low pred_close : Q)
    (avg_volume : Q) : Candle :=
  let pred_high := Num.py_max3 pred_high pred_open pred_close in
  let pred_low := Num.py_min3 pred_low pred_open pred_close in
  mkCandle pred_date (Num.py_round2 pred_open) (Num.py_round2 pred_high)
    (Num.py_round2 pred_low) (Num.py_round2 pred_close) avg_volume.

(** The body of [for i in range(prediction_days)], from step [i] on. *)
Fixpoint simulate_days (mean_return recent_mean recent_volatility avg_volume : Q)
    (last_date : Z) (i : nat) (remaining : nat) (current_price : Q)
    (st : RandomState) : list Candle * RandomState :=
  match remaining with
  | O => ([], st)
  | S remaining' =>
      let pred_date := Calendar.pred_date last_date i in
      let weighted_return := 0.7 * recent_mean + 0.3 * mean_return in
      let momentum := Num.np_sign recent_mean * 0.002 in
      let (noise, st1) := Rng.normal 0 recent_volatility st in
      let daily_return := weighted_return + momentum + noise in
      let current_price := current_price * (1 + daily_return) in
      let daily_range := current_price * recent_volatility * 1.5 in
      let (jitter, st2) := Rng.uniform (- daily_range / 4) (daily_range / 4) st1 in
      let pred_open := current_price + jitter in
      let (up, st3) := Rng.uniform 0 (daily_range / 2) st2 in
      let pred_high := Num.py_max pred_open current_price + up in
      let (down, st4) := Rng.uniform 0 (daily_range / 2) st3 in
      let pred_low := Num.py_min pred_open current_price - down in
      let pred_close := current_price in
      let candle :=
        clamp_candle pred_date pred_open pred_high pred_low pred_close avg_volume in
      let (rest, st') :=
        simulate_days mean_return recent_mean recent_volatility avg_volume
          last_date (S i) remaining' current_price st4 in
      (candle :: rest, st')
  end.

(** [overall_score]: [min(95, max(70, 85 + jitter))]. *)
Definition score_of (jitter : Z) : Z := Z.min 95 (Z.max 70 (85 + jitter)).

(** [prediction_quality]: ["GOOD" if volatility < 40 else "MODERATE"]; the
    comparison is false on NaN ([None]). *)
Definition quality_of (volatility : option Q) : string :=
  match volatility with
  | Some v => if Qlt_le_dec v 40 then "GOOD"%string else "MODERATE"%string
  | None => "MODERATE"%string
  end.

(** [[path[day_idx][metric] for path in monte_carlo_paths]]; a path that is
    too short raises. *)
Fixpoint column (metric : Candle -> Q) (day_idx : nat) (paths : list (list Candle))
  : option (list Q) :=
  match paths with
  | [] => Some []
  | path :: paths' =>
      c <- nth_error path day_idx ;;
      rest <- column metric day_idx paths' ;;
      Some (metric c :: rest)
  end.

Section WithSqrt.
Variable fsqrt : Q -> Q.

(** [generate_predictions].  The inner [None] is the returned [None]; the
    outer [None] is an [OverflowError] that escapes.  When the mean
    return, the recent mean or the recent volatility is not a finite
    number, the first pass of the loop makes [daily_return], then
    [current_price], then [daily_range] infinite or NaN, and
    [np.random.uniform] raises on a range that is not finite; with no day
    to predict the loop does not run and the empty list is returned. *)
Definition generate_predictions (historical_data : list Candle)
    (prediction_days : nat) (st : RandomState)
  : option (option (list Candle) * RandomState) :=
  if (length historical_data <? 20)%nat then Some (None, st)
  else
    let closes := map close historical_data in
    let returns := Num.pct_change closes in
    let volatility := Num.series_std fsqrt returns in
    let mean_return := Num.series_mean returns in
    let recent_returns := Num.tail 20 returns in
    let recent_volatility := Num.series_std fsqrt recent_returns in
    let recent_mean := Num.series_mean recent_returns in
    let avg_volume := Num.mean (Num.tail 20 (map volume historical_data)) in
    let last_close := last closes 0 in
    let last_date := last (map date historical_data) 0%Z in
    match prediction_days with
    | O => Some (Some [], st)
    | S _ =>
        match mean_return, recent_mean, recent_volatility with
        | Some mean_return, Some recent_mean, Some recent_volatility =>
            let (predictions, st') :=
              simulate_days mean_return recent_mean recent_volatility avg_volume
                last_date 0 prediction_days last_close st in
            Some (Some predictions, st')
        | _, _, _ => None
        end
    end.

(** The loop of [generate_monte_carlo_paths]; an empty or missing path is
    not appended, and an exception of [generate_predictions] escapes. *)
Fixpoint monte_carlo_loop (historical_data : list Candle) (prediction_days : nat)
    (runs : nat) (st : RandomState)
  : option (list (list Candle) * RandomState) :=
  match runs with
  | O => Some ([], st)
  | S runs' =>
      drawn <- generate_predictions historical_data prediction_days st ;;
      let (path_predictions, st1) := drawn in
      later <- monte_carlo_loop historical_data prediction_days runs' st1 ;;
      let (paths, st2) := later in
      match path_predictions with
      | Some (c :: path) => Some ((c :: path) :: paths, st2)
      | _ => Some (paths, st2)
      end
  end.

(** [generate_monte_carlo_paths]; [None] is an exception that escapes. *)
Definition generate_monte_carlo_paths (historical_data : list Candle)
    (prediction_days num_simulations : nat) (st : RandomState)
  : option (list (list Candle) * RandomState) :=
  if (length historical_data <? 20)%nat then Some ([], st)
  else monte_carlo_loop historical_data prediction_days num_simulations st.

(** The statistics of one metric on one day. *)
Definition metric_stats (values : list Q) : Stats :=
  mkStats (np_percentile values 10) (np_percentile values 25)
    (np_percentile values 50) (np_percentile values 75)
    (np_percentile values 90) (Num.mean values) (Num.std_pop fsqrt values).

Definition day_stats (paths : list (list Candle)) (day_idx : nat)
  : option DayStats :=
  o <- column open day_idx paths ;;
  h <- column high day_idx paths ;;
  l <- column low day_idx paths ;;
  c <- column close day_idx paths ;;
  Some (mkDayStats (metric_stats o) (metric_stats h) (metric_stats l)
          (metric_stats c)).

(** [for day_idx in range(len(monte_carlo_paths[0]))] of
    [calculate_percentiles], over the remaining day indices. *)
Fixpoint percentiles_loop (paths : list (list Candle)) (days : list nat)
    (percentiles : list (Z * DayStats)) : option (list (Z * DayStats)) :=
  match days with
  | [] => Some percentiles
  | day_idx :: days' =>
      first <- nth_error paths 0 ;;
      c <- nth_error first day_idx ;;
      s <- day_stats paths day_idx ;;
      percentiles_loop paths days' (Py.dict_set Z.eqb (date c) s percentiles)
  end.

(** [calculate_percentiles]. *)
Definition calculate_percentiles (monte_carlo_paths : list (list Candle))
  : option (list (Z * DayStats)) :=
  match monte_carlo_paths with
  | [] => Some []
  | first :: _ =>
      percentiles_loop monte_carlo_paths (seq 0 (length first)) []
  end.

(** One candle of the mean path. *)
Definition mean_pred (paths : list (list Candle)) (day_idx : nat)
  : option Candle :=
  first <- nth_error paths 0 ;;
  c <- nth_error first day_idx ;;
  o <- column open day_idx paths ;;
  h <- column high day_idx paths ;;
  l <- column low day_idx paths ;;
  cl <- column close day_idx paths ;;
  v <- column volume day_idx paths ;;
  Some (mkCandle (date c) (Num.mean o) (Num.mean h) (Num.mean l)
          (Num.mean cl) (Num.mean v)).

Fixpoint mean_loop (paths : list (list Candle)) (days : list nat)
  : option (list Candle) :=
  match days with
  | [] => Some []
  | day_idx :: days' =>
      c <- mean_pred paths day_idx ;;
      rest <- mean_loop paths days' ;;
      Some (c :: rest)
  end.

(** The mean prediction of [create_prediction_json]: the per-day means of
    the ensemble, or the given single path when the ensemble is empty. *)
Definition mean_predictions_of (predictions : list Candle)
    (monte_carlo_paths : list (list Candle)) : option (list Candle) :=
  match monte_carlo_paths with
  | [] => Some predictions
  | first :: _ => mean_loop monte_carlo_paths (seq 0 (length first))
  end.

(** The annualized volatility percentage of [create_prediction_json]:
    [returns.std() * np.sqrt(252) * 100], NaN ([None]) when the deviation
    is. *)
Definition annualized_volatility (historical_data : list Candle) : option Q :=
  match Num.series_std fsqrt (Num.pct_change (map close historical_data)) with
  | Some deviation => Some (deviation * fsqrt 252 * 100)
  | None => None
  end.

(** [create_prediction_json]; [None] is a raised [IndexError]. *)
Definition create_prediction_json (now : string) (ticker : string)
    (historical_data predictions : list Candle)
    (monte_carlo_paths : list (list Candle)) (st : RandomState)
  : option (PredictionJson * RandomState) :=
  mean_predictions <- mean_predictions_of predictions monte_carlo_paths ;;
  let volatility := annualized_volatility historical_data in
  let historical_candlesticks := map (fun row => row) historical_data in
  percentiles <-
    match monte_carlo_paths with
    | [] => Some []
    | _ => calculate_percentiles monte_carlo_paths
    end ;;
  first_row <- hd_error historical_data ;;
  last_row <- Py.last_item historical_data ;;
  first_pred <- hd_error mean_predictions ;;
  last_pred <- Py.last_item mean_predictions ;;
  let (jitter, st') := Rng.randint (-5) 10 st in
  Some
    (mkPredictionJson
       (mkTickerInfo ticker now "kronos-120d-5d-montecarlo" MONTE_CARLO_RUNS
          "full_120_day_history_with_monte_carlo" "candlestick_ready")
       ticker
       (mkMetadata (date first_row) (date last_row) (length historical_data)
          (date first_pred) (date last_pred) (length mean_predictions)
          MONTE_CARLO_RUNS "full_ohlcv_with_monte_carlo")
       (mkChartData historical_candlesticks mean_predictions
          (match monte_carlo_paths with [] => [] | _ => monte_carlo_paths end)
          percentiles [])
       (mkSummaryStats (score_of jitter) (quality_of volatility)
          (option_map Num.py_round2 volatility) MONTE_CARLO_RUNS),
     st').

(** [process_ticker].  [df] is what [load_parquet_data] returned, [files]
    the prediction files on disk, keyed by ticker; the outer [None] is an
    exception that escapes. *)
Definition process_ticker (now : string) (ticker : string)
    (df : option (list Candle)) (files : list (string * PredictionJson))
    (st : RandomState)
  : option (bool * list (string * PredictionJson) * RandomState) :=
  match df with
  | None => Some (false, files, st)
  | Some df =>
      let historical := get_lookback_data df LOOKBACK_END LOOKBACK_DAYS in
      if (length historical <? 20)%nat then Some (false, files, st)
      else
        drawn <- generate_predictions historical PREDICTION_DAYS st ;;
        let (predictions, st1) := drawn in
        match predictions with
        | None | Some [] => Some (false, files, st1)
        | Some (c :: rest) =>
            simulated <-
              generate_monte_carlo_paths historical PREDICTION_DAYS
                MONTE_CARLO_RUNS st1 ;;
            let (monte_carlo_paths, st2) := simulated in
            r <- create_prediction_json now ticker historical (c :: rest)
                   monte_carlo_paths st2 ;;
            let (prediction_json, st3) := r in
            Some (true, Py.dict_set String.eqb ticker prediction_json files, st3)
        end
  end.

End WithSqrt.

End Predictions.

(** ** Trend buckets *)

Inductive Trend := Bullish | Bearish | Neutral.

(** The chain [if pct > 1: ... elif pct < -1: ... else: ...] of
    [update_market_overview], [fix_qqq_predictions] and
    [analyze_predictions]. *)
Definition classify_trend (pct : Q) : Trend :=
  if Qlt_le_dec 1 pct then Bullish
  else if Qlt_le_dec pct (-1) then Bearish
  else Neutral.

Definition Trend_eqb (a b : Trend) : bool :=
  match a, b with
  | Bullish, Bullish | Bearish, Bearish | Neutral, Neutral => true
  | _, _ => false
  end.

(** ** [fix_qqq_predictions.py]: the direction of the summary *)

Module FixQQQ.

(** [price_change_pct = (predicted_close - last_close) / last_close * 100]
    and the direction chosen from it; [None] is the raised
    [ZeroDivisionError]. *)
Definition direction (last_close predicted_close : Q) : option Trend :=
  if Qeq_bool last_close 0 then None
  else Some (classify_trend ((predicted_close - last_close) / last_close * 100)).

End FixQQQ.

(** ** [generate_stats.py]: the tally of [analyze_predictions] *)

Module GenerateStats.

Record Tally := mkTally {
  bullish_count : nat;
  bearish_count : nat;
  neutral_count : nat;
  valid_predictions : nat;
  price_changes : list Q
}.

Definition count (t : Trend) (tally : Tally) (pct_change : Q) : Tally :=
  mkTally
    (bullish_count tally + if Trend_eqb t Bullish then 1 else 0)
    (bearish_count tally + if Trend_eqb t Bearish then 1 else 0)
    (neutral_count tally + if Trend_eqb t Neutral then 1 else 0)
    (S (valid_predictions tally))
    (price_changes tally ++ [pct_change]).

(** The body of the loop for one file that has its chart data. *)
Definition analyze_file (predicted historical : list Candle) (tally : Tally)
  : Tally :=
  match Py.last_item predicted, Py.last_item historical with
  | Some p, Some h =>
      let last_historical_price := close h in
      let last_predicted_price := close p in
      if Qlt_le_dec 0 last_historical_price then
        if Qlt_le_dec 0 last_predicted_price then
          let pct_change :=
            (last_predicted_price - last_historical_price)
            / last_historical_price * 100 in
          count (classify_trend pct_change) tally pct_change
        else tally
      else tally
  | _, _ => tally
  end.


(** Every valid prediction is counted in exactly one bucket. *)
Definition tallied (t : Tally) : Prop :=
  (bullish_count t + bearish_count t + neutral_count t
   = valid_predictions t)%nat.

End GenerateStats.

(** ** [data/process_candlestick.py] *)

Module Processor.

(** What [process_ohlcv_file] reads of a prediction file; a list that is
    missing reads as the empty list. *)
Record ChartIn := mkChartIn {
  in_historical_candlesticks : list Candle;
  in_actual_candlesticks : list Candle;
  in_monte_carlo_simulations : list (list Candle)
}.

Record FileData := mkFileData {
  in_chart_data : option ChartIn;
  in_prediction_quality : option string;
  in_overall_score : option Z
}.

(** A record written by [create_prediction_json], read back from its file.
    The writer has no ["monte_carlo_simulations"] key. *)
Definition of_prediction_json (j : PredictionJson) : FileData :=
  mkFileData
    (Some (mkChartIn (historical_candlesticks (chart_data j))
             (actual_candlesticks (chart_data j)) []))
    (Some (prediction_quality (summary_stats j)))
    (Some (overall_score (summary_stats j))).

Record Processed := mkProcessed {
  ticker : string;
  historical_candlesticks : list Candle;
  actual_candlesticks : list Candle;
  monte_carlo_simulations : list (list Candle);
  latest_price : option Q;
  price_change : Q;
  price_change_percent : Q;
  average_volume : Q;
  volatility : Q;
  data_type : string;
  prediction_quality : string;
  overall_score : Z
}.

(** An entry of a ranking list: the ticker, the metric the list is ranked
    by ([change_percent], [volume] or [volatility]) and the latest price. *)
Record Entry := mkEntry {
  entry_ticker : string;
  metric : Q;
  price : option Q
}.

Record MarketOverview := mkMarketOverview {
  total_tickers : nat;
  bullish_count : nat;
  bearish_count : nat;
  neutral_count : nat;
  top_gainers : list Entry;
  top_losers : list Entry;
  highest_volume : list Entry;
  most_volatile : list Entry;
  last_updated : option string
}.

(** The overview of [__init__]. *)
Definition initial_overview : MarketOverview :=
  mkMarketOverview 0 0 0 0 [] [] [] [] None.

Definition is_empty {A : Type} (l : list A) : bool :=
  match l with [] => true | _ => false end.

Section WithSqrt.
Variable fsqrt : Q -> Q.

(** [process_ohlcv_file]; [None] is both the early [return None] and an
    exception caught by the handler. *)
Definition process_ohlcv_file (data : FileData) (ticker : string)
  : option Processed :=
  chart_data <- in_chart_data data ;;
  let historical := in_historical_candlesticks chart_data in
  let actual := in_actual_candlesticks chart_data in
  let latest_price :=
    match Py.last_item actual with
    | Some c => Some (close c)
    | None =>
        match Py.last_item historical with
        | Some c => Some (close c)
        | None => None
        end
    end in
  change <-
    match Py.last_item historical, Py.last_item actual with
    | Some h, Some a =>
        let start_price := close h in
        let end_price := close a in
        let price_change := end_price - start_price in
        if Qeq_bool start_price 0 then None
        else Some (price_change, price_change / start_price * 100)
    | _, _ => Some (0, 0)
    end ;;
  let volume_data :=
    if negb (is_empty actual) then map volume (Num.tail 5 actual)
    else if negb (is_empty historical) then map volume (Num.tail 5 historical)
    else [] in
  let avg_volume :=
    if negb (is_empty volume_data) then Num.mean volume_data else 0 in
  volatility <-
    (if negb (is_empty actual) then
       let prices := map close (Num.tail 10 actual) in
       if (1 <? length prices)%nat then
         if Qeq_bool (Num.mean prices) 0 then None
         else Some (Num.std_sample fsqrt prices / Num.mean prices * 100)
       else Some 0
     else Some 0) ;;
  Some
    (mkProcessed ticker historical actual
       (in_monte_carlo_simulations chart_data) latest_price (fst change)
       (snd change) avg_volume volatility "ohlcv_complete"
       (match in_prediction_quality data with
        | Some q => q
        | None => "unknown"%string
        end)
       (match in_overall_score data with Some s => s | None => 0%Z end)).

(** The store update of [process_prediction_file] for an OHLCV file. *)
Definition process_prediction_file (data : FileData) (ticker : string)
    (candlestick_data : list (string * Processed))
  : list (string * Processed) :=
  match process_ohlcv_file data ticker with
  | Some processed_data =>
      Py.dict_set String.eqb ticker processed_data candlestick_data
  | None => candlestick_data
  end.
End WithSqrt.

Definition trend_of (kv : string * Processed) : Trend :=
  classify_trend (price_change_percent (snd kv)).

(** The tickers appended to one of the lists [bullish], [bearish],
    [neutral], in iteration order. *)
Definition bucket (t : Trend) (candlestick_data : list (string * Processed))
  : list string :=
  map fst (filter (fun kv => Trend_eqb (trend_of kv) t) candlestick_data).

Definition entries (value : Processed -> Q)
    (candlestick_data : list (string * Processed)) : list Entry :=
  map (fun kv => mkEntry (fst kv) (value (snd kv)) (latest_price (snd kv)))
    candlestick_data.

(** [update_market_overview]; [market_overview] is the overview held so
    far, kept when there is no record. *)
Definition update_market_overview (now : string)
    (candlestick_data : list (string * Processed))
    (market_overview : MarketOverview) : MarketOverview :=
  if is_empty candlestick_data then market_overview
  else
    let total_tickers := length candlestick_data in
    let bullish := bucket Bullish candlestick_data in
    let bearish := bucket Bearish candlestick_data in
    let neutral := bucket Neutral candlestick_data in
    let gainers := entries price_change_percent candlestick_data in
    let volume_leaders := entries average_volume candlestick_data in
    let volatile_stocks := entries volatility candlestick_data in
    let gainers := Py.sorted_by metric true gainers in
    let losers := Py.slice_to 10 (Py.sorted_by metric false gainers) in
    let gainers := Py.slice_to 10 gainers in
    let volume_leaders := Py.slice_to 10 (Py.sorted_by metric true volume_leaders) in
    let volatile_stocks := Py.slice_to 10 (Py.sorted_by metric true volatile_stocks) in
    mkMarketOverview total_tickers (length bullish) (length bearish)
      (length neutral) gainers losers volume_leaders volatile_stocks (Some now).

(** "Ties broken by ticker lexical order": of two entries of a ranking
    with equal metric, the earlier has the lexically smaller ticker. *)
Definition ties_by_ticker (l : list Entry) : Prop :=
  forall i j a b,
    (i < j)%nat -> nth_error l i = Some a -> nth_error l j = Some b ->
    metric a == metric b ->
    String.leb (entry_ticker a) (entry_ticker b) = true.

(** Ties left in the order of the records: for every metric value, the
    entries of the ranking [l] with that value are the first ones, in
    order, of the entries [all] of the records with that value. *)
Definition ties_in_record_order (all l : list Entry) : Prop :=
  forall k,
    exists rest,
      filter (Py.same_key metric k) all
      = filter (Py.same_key metric k) l ++ rest.

(** A ranking of at most ten entries, in descending ([reverse]) or
    ascending order of the metric. *)
Definition ranking (reverse : bool) (l : list Entry) : Prop :=
  (length l <= 10)%nat
  /\ if reverse then StronglySorted (Py.desc metric) l
     else StronglySorted (Py.asc metric) l.

End Processor.

(** ** Sample inputs *)

Module Samples.

(** Twenty weekly rows, the last one on Friday 2025-10-03; the close rises
    by one each row. *)
Definition candle_at (i : nat) : Candle :=
  let p := 100 + inject_Z (Z.of_nat i) in
  mkCandle (739527 - 7 * (19 - Z.of_nat i)) p (p + 1) (p - 1) p 1000.

Definition window : list Candle := map candle_at (seq 0 20).

(** An ensemble of three paths over two days. *)
Definition ensemble : list (list Candle) :=
  [ [ mkCandle 739530 101 103 100 102 1000; mkCandle 739531 102 105 101 104 1000 ];
    [ mkCandle 739530 99 100 97 98 1000; mkCandle 739531 98 99 95 96 1000 ];
    [ mkCandle 739530 100 102 99 101 1000; mkCandle 739531 101 102 100 100 1000 ] ].

(** A generator whose every raw variate is one half. *)
Definition rng : RandomState := mkRandomState (fun _ => 1 # 2) 0.

(** A freshly generated prediction file: the sample window, no actual
    candle yet. *)
Definition fresh_file : Processor.FileData :=
  Processor.mkFileData (Some (Processor.mkChartIn window [] []))
    (Some "GOOD"%string) (Some 85%Z).

(** The store after the files of ZZZ and then AAA were processed. *)
Definition store : list (string * Processor.Processed) :=
  Processor.process_prediction_file Num.sqrt_fix fresh_file "AAA"
    (Processor.process_prediction_file Num.sqrt_fix fresh_file "ZZZ" []).

End Samples.

(** ** More of the Python and NumPy library *)

Module PyExt.

(** [d.get(k)]: the value held under [k], if any. *)
Fixpoint dict_get {K V : Type} (eqb : K -> K -> bool) (k : K) (d : list (K * V))
  : option V :=
  match d with
  | [] => None
  | (k', v') :: d' => if eqb k' k then Some v' else dict_get eqb k d'
  end.

(** [int(x)] of a float: truncation toward zero. *)
Definition py_int (x : Q) : Z :=
  if Qlt_le_dec x 0 then Qceiling x else Qfloor x.

(** [round(x, 1)]. *)
Definition py_round1 (x : Q) : Q :=
  inject_Z (Num.round_half_even (x * 10)) / 10.

(** [np.random.normal(loc, scale)] with the check of its argument: NumPy
    raises [ValueError] on a negative [scale]. *)
Definition np_normal (loc scale : Q) (st : RandomState)
  : option (Q * RandomState) :=
  if Qle_bool 0 scale then Some (Rng.normal loc scale st) else None.

(** [max(l)] and [min(l)] of a list; the empty list, where Python raises,
    is [None]. *)
Definition max_list (l : list Q) : option Q :=
  match l with
  | [] => None
  | x :: rest => Some (fold_left Num.py_max rest x)
  end.

Definition min_list (l : list Q) : option Q :=
  match l with
  | [] => None
  | x :: rest => Some (fold_left Num.py_min rest x)
  end.

(** [np.median]: the middle order statistic, or the mean of the two middle
    ones. *)
Definition np_median (values : list Q) : Q :=
  let s := Py.sorted_by (fun x => x) false values in
  let n := length s in
  if Nat.even n then (nth (n / 2 - 1) s 0 + nth (n / 2) s 0) / 2
  else nth (n / 2) s 0.

(** [pattern in s] on strings. *)
Fixpoint contains (pattern s : string) : bool :=
  String.prefix pattern s
  || match s with
     | EmptyString => false
     | String _ s' => contains pattern s'
     end.

(** [any(pattern in s for pattern in patterns)]. *)
Definition any_in (patterns : list string) (s : string) : bool :=
  existsb (fun pattern => contains pattern s) patterns.

(** [sorted(l)] and [l.sort()] on strings, by code point. *)
Fixpoint insert_string (x : string) (l : list string) : list string :=
  match l with
  | [] => [x]
  | y :: l' => if String.ltb y x then y :: insert_string x l' else x :: l
  end.

Definition sorted_strings (l : list string) : list string :=
  fold_right insert_string [] l.

End PyExt.

(** ** [update_predictions_1003.py]: [main] *)

Module Batch.

Section WithSqrt.
Variable fsqrt : Q -> Q.

(** The loop [for ticker in sorted(tickers)] of [main].  [now] gives the
    clock reading when a ticker is processed, [load] what
    [load_parquet_data] returns for it. *)
Fixpoint main_loop (now : string -> string) (load : string -> option (list Candle))
    (tickers : list string) (files : list (string * PredictionJson))
    (st : RandomState) (success_count : nat) (failed_tickers : list string)
  : option (nat * list string * list (string * PredictionJson) * RandomState) :=
  match tickers with
  | [] => Some (success_count, failed_tickers, files, st)
  | ticker :: rest =>
      r <- Predictions.process_ticker fsqrt (now ticker) ticker (load ticker)
             files st ;;
      let '(ok, files', st') := r in
      if ok : bool
      then main_loop now load rest files' st' (S success_count) failed_tickers
      else main_loop now load rest files' st' success_count
             (failed_tickers ++ [ticker])
  end.

(** [main]: the tickers are those of the prediction files already on disk;
    the result is [success_count > 0], here with the counters and the final
    state beside it. *)
Definition main (now : string -> string) (load : string -> option (list Candle))
    (files : list (string * PredictionJson)) (st : RandomState)
  : option (bool * nat * list string * list (string * PredictionJson)
            * RandomState) :=
  let tickers := map fst files in
  r <- main_loop now load (PyExt.sorted_strings tickers) files st 0 [] ;;
  let '(success_count, failed_tickers, files', st') := r in
  Some ((0 <? success_count)%nat, success_count, failed_tickers, files', st').

End WithSqrt.

(** A ticker that [process_ticker] turns down: no data, or a lookback
    window of fewer than 20 rows. *)
Definition unusable (load : string -> option (list Candle)) (ticker : string)
  : Prop :=
  match load ticker with
  | None => True
  | Some df =>
      (length (Predictions.get_lookback_data df Predictions.LOOKBACK_END
                 Predictions.LOOKBACK_DAYS) < 20)%nat
  end.

(** A ticker on which [process_ticker] raises: a lookback window of at
    least 20 rows whose returns are not finite, or fewer than two. *)
Definition broken (load : string -> option (list Candle)) (ticker : string)
  : Prop :=
  match load ticker with
  | None => False
  | Some df =>
      let historical :=
        Predictions.get_lookback_data df Predictions.LOOKBACK_END
          Predictions.LOOKBACK_DAYS in
      (20 <= length historical)%nat /\ ~ steady historical
  end.

End Batch.

(** ** [fix_qqq_predictions.py]: candles, paths and bands *)

Module FixQQQRun.

(** A dated value: [{'date', 'close'}] of a Monte Carlo path,
    [{'date', 'value'}] of a confidence band. *)
Record Point := mkPoint { point_date : Z; point_value : Q }.

(** [for date in predicted_dates] of the predicted candlesticks.  The
    intraday volatility is the scale of three draws, so a negative price
    raises ([None]). *)
Fixpoint predicted_loop (predicted_dates : list Z) (current_price : Q)
    (st : RandomState) : option (list Candle * RandomState) :=
  match predicted_dates with
  | [] => Some ([], st)
  | date :: rest =>
      let (daily_return, st1) := Rng.normal 0.001 0.01 st in
      let current_price := current_price * (1 + daily_return) in
      let daily_volatility := current_price * 0.005 in
      drawn_open <- PyExt.np_normal 0 daily_volatility st1 ;;
      let (n_open, st2) := drawn_open in
      let open_price := current_price + n_open in
      drawn_high <- PyExt.np_normal 0 daily_volatility st2 ;;
      let (n_high, st3) := drawn_high in
      let high_price := Num.py_max open_price current_price + Qabs n_high in
      drawn_low <- PyExt.np_normal 0 daily_volatility st3 ;;
      let (n_low, st4) := drawn_low in
      let low_price := Num.py_min open_price current_price - Qabs n_low in
      let close_price := current_price in
      let (v, st5) := Rng.normal 50000000 10000000 st4 in
      let candle :=
        mkCandle date (Num.py_round2 open_price) (Num.py_round2 high_price)
          (Num.py_round2 low_price) (Num.py_round2 close_price)
          (inject_Z (PyExt.py_int v)) in
      later <- predicted_loop rest current_price st5 ;;
      let (candles, st') := later in
      Some (candle :: candles, st')
  end.

(** One Monte Carlo path: [for date in predicted_dates]. *)
Fixpoint path_loop (predicted_dates : list Z) (sim_price : Q) (st : RandomState)
  : list Point * RandomState :=
  match predicted_dates with
  | [] => ([], st)
  | date :: rest =>
      let (daily_return, st1) := Rng.normal 0.0005 0.012 st in
      let sim_price := sim_price * (1 + daily_return) in
      let (path, st') := path_loop rest sim_price st1 in
      (mkPoint date (Num.py_round2 sim_price) :: path, st')
  end.

(** [for _ in range(10)] of the Monte Carlo paths. *)
Fixpoint paths_loop (runs : nat) (predicted_dates : list Z) (last_close : Q)
    (st : RandomState) : list (list Point) * RandomState :=
  match runs with
  | O => ([], st)
  | S runs' =>
      let (path, st1) := path_loop predicted_dates last_close st in
      let (paths, st') := paths_loop runs' predicted_dates last_close st1 in
      (path :: paths, st')
  end.

Record Bands := mkBands {
  band_p90 : list Point;
  band_p75 : list Point;
  band_p50 : list Point;
  band_p25 : list Point;
  band_p10 : list Point
}.

(** [[path[i]['close'] for path in monte_carlo_paths]]. *)
Fixpoint closes_at (i : nat) (paths : list (list Point)) : option (list Q) :=
  match paths with
  | [] => Some []
  | path :: paths' =>
      p <- nth_error path i ;;
      rest <- closes_at i paths' ;;
      Some (point_value p :: rest)
  end.

(** [for i, date in enumerate(predicted_dates)] of the confidence bands,
    from index [i] on. *)
Fixpoint bands_loop (i : nat) (predicted_dates : list Z)
    (monte_carlo_paths : list (list Point)) (predicted_candlesticks : list Candle)
    (bands : Bands) : option Bands :=
  match predicted_dates with
  | [] => Some bands
  | date :: rest =>
      values <- closes_at i monte_carlo_paths ;;
      c <- nth_error predicted_candlesticks i ;;
      let values := values ++ [close c] in
      let point q := mkPoint date (Num.py_round2 (np_percentile values q)) in
      bands_loop (S i) rest monte_carlo_paths predicted_candlesticks
        (mkBands (band_p90 bands ++ [point 90]) (band_p75 bands ++ [point 75])
           (band_p50 bands ++ [point 50]) (band_p25 bands ++ [point 25])
           (band_p10 bands ++ [point 10]))
  end.

Record Result := mkResult {
  predicted_candlesticks : list Candle;
  monte_carlo_paths : list (list Point);
  confidence_bands : Bands;
  predicted_close : Q;
  price_change : Q;
  price_change_percent : Q;
  direction : Trend
}.

(** [fix_qqq_predictions] from the date loop on.  [last_date] and
    [last_close] are read from the last historical candle (after the year
    of the historical dates was rewritten); [None] is an exception. *)
Definition fix_qqq_predictions (last_date : Z) (last_close : Q) (st : RandomState)
  : option (Result * RandomState) :=
  let predicted_dates := Calendar.qqq_predicted_dates last_date in
  candles <- predicted_loop predicted_dates last_close st ;;
  let (predicted, st1) := candles in
  let (paths, st2) := paths_loop 10 predicted_dates last_close st1 in
  bands <- bands_loop 0 predicted_dates paths predicted (mkBands [] [] [] [] []) ;;
  last <- Py.last_item predicted ;;
  let predicted_close := close last in
  let price_change := predicted_close - last_close in
  direction <- FixQQQ.direction last_close predicted_close ;;
  let price_change_pct := price_change / last_close * 100 in
  Some (mkResult predicted paths bands predicted_close
          (Num.py_round2 price_change) (Num.py_round2 price_change_pct)
          direction,
        st2).

(** Band [lower] lies below band [upper], point by point. *)
Definition below (lower upper : list Point) : Prop :=
  Forall2 (fun a b => point_value a <= point_value b) lower upper.

(** Every band has one point per date, in the order of the dates. *)
Definition dated (bands : Bands) (dates : list Z) : Prop :=
  map point_date (band_p10 bands) = dates
  /\ map point_date (band_p25 bands) = dates
  /\ map point_date (band_p50 bands) = dates
  /\ map point_date (band_p75 bands) = dates
  /\ map point_date (band_p90 bands) = dates.

(** The bands do not cross: p10 <= p25 <= p50 <= p75 <= p90 at every
    date. *)
Definition ordered (bands : Bands) : Prop :=
  below (band_p10 bands) (band_p25 bands)
  /\ below (band_p25 bands) (band_p50 bands)
  /\ below (band_p50 bands) (band_p75 bands)
  /\ below (band_p75 bands) (band_p90 bands).

End FixQQQRun.

(** ** [generate_stats.py]: the whole of [analyze_predictions] *)

Module GenerateStatsRun.

(** A sampled prediction file as the loop meets it: one that cannot be read
    or parsed, one without [chart_data] or without its
    [predicted_candlesticks], or one with both candle lists (a missing
    [historical_candlesticks] reads as the empty list). *)
Inductive SampleFile :=
| Unreadable
| NoPredictions
| Chart (predicted historical : list Candle).

Record Summary := mkSummary {
  total_predictions : nat;
  analyzed_sample : nat;
  valid_predictions_in_sample : nat;
  estimated_bullish : Z;
  estimated_bearish : Z;
  estimated_neutral : Z;
  avg_expected_movement_pct : Q;
  median_movement_pct : Q;
  max_gain_pct : Q;
  max_loss_pct : Q;
  failed_files : nat
}.

(** The loop over the sampled files: the tally and the failed files. *)
Fixpoint sample_loop (sample_files : list SampleFile) (tally : GenerateStats.Tally)
    (failed : nat) : GenerateStats.Tally * nat :=
  match sample_files with
  | [] => (tally, failed)
  | Unreadable :: rest => sample_loop rest tally (S failed)
  | NoPredictions :: rest => sample_loop rest tally failed
  | Chart predicted historical :: rest =>
      sample_loop rest (GenerateStats.analyze_file predicted historical tally)
        failed
  end.

(** [int(count * scale_factor)] with
    [scale_factor = total_files / valid_predictions]. *)
Definition scaled (count total_files valid_predictions : nat) : Z :=
  let scale_factor :=
    inject_Z (Z.of_nat total_files) / inject_Z (Z.of_nat valid_predictions) in
  PyExt.py_int (inject_Z (Z.of_nat count) * scale_factor).

(** [analyze_predictions]; [total_files] is the number of prediction files
    found, [sample_files] the files [np.random.choice] drew. *)
Definition analyze_predictions (total_files : nat) (sample_files : list SampleFile)
  : Summary :=
  let sample_size := Nat.min 500 total_files in
  let (tally, failed) :=
    sample_loop sample_files (GenerateStats.mkTally 0 0 0 0 []) 0 in
  let valid_predictions := GenerateStats.valid_predictions tally in
  let price_changes := GenerateStats.price_changes tally in
  let estimate count :=
    if (0 <? valid_predictions)%nat
    then scaled count total_files valid_predictions else 0%Z in
  let moves := map Qabs price_changes in
  let avg_movement :=
    match price_changes with [] => 0 | _ => Num.mean moves end in
  mkSummary total_files sample_size valid_predictions
    (estimate (GenerateStats.bullish_count tally))
    (estimate (GenerateStats.bearish_count tally))
    (estimate (GenerateStats.neutral_count tally))
    (Num.py_round2 avg_movement)
    (match price_changes with
     | [] => 0
     | _ => Num.py_round2 (PyExt.np_median moves)
     end)
    (match PyExt.max_list price_changes with
     | Some m => Num.py_round2 m
     | None => 0
     end)
    (match PyExt.min_list price_changes with
     | Some m => Num.py_round2 m
     | None => 0
     end)
    failed.

End GenerateStatsRun.

(** ** [kronos_workflow.py]: formatting one prediction *)

Module Kronos.

(** What [_format_prediction] reads of the raw prediction; a missing list
    reads as the empty list. *)
Record RawPrediction := mkRawPrediction {
  raw_predictions : list (list Q);
  raw_candlesticks : list Candle
}.

Record Config := mkConfig {
  config_lookback_days : nat;
  config_prediction_days : nat;
  config_monte_carlo_runs : nat
}.

Record FormatSummary := mkFormatSummary {
  input_start_date : Z;
  input_end_date : Z;
  input_length : nat;
  prediction_start_date : Z;
  prediction_end_date : Z;
  prediction_length : nat;
  input_end_date_close : Q;
  predicted_end_close_price : Q;
  predicted_move : Q
}.

Record Formatted := mkFormatted {
  info_symbol : string;
  info_model_type : string;
  info_lookback_days : nat;
  info_prediction_days : nat;
  info_monte_carlo_runs : nat;
  data_historical_candlesticks : list Candle;
  data_predicted_candlesticks : list Candle;
  summary : FormatSummary
}.

(** [_format_candlesticks]: the rows as candles, the volume as [int]. *)
Definition format_candlesticks (data : list Candle) : list Candle :=
  map (fun row =>
         mkCandle (date row) (open row) (high row) (low row) (close row)
           (inject_Z (PyExt.py_int (volume row))))
    data.

(** [[p[-1] for p in predictions]]; an empty path raises. *)
Fixpoint last_values (predictions : list (list Q)) : option (list Q) :=
  match predictions with
  | [] => Some []
  | p :: rest =>
      x <- Py.last_item p ;;
      xs <- last_values rest ;;
      Some (x :: xs)
  end.

(** [_format_prediction]; [None] is an exception: an empty input frame, an
    empty path, a zero last close. *)
Definition format_prediction (config : Config) (ticker : string)
    (input_data : list Candle) (raw_prediction : RawPrediction)
  : option Formatted :=
  first_row <- hd_error input_data ;;
  last_row <- Py.last_item input_data ;;
  let input_start := date first_row in
  let input_end := date last_row in
  let prediction_start := (input_end + 3)%Z in
  let prediction_end := (prediction_start + 4)%Z in
  let predictions := raw_predictions raw_prediction in
  median_close <-
    match predictions with
    | [] => Some (close last_row)
    | _ => finals <- last_values predictions ;; Some (PyExt.np_median finals)
    end ;;
  if Qeq_bool (close last_row) 0 then None
  else
    Some (mkFormatted ticker "Kronos GPU Model (Transformer)"
            (config_lookback_days config) (config_prediction_days config)
            (config_monte_carlo_runs config)
            (format_candlesticks input_data)
            (raw_candlesticks raw_prediction)
            (mkFormatSummary input_start input_end (length input_data)
               prediction_start prediction_end (config_prediction_days config)
               (close last_row) median_close
               ((median_close / close last_row - 1) * 100))).

End Kronos.

(** ** [data/process_candlestick.py]: timestamped files *)

Module Timestamped.

(** What [process_timestamped_file] reads of a file; a missing market
    value reads as its default 0. *)
Record FileData := mkFileData {
  ohlcv_data : option (list Candle);
  latest_close : option Q;
  volatility_percent : option Q;
  market_average_volume : option Q
}.

Definition get_or (d : Q) (o : option Q) : Q :=
  match o with Some x => x | None => d end.

(** [process_timestamped_file]; [None] is both the early [return None] and
    an exception caught by the handler. *)
Definition process_timestamped_file (data : FileData) (ticker : string)
  : option Processor.Processed :=
  ohlcv_data <- ohlcv_data data ;;
  let candlesticks :=
    map (fun item =>
           mkCandle (date item) (open item) (high item) (low item)
             (close item) (volume item))
      ohlcv_data in
  let latest_price := get_or 0 (latest_close data) in
  let volatility := get_or 0 (volatility_percent data) in
  let avg_volume := get_or 0 (market_average_volume data) in
  change <-
    (if (5 <=? length candlesticks)%nat then
       start <- hd_error (Num.tail 5 candlesticks) ;;
       last <- Py.last_item candlesticks ;;
       let start_price := close start in
       let end_price := close last in
       let price_change := end_price - start_price in
       if Qeq_bool start_price 0 then None
       else Some (price_change, price_change / start_price * 100)
     else Some (0, 0)) ;;
  Some
    (Processor.mkProcessed ticker candlesticks [] [] (Some latest_price)
       (fst change) (snd change) avg_volume volatility "timestamped" "unknown"
       0%Z).

End Timestamped.

(** ** [scripts/validate_data_structure.py] *)

Module Validator.

(** A JSON value as [isinstance] sees it. *)
Inductive Value :=
| VStr (s : string)
| VInt (z : Z)
| VOther.

(** The [date] string of a candle, by what [strptime] makes of it. *)
Inductive DateText :=
| Parses (d : Z)
| Malformed (text : string).

(** A candle dict of a file: any key may be missing. *)
Record JCandle := mkJCandle {
  j_date : option DateText;
  j_open : option Q;
  j_high : option Q;
  j_low : option Q;
  j_close : option Q;
  j_volume : option Q
}.

Record JTickerInfo := mkJTickerInfo {
  j_symbol : option Value;
  j_last_update : option Value;
  j_model_type : option Value;
  j_lookback_days : option Value;
  j_prediction_days : option Value;
  j_monte_carlo_runs : option Value
}.

(** A point of a confidence band: not a dict, or a dict with or without its
    [date] and [value]. *)
Inductive JPoint :=
| NotDict
| PointDict (has_date has_value : bool).

(** A confidence band: not a list, or a list of points. *)
Inductive JBand :=
| NotList
| BandList (points : list JPoint).

Record JBands := mkJBands {
  j_p10 : option JBand;
  j_p25 : option JBand;
  j_p50 : option JBand;
  j_p75 : option JBand;
  j_p90 : option JBand
}.

(** The keys of [data_quality] that are present. *)
Record JDataQuality := mkJDataQuality {
  has_completeness : bool;
  has_historical_days : bool;
  has_chart_ready : bool
}.

(** The keys of [summary_stats] that are present. *)
Record JSummaryStats := mkJSummaryStats {
  has_last_close : bool;
  has_predicted_close : bool;
  has_price_change : bool;
  has_price_change_percent : bool;
  has_direction : bool;
  has_confidence : bool;
  has_volatility : bool;
  has_avg_volume : bool;
  j_data_quality : option JDataQuality
}.

Record JData := mkJData {
  j_historical_candlesticks : option (list JCandle);
  j_predicted_candlesticks : option (list JCandle)
}.

Record JChart := mkJChart { j_confidence_bands : option JBands }.

Record JFile := mkJFile {
  j_ticker_info : option JTickerInfo;
  j_data : option JData;
  j_chart_data : option JChart;
  j_summary_stats : option JSummaryStats
}.

(** What opening and parsing a file gives. *)
Inductive Content :=
| InvalidJSON
| ReadError
| Loaded (data : JFile).

(** The messages of the validator, by what they report. *)
Inductive Message :=
| MissingTickerInfo (field : string)
| MustBeString (field : string)
| MustBeInteger (field : string)
| MissingCandleField (field data_type : string) (i : nat)
| InvalidOHLC (data_type : string) (i : nat) (o h l c : Q)
| InvalidDate (data_type : string) (i : nat) (text : string)
| MissingBand (percentile : string)
| BandMustBeArray (percentile : string)
| InvalidBandPoint (percentile : string) (i : nat)
| MissingSummary (field : string)
| MissingDataQuality (field : string)
| MissingTopLevel (field : string)
| MissingHistorical
| MissingPredicted
| EmptyPredicted
| InvalidJSONFile
| FileReadError.

Definition is_none {A : Type} (o : option A) : bool :=
  match o with None => true | Some _ => false end.

(** One message when the condition holds. *)
Definition when (b : bool) (m : Message) : list Message :=
  if b then [m] else [].

Definition not_str (o : option Value) : bool :=
  match o with Some (VStr _) | None => false | Some _ => true end.

Definition not_int (o : option Value) : bool :=
  match o with Some (VInt _) | None => false | Some _ => true end.

(** [validate_ticker_info]. *)
Definition validate_ticker_info (ticker_info : JTickerInfo) : list Message :=
  when (is_none (j_symbol ticker_info)) (MissingTickerInfo "symbol")
  ++ when (is_none (j_last_update ticker_info)) (MissingTickerInfo "last_update")
  ++ when (is_none (j_model_type ticker_info)) (MissingTickerInfo "model_type")
  ++ when (is_none (j_lookback_days ticker_info))
       (MissingTickerInfo "lookback_days")
  ++ when (is_none (j_prediction_days ticker_info))
       (MissingTickerInfo "prediction_days")
  ++ when (is_none (j_monte_carlo_runs ticker_info))
       (MissingTickerInfo "monte_carlo_runs")
  ++ when (not_str (j_symbol ticker_info)) (MustBeString "symbol")
  ++ when (not_int (j_lookback_days ticker_info)) (MustBeInteger "lookback_days")
  ++ when (not_int (j_prediction_days ticker_info))
       (MustBeInteger "prediction_days")
  ++ when (not_int (j_monte_carlo_runs ticker_info))
       (MustBeInteger "monte_carlo_runs").

(** [l <= o <= h and l <= c <= h]. *)
Definition ohlc_check (o h l c : Q) : bool :=
  Qle_bool l o && Qle_bool o h && Qle_bool l c && Qle_bool c h.

(** The body of the loop of [validate_candlestick_data] for candle [i]. *)
Definition validate_candle (data_type : string) (i : nat) (candle : JCandle)
  : list Message :=
  when (is_none (j_date candle)) (MissingCandleField "date" data_type i)
  ++ when (is_none (j_open candle)) (MissingCandleField "open" data_type i)
  ++ when (is_none (j_high candle)) (MissingCandleField "high" data_type i)
  ++ when (is_none (j_low candle)) (MissingCandleField "low" data_type i)
  ++ when (is_none (j_close candle)) (MissingCandleField "close" data_type i)
  ++ when (is_none (j_volume candle)) (MissingCandleField "volume" data_type i)
  ++ match j_open candle, j_high candle, j_low candle, j_close candle with
     | Some o, Some h, Some l, Some c =>
         when (negb (ohlc_check o h l c)) (InvalidOHLC data_type i o h l c)
     | _, _, _, _ => []
     end
  ++ match j_date candle with
     | Some (Malformed text) => [InvalidDate data_type i text]
     | _ => []
     end.

(** [for i, candle in enumerate(candlesticks)], from index [i] on. *)
Fixpoint validate_candles_from (i : nat) (candlesticks : list JCandle)
    (data_type : string) : list Message :=
  match candlesticks with
  | [] => []
  | candle :: rest =>
      validate_candle data_type i candle
      ++ validate_candles_from (S i) rest data_type
  end.

(** [validate_candlestick_data]. *)
Definition validate_candlestick_data (candlesticks : list JCandle)
    (data_type : string) : list Message :=
  validate_candles_from 0 candlesticks data_type.

Definition point_ok (p : JPoint) : bool :=
  match p with
  | PointDict true true => true
  | _ => false
  end.

Fixpoint validate_points_from (i : nat) (percentile : string) (points : list JPoint)
  : list Message :=
  match points with
  | [] => []
  | p :: rest =>
      when (negb (point_ok p)) (InvalidBandPoint percentile i)
      ++ validate_points_from (S i) percentile rest
  end.

Definition validate_band (percentile : string) (band : option JBand)
  : list Message :=
  match band with
  | None => [MissingBand percentile]
  | Some NotList => [BandMustBeArray percentile]
  | Some (BandList points) => validate_points_from 0 percentile points
  end.

(** [validate_confidence_bands]. *)
Definition validate_confidence_bands (confidence_bands : JBands) : list Message :=
  validate_band "p10" (j_p10 confidence_bands)
  ++ validate_band "p25" (j_p25 confidence_bands)
  ++ validate_band "p50" (j_p50 confidence_bands)
  ++ validate_band "p75" (j_p75 confidence_bands)
  ++ validate_band "p90" (j_p90 confidence_bands).

(** [validate_summary_stats]. *)
Definition validate_summary_stats (summary_stats : JSummaryStats) : list Message :=
  when (negb (has_last_close summary_stats)) (MissingSummary "last_close")
  ++ when (negb (has_predicted_close summary_stats))
       (MissingSummary "predicted_close")
  ++ when (negb (has_price_change summary_stats)) (MissingSummary "price_change")
  ++ when (negb (has_price_change_percent summary_stats))
       (MissingSummary "price_change_percent")
  ++ when (negb (has_direction summary_stats)) (MissingSummary "direction")
  ++ when (negb (has_confidence summary_stats)) (MissingSummary "confidence")
  ++ when (negb (has_volatility summary_stats)) (MissingSummary "volatility")
  ++ when (negb (has_avg_volume summary_stats)) (MissingSummary "avg_volume")
  ++ when (is_none (j_data_quality summary_stats)) (MissingSummary "data_quality")
  ++ match j_data_quality summary_stats with
     | Some dq =>
         when (negb (has_completeness dq)) (MissingDataQuality "completeness")
         ++ when (negb (has_historical_days dq))
              (MissingDataQuality "historical_days")
         ++ when (negb (has_chart_ready dq)) (MissingDataQuality "chart_ready")
     | None => []
     end.

(** The errors and the warnings of the [data] section. *)
Definition validate_data (data_section : JData) : list Message * list Message :=
  let historical :=
    match j_historical_candlesticks data_section with
    | None => [MissingHistorical]
    | Some candles => validate_candlestick_data candles "historical_candlesticks"
    end in
  match j_predicted_candlesticks data_section with
  | None => (historical ++ [MissingPredicted], [])
  | Some [] => (historical, [EmptyPredicted])
  | Some candles =>
      (historical
       ++ validate_candlestick_data candles "predicted_candlesticks", [])
  end.

(** [validate_file] on what was read: validity, errors, warnings. *)
Definition validate_file (content : Content)
  : bool * list Message * list Message :=
  match content with
  | InvalidJSON => (false, [InvalidJSONFile], [])
  | ReadError => (false, [FileReadError], [])
  | Loaded data =>
      let top :=
        when (is_none (j_ticker_info data)) (MissingTopLevel "ticker_info")
        ++ when (is_none (j_data data)) (MissingTopLevel "data")
        ++ when (is_none (j_chart_data data)) (MissingTopLevel "chart_data")
        ++ when (is_none (j_summary_stats data)) (MissingTopLevel "summary_stats") in
      let info :=
        match j_ticker_info data with
        | Some ticker_info => validate_ticker_info ticker_info
        | None => []
        end in
      let section :=
        match j_data data with
        | Some data_section => validate_data data_section
        | None => ([], [])
        end in
      let bands :=
        match j_chart_data data with
        | Some chart_data =>
            match j_confidence_bands chart_data with
            | Some confidence_bands => validate_confidence_bands confidence_bands
            | None => []
            end
        | None => []
        end in
      let stats :=
        match j_summary_stats data with
        | Some summary_stats => validate_summary_stats summary_stats
        | None => []
        end in
      let errors := top ++ info ++ fst section ++ bands ++ stats in
      (match errors with [] => true | _ => false end, errors, snd section)
  end.

(** [self.validation_results]; the messages carry their ticker. *)
Record Results := mkResults {
  total_files : nat;
  valid_files : nat;
  invalid_files : nat;
  errors : list (string * Message);
  warnings : list (string * Message);
  schema_compliance : bool;
  web_app_ready : bool
}.

(** The results of [__init__]. *)
Definition initial_results : Results := mkResults 0 0 0 [] [] true true.

(** The loop of [validate_all_files] over the files, each with its ticker. *)
Fixpoint validate_loop (files : list (string * Content)) (r : Results) : Results :=
  match files with
  | [] => r
  | (ticker, content) :: rest =>
      let '(is_valid, errs, warns) := validate_file content in
      validate_loop rest
        (mkResults (total_files r)
           (if is_valid then S (valid_files r) else valid_files r)
           (if is_valid then invalid_files r else S (invalid_files r))
           (errors r ++ map (fun e => (ticker, e)) errs)
           (warnings r ++ map (fun w => (ticker, w)) warns)
           (if is_valid then schema_compliance r else false)
           (web_app_ready r))
  end.

(** [files[:sample_size]] under [if sample_size:]. *)
Definition sample {A : Type} (sample_size : option nat) (files : list A) : list A :=
  match sample_size with
  | None | Some O => files
  | Some n => firstn n files
  end.

(** [validate_all_files]. *)
Definition validate_all_files (sample_size : option nat)
    (files : list (string * Content)) (r : Results) : Results :=
  let files := sample sample_size files in
  let r :=
    mkResults (length files) (valid_files r) (invalid_files r) (errors r)
      (warnings r) (schema_compliance r) (web_app_ready r) in
  let r := validate_loop files r in
  if (0 <? invalid_files r)%nat
  then mkResults (total_files r) (valid_files r) (invalid_files r) (errors r)
         (warnings r) (schema_compliance r) false
  else r.

(** The file [create_prediction_json] writes, as the validator reads it:
    [ticker_info] has [symbol], [model_type] and [monte_carlo_runs] of the
    keys looked for; [data] holds the ticker and the metadata only;
    [chart_data] has no confidence bands; [summary_stats] has [volatility]
    of the keys looked for. *)
Definition written_by_updater (j : PredictionJson) : JFile :=
  mkJFile
    (Some (mkJTickerInfo (Some (VStr (symbol (ticker_info j)))) None
             (Some (VStr (model_type (ticker_info j)))) None None
             (Some (VInt (Z.of_nat (info_monte_carlo_runs (ticker_info j)))))))
    (Some (mkJData None None))
    (Some (mkJChart None))
    (Some (mkJSummaryStats false false false false false false true false None)).

(** A complete candle: every key present, the date well formed, the prices
    in OHLC order. *)
Definition well_formed (c : JCandle) : Prop :=
  exists d o h l cl v,
    c = mkJCandle (Some (Parses d)) (Some o) (Some h) (Some l) (Some cl) (Some v)
    /\ l <= o /\ o <= h /\ l <= cl /\ cl <= h.

End Validator.

(** ** [update_homepage_stats.py]: [count_predictions] *)

Module Homepage.

(** The value under [price_change_percent]: a number, or something [abs]
    raises on. *)
Inductive JNumber :=
| Number (q : Q)
| NotNumber.

(** What [count_predictions] reads of [summary_stats]. *)
Record JSummary := mkJSummary {
  summary_direction : option string;
  summary_price_change_percent : option JNumber
}.

(** What [count_predictions] reads of a file: the list under
    [data.predicted_candlesticks] and the one under [chart_data.predicted],
    each if present, and the summary if present. *)
Record JFile := mkJFile {
  data_predicted : option (list Candle);
  chart_predicted : option (list Candle);
  file_summary : option JSummary
}.

Record Counts := mkCounts {
  total_files : nat;
  with_predictions : nat;
  bullish : nat;
  bearish : nat;
  neutral : nat;
  total_movement : Q
}.

Record Stats := mkStats {
  stats_total_files : nat;
  stats_with_predictions : nat;
  stats_bullish : nat;
  stats_bearish : nat;
  stats_neutral : nat;
  avg_movement : Q
}.

Definition truthy {A : Type} (o : option (list A)) : bool :=
  match o with Some (_ :: _) => true | _ => false end.

Definition skipped (name : string) : bool :=
  String.eqb name "kronos_adaptive_summary.json"
  || String.eqb name "kronos_gpu_prediction_summary.json".

(** The body of the loop for one file; [None] is a file that cannot be read
    or parsed, passed over by the bare [except], which also ends the body
    where [abs] raises: the counts made before it stay. *)
Definition count_file (name : string) (content : option JFile) (c : Counts)
  : Counts :=
  if skipped name then c
  else
    let c :=
      mkCounts (S (total_files c)) (with_predictions c) (bullish c) (bearish c)
        (neutral c) (total_movement c) in
    match content with
    | None => c
    | Some data =>
        if truthy (data_predicted data) || truthy (chart_predicted data) then
          let c :=
            mkCounts (total_files c) (S (with_predictions c)) (bullish c)
              (bearish c) (neutral c) (total_movement c) in
          match file_summary data with
          | None => c
          | Some summary_stats =>
              let direction :=
                match summary_direction summary_stats with
                | Some d => d
                | None => "Neutral"%string
                end in
              let c :=
                mkCounts (total_files c) (with_predictions c)
                  (if String.eqb direction "Bullish" then S (bullish c)
                   else bullish c)
                  (if String.eqb direction "Bullish" then bearish c
                   else if String.eqb direction "Bearish" then S (bearish c)
                   else bearish c)
                  (if String.eqb direction "Bullish" then neutral c
                   else if String.eqb direction "Bearish" then neutral c
                   else S (neutral c))
                  (total_movement c) in
              match summary_price_change_percent summary_stats with
              | Some NotNumber => c
              | Some (Number p) =>
                  mkCounts (total_files c) (with_predictions c) (bullish c)
                    (bearish c) (neutral c) (total_movement c + Qabs p)
              | None =>
                  mkCounts (total_files c) (with_predictions c) (bullish c)
                    (bearish c) (neutral c) (total_movement c + Qabs 0)
              end
          end
        else c
    end.

(** [count_predictions] over the files the glob found. *)
Definition count_predictions (files : list (string * option JFile)) : Stats :=
  let c :=
    fold_left (fun c f => count_file (fst f) (snd f) c) files
      (mkCounts 0 0 0 0 0 0) in
  let avg :=
    if (0 <? with_predictions c)%nat
    then total_movement c / inject_Z (Z.of_nat (with_predictions c))
    else 0 in
  mkStats (total_files c) (with_predictions c) (bullish c) (bearish c)
    (neutral c) (PyExt.py_round1 avg).

End Homepage.

(** ** [update_available_tickers.py] *)

Module AvailableTickers.

Record Categories := mkCategories {
  technology : nat;
  finance : nat;
  healthcare : nat;
  consumer : nat;
  energy : nat;
  industrial : nat;
  international : nat;
  etfs : nat;
  other : nat
}.

Definition etf_patterns : list string :=
  ["SPY"; "QQQ"; "IWM"; "DIA"; "VTI"; "VOO"; "EFA"; "EEM"; "AGG"; "GLD"; "SLV"]%string.
Definition tech_patterns : list string :=
  ["AAPL"; "MSFT"; "GOOGL"; "META"; "NVDA"; "AMD"; "INTC"; "CRM"; "ORCL"; "IBM"]%string.
Definition finance_patterns : list string :=
  ["JPM"; "BAC"; "GS"; "MS"; "C"; "WFC"; "BLK"; "V"; "MA"; "AXP"]%string.

(** The body of [for ticker in tickers]. *)
Definition categorize (ticker : string) (c : Categories) : Categories :=
  if PyExt.any_in etf_patterns ticker then
    mkCategories (technology c) (finance c) (healthcare c) (consumer c)
      (energy c) (industrial c) (international c) (S (etfs c)) (other c)
  else if PyExt.any_in tech_patterns ticker then
    mkCategories (S (technology c)) (finance c) (healthcare c) (consumer c)
      (energy c) (industrial c) (international c) (etfs c) (other c)
  else if PyExt.any_in finance_patterns ticker then
    mkCategories (technology c) (S (finance c)) (healthcare c) (consumer c)
      (energy c) (industrial c) (international c) (etfs c) (other c)
  else
    mkCategories (technology c) (finance c) (healthcare c) (consumer c)
      (energy c) (industrial c) (international c) (etfs c) (S (other c)).

Record Output := mkOutput {
  tickers : list string;
  total_count : nat;
  last_updated : string;
  categories : Categories
}.

(** [main] from the extracted ticker names on: the sort, the categories and
    the record that is written. *)
Definition main (now : string) (extracted : list string) : Output :=
  let tickers := PyExt.sorted_strings extracted in
  let categories :=
    fold_left (fun c ticker => categorize ticker c) tickers
      (mkCategories 0 0 0 0 0 0 0 0 0) in
  mkOutput tickers (length tickers) (now ++ "Z") categories.

End AvailableTickers.

(** ** [data/process_candlestick.py]: finding and processing files *)

Module Monitor.

(** [os.path.basename]. *)
Fixpoint basename (path : string) : string :=
  match path with
  | EmptyString => EmptyString
  | String _ rest => if PyExt.contains "/" path then basename rest else path
  end.

(** [s.replace(old, new)] for a non-empty [old]; [skip] characters of a
    match are still to be dropped. *)
Fixpoint replace_from (skip : nat) (old new s : string) : string :=
  match s with
  | EmptyString => EmptyString
  | String c rest =>
      match skip with
      | S k => replace_from k old new rest
      | O =>
          if String.prefix old s
          then new ++ replace_from (String.length old - 1) old new rest
          else String c (replace_from 0 old new rest)
      end
  end.

Definition replace (old new s : string) : string := replace_from 0 old new s.

(** [s.split(sep)[0]]. *)
Fixpoint before_first (sep s : string) : string :=
  if String.prefix sep s then EmptyString
  else
    match s with
    | EmptyString => EmptyString
    | String c rest => String c (before_first sep rest)
    end.

(** A parsed file, as each of the two readers sees it. *)
Record Parsed := mkParsed {
  as_ohlcv : Processor.FileData;
  as_timestamped : Timestamped.FileData
}.

Record State := mkState {
  processed_files : list string;
  candlestick_data : list (string * Processor.Processed);
  market_overview : Processor.MarketOverview
}.

(** The state of [__init__]. *)
Definition initial_state : State :=
  mkState [] [] Processor.initial_overview.

(** [s.add(x)] on a set held as a list without repetition. *)
Definition set_add (x : string) (s : list string) : list string :=
  if existsb (String.eqb x) s then s else s ++ [x].

Definition store (ticker : string) (processed_data : option Processor.Processed)
    (candlestick_data : list (string * Processor.Processed))
  : list (string * Processor.Processed) :=
  match processed_data with
  | Some p => Py.dict_set String.eqb ticker p candlestick_data
  | None => candlestick_data
  end.

Section WithEnvironment.
Variable fsqrt : Q -> Q.
(** What opening and parsing a path gives; [None] is an exception. *)
Variable read : string -> option Parsed.

(** [process_prediction_file]. *)
Definition process_prediction_file (file_path : string)
    (candlestick_data : list (string * Processor.Processed))
  : list (string * Processor.Processed) :=
  match read file_path with
  | None => candlestick_data
  | Some data =>
      let filename := basename file_path in
      if PyExt.contains "_ohlcv_prediction.json" filename then
        let ticker := replace "_ohlcv_prediction.json" "" filename in
        store ticker (Processor.process_ohlcv_file fsqrt (as_ohlcv data) ticker)
          candlestick_data
      else if PyExt.contains "_prediction_" filename then
        let ticker := before_first "_prediction_" filename in
        store ticker
          (Timestamped.process_timestamped_file (as_timestamped data) ticker)
          candlestick_data
      else candlestick_data
  end.

(** [for file_path in ...: process_prediction_file; processed_files.add]. *)
Definition process_files (files : list string) (s : State) : State :=
  fold_left
    (fun s file_path =>
       mkState (set_add file_path (processed_files s))
         (process_prediction_file file_path (candlestick_data s))
         (market_overview s))
    files s.

Definition refresh (now : string) (s : State) : State :=
  mkState (processed_files s) (candlestick_data s)
    (Processor.update_market_overview now (candlestick_data s)
       (market_overview s)).

(** [process_new_files]; [prediction_files] is what [find_prediction_files]
    returned. *)
Definition process_new_files (now : string) (prediction_files : list string)
    (s : State) : State :=
  let new_files :=
    filter (fun f => negb (existsb (String.eqb f) (processed_files s)))
      prediction_files in
  match new_files with
  | [] => s
  | _ => refresh now (process_files new_files s)
  end.

(** [process_all_files]. *)
Definition process_all_files (now : string) (prediction_files : list string)
    (s : State) : State :=
  refresh now (process_files prediction_files s).

(** [get_summary_stats]: the counts beside the overview. *)
Definition get_summary_stats (s : State)
  : nat * nat * Processor.MarketOverview :=
  (length (processed_files s), length (candlestick_data s), market_overview s).

End WithEnvironment.

End Monitor.

(** ** Conditions the properties speak of *)

Module Conditions.

(** The percentage change of [process_ohlcv_file] divides by a zero last
    historical close. *)
Definition change_fails (chart : Processor.ChartIn) : Prop :=
  exists h a,
    Py.last_item (Processor.in_historical_candlesticks chart) = Some h
    /\ Py.last_item (Processor.in_actual_candlesticks chart) = Some a
    /\ close h == 0.

(** The volatility of [process_ohlcv_file] divides by a zero mean of the
    last ten actual closes. *)
Definition volatility_fails (chart : Processor.ChartIn) : Prop :=
  let prices :=
    map close (Num.tail 10 (Processor.in_actual_candlesticks chart)) in
  (1 < length prices)%nat /\ Num.mean prices == 0.

(** [top] holds the largest metrics of [all]: the two lists split [all],
    and no entry left out has a metric above one that is in. *)
Definition holds_largest (all top : list Processor.Entry) : Prop :=
  exists rest,
    Permutation (top ++ rest) all
    /\ forall e x, In e top -> In x rest ->
         Processor.metric x <= Processor.metric e.

Definition holds_smallest (all top : list Processor.Entry) : Prop :=
  exists rest,
    Permutation (top ++ rest) all
    /\ forall e x, In e top -> In x rest ->
         Processor.metric e <= Processor.metric x.

(** A string without the character [c]. *)
Fixpoint lacks (c : Ascii.ascii) (s : string) : Prop :=
  match s with
  | EmptyString => True
  | String c' s' => c' <> c /\ lacks c s'
  end.

End Conditions.

(** ** More sample inputs *)

Module MoreSamples.

(** One actual candle after the sample window. *)
Definition actual_candle : Candle := mkCandle 739530 120 123 119 122 1000.

Definition actual_chart : Processor.ChartIn :=
  Processor.mkChartIn Samples.window [actual_candle] [].

(** A prediction file whose first actual candle has come in. *)
Definition actual_file : Processor.FileData :=
  Processor.mkFileData (Some actual_chart) None None.

(** A parsed file that holds the fresh OHLCV file and, read the other way,
    the sample window as its timestamped candle list. *)
Definition parsed : Monitor.Parsed :=
  Monitor.mkParsed Samples.fresh_file
    (Timestamped.mkFileData (Some Samples.window) None None None).

(** A directory where every path reads as [parsed]. *)
Definition read_parsed (path : string) : option Monitor.Parsed := Some parsed.

End MoreSamples.

(** * Properties *)

(** ** Rounding and the clamp *)

Module NumFacts.
Import Num.

Lemma py_max_ub a b : a <= py_max a b /\ b <= py_max a b.
Proof. unfold py_max; destruct (Qlt_le_dec a b); split; lra. Qed.

Lemma py_min_lb a b : py_min a b <= a /\ py_min a b <= b.
Proof. unfold py_min; destruct (Qlt_le_dec b a); split; lra. Qed.

Lemma py_max3_ub a b c :
  a <= py_max3 a b c /\ b <= py_max3 a b c /\ c <= py_max3 a b c.
Proof.
  unfold py_max3.
  destruct (py_max_ub a b), (py_max_ub (py_max a b) c); repeat split; lra.
Qed.

Lemma py_min3_lb a b c :
  py_min3 a b c <= a /\ py_min3 a b c <= b /\ py_min3 a b c <= c.
Proof.
  unfold py_min3.
  destruct (py_min_lb a b), (py_min_lb (py_min a b) c); repeat split; lra.
Qed.

Lemma floor_bounds t :
  inject_Z (Qfloor t) <= t /\ t < inject_Z (Qfloor t) + 1.
Proof.
  split; [apply Qfloor_le|].
  generalize (Qlt_floor t); rewrite inject_Z_plus; simpl; auto.
Qed.

Lemma round_half_even_mono t u :
  t <= u -> (round_half_even t <= round_half_even u)%Z.
Proof.
  intros Htu. unfold round_half_even.
  pose proof (Qfloor_resp_le _ _ Htu) as Hf.
  destruct (floor_bounds t) as [Ht1 Ht2], (floor_bounds u) as [Hu1 Hu2].
  destruct (Z.eq_dec (Qfloor t) (Qfloor u)) as [E|N].
  - rewrite <- E in *.
    destruct (Qcompare_spec (t - inject_Z (Qfloor t)) (1 # 2));
      destruct (Qcompare_spec (u - inject_Z (Qfloor t)) (1 # 2));
      try (exfalso; lra); try lia; destruct (Z.even (Qfloor t)); lia.
  - assert (Qfloor t + 1 <= Qfloor u)%Z by lia.
    destruct (Qcompare _ (1 # 2)); destruct (Qcompare _ (1 # 2));
      repeat match goal with |- context [if ?b then _ else _] => destruct b end;
      lia.
Qed.

Lemma py_round2_mono x y : x <= y -> py_round2 x <= py_round2 y.
Proof.
  intros H. unfold py_round2.
  assert (x * 100 <= y * 100) as H100 by lra.
  apply round_half_even_mono in H100.
  rewrite Zle_Qle in H100.
  unfold Qdiv. apply Qmult_le_compat_r; [assumption | discriminate].
Qed.

End NumFacts.

(** ** The path simulator *)

Module SimulatorFacts.
Import Predictions.

Lemma clamp_candle_ok d o h l c v : ohlc_ok (clamp_candle d o h l c v).
Proof.
  unfold ohlc_ok, clamp_candle; simpl.
  destruct (NumFacts.py_max3_ub h o c) as (_ & Ho & Hc).
  destruct (NumFacts.py_min3_lb l o c) as (_ & Lo & Lc).
  repeat split; apply NumFacts.py_round2_mono; assumption.
Qed.

Lemma simulate_days_spec mr rm rv av last_date remaining :
  forall i price st,
    let r := simulate_days mr rm rv av last_date i remaining price st in
    length (fst r) = remaining
    /\ Forall ohlc_ok (fst r)
    /\ map date (fst r) = map (Calendar.pred_date last_date) (seq i remaining)
    /\ Forall (fun c => volume c = av) (fst r).
Proof.
  induction remaining as [|k IH]; intros i price st; simpl.
  - repeat split; constructor.
  - unfold Rng.normal, Rng.uniform, Rng.next_sample; simpl.
    match goal with
    | |- context [simulate_days mr rm rv av last_date (S i) k ?p ?s] =>
        specialize (IH (S i) p s); destruct (simulate_days mr rm rv av last_date (S i) k p s)
          as [rest st'] eqn:E
    end.
    simpl in *. destruct IH as (Hl & Ho & Hd & Hv).
    repeat split.
    + now rewrite Hl.
    + constructor; [apply clamp_candle_ok | assumption].
    + now rewrite Hd.
    + constructor; [reflexivity | assumption].
Qed.

Lemma generate_predictions_short fsqrt hist n st :
  (length hist < 20)%nat -> generate_predictions fsqrt hist n st = Some (None, st).
Proof.
  intros H. unfold generate_predictions.
  apply Nat.ltb_lt in H. now rewrite H.
Qed.

Lemma finite_values_length s : forall l,
  Num.finite_values s = Some l -> length l = length s.
Proof.
  induction s as [|[x|] s IH]; intros l H; cbn [Num.finite_values] in H.
  - injection H as <-. reflexivity.
  - destruct (Num.finite_values s) as [l'|]; [|discriminate H].
    injection H as <-. cbn [length]. now rewrite (IH l').
  - discriminate H.
Qed.

Lemma finite_values_skipn k : forall s l,
  Num.finite_values s = Some l ->
  Num.finite_values (skipn k s) = Some (skipn k l).
Proof.
  induction k as [|k IH]; intros s l H; [exact H|].
  destruct s as [|[x|] s]; cbn [Num.finite_values] in H.
  - injection H as <-. reflexivity.
  - destruct (Num.finite_values s) as [l'|] eqn:E; [|discriminate H].
    injection H as <-. cbn [skipn]. now apply IH.
  - discriminate H.
Qed.

Lemma finite_values_tail k s l :
  Num.finite_values s = Some l ->
  Num.finite_values (Num.tail k s) = Some (Num.tail k l).
Proof.
  intros H. unfold Num.tail. rewrite (finite_values_length s l H).
  now apply finite_values_skipn.
Qed.

Lemma tail_length_ge {A} (l : list A) :
  (2 <= length l)%nat -> (2 <= length (Num.tail 20 l))%nat.
Proof. intros H. unfold Num.tail. rewrite length_skipn. lia. Qed.

Lemma tail_length_le {A} k (l : list A) :
  (length (Num.tail k l) <= length l)%nat.
Proof. unfold Num.tail. rewrite length_skipn. lia. Qed.

(** On steady returns the three statistics of the simulator are finite. *)
Lemma steady_statistics fsqrt hist :
  steady hist ->
  exists returns,
    Num.finite_values (Num.pct_change (map close hist)) = Some returns
    /\ (2 <= length returns)%nat
    /\ Num.series_mean (Num.pct_change (map close hist))
       = Some (Num.mean returns)
    /\ Num.series_mean (Num.tail 20 (Num.pct_change (map close hist)))
       = Some (Num.mean (Num.tail 20 returns))
    /\ Num.series_std fsqrt (Num.tail 20 (Num.pct_change (map close hist)))
       = Some (Num.std_sample fsqrt (Num.tail 20 returns))
    /\ Num.series_std fsqrt (Num.pct_change (map close hist))
       = Some (Num.std_sample fsqrt returns).
Proof.
  intros (returns & E & Hl). exists returns.
  pose proof (finite_values_tail 20 _ _ E) as Et.
  pose proof (tail_length_ge returns Hl) as Ht.
  unfold Num.series_mean, Num.series_std. rewrite E, Et.
  split; [reflexivity|]. split; [exact Hl|].
  split; [destruct returns; [cbn in Hl; lia | reflexivity]|].
  split; [destruct (Num.tail 20 returns); [cbn in Ht; lia | reflexivity]|].
  apply Nat.leb_le in Ht, Hl. rewrite Ht, Hl. split; reflexivity.
Qed.

(** And only there. *)
Lemma statistics_steady fsqrt hist mean_return recent_volatility :
  Num.series_mean (Num.pct_change (map close hist)) = Some mean_return ->
  Num.series_std fsqrt (Num.tail 20 (Num.pct_change (map close hist)))
  = Some recent_volatility ->
  steady hist.
Proof.
  unfold Num.series_mean, Num.series_std. intros Hm Hv.
  destruct (Num.finite_values (Num.pct_change (map close hist)))
    as [returns|] eqn:E; [|discriminate Hm].
  rewrite (finite_values_tail 20 _ _ E) in Hv.
  destruct (2 <=? length (Num.tail 20 returns))%nat eqn:B; [|discriminate Hv].
  apply Nat.leb_le in B. exists returns. split; [exact E|].
  pose proof (tail_length_le 20 returns). lia.
Qed.

Lemma steady_dec hist : steady hist \/ ~ steady hist.
Proof.
  unfold steady.
  destruct (Num.finite_values (Num.pct_change (map close hist))) as [returns|].
  - destruct (le_lt_dec 2 (length returns)) as [H|H].
    + left. exists returns. now split.
    + right. intros (r & E & Hr). injection E as <-. lia.
  - right. intros (r & E & _). discriminate E.
Qed.

Lemma pct_change_cons p c rest :
  Num.pct_change (p :: c :: rest)
  = if Qeq_bool p 0 then
      if Qeq_bool c 0 then Num.pct_change (c :: rest)
      else Num.Infinite :: Num.pct_change (c :: rest)
    else Num.Finite (c / p - 1) :: Num.pct_change (c :: rest).
Proof. reflexivity. Qed.

(** Without a zero close every return is finite. *)
Lemma nonzero_closes_returns closes :
  Forall (fun c => ~ c == 0) closes ->
  exists returns,
    Num.finite_values (Num.pct_change closes) = Some returns
    /\ length returns = (length closes - 1)%nat.
Proof.
  induction closes as [|p rest IH]; intros H.
  - exists []. split; reflexivity.
  - inversion H as [|? ? Hp Hr]; subst.
    destruct (IH Hr) as (returns & E & L).
    destruct rest as [|c rest'].
    + exists []. split; reflexivity.
    + rewrite pct_change_cons.
      destruct (Qeq_bool p 0) eqn:B; [apply Qeq_bool_eq in B; contradiction|].
      cbn [Num.finite_values]. rewrite E.
      eexists. split; [reflexivity|]. cbn [length] in *. lia.
Qed.

Lemma nonzero_closes_steady hist :
  nonzero_closes hist -> (3 <= length hist)%nat -> steady hist.
Proof.
  intros H Hl.
  destruct (nonzero_closes_returns (map close hist)) as (returns & E & L).
  { apply Forall_map. exact H. }
  exists returns. split; [exact E|]. rewrite L, length_map. lia.
Qed.

Lemma forallb_nonzero_closes hist :
  forallb (fun row => negb (Qeq_bool (close row) 0)) hist = true ->
  nonzero_closes hist.
Proof.
  intros H. apply Forall_forall. intros row Hin Hz.
  rewrite forallb_forall in H. specialize (H row Hin).
  apply Qeq_bool_iff in Hz. rewrite Hz in H. discriminate H.
Qed.

(** A non-zero close right after a zero close makes a return infinite. *)
Lemma zero_then_nonzero closes :
  forall i a b,
    nth_error closes i = Some a -> nth_error closes (S i) = Some b ->
    a == 0 -> ~ b == 0 ->
    Num.finite_values (Num.pct_change closes) = None.
Proof.
  induction closes as [|p rest IH]; intros i a b Ha Hb Za Zb.
  - destruct i; discriminate Ha.
  - destruct rest as [|c rest']; [destruct i; discriminate Hb|].
    rewrite pct_change_cons. destruct i as [|i].
    + cbn in Ha, Hb. injection Ha as <-. injection Hb as <-.
      apply Qeq_bool_iff in Za. rewrite Za.
      destruct (Qeq_bool c 0) eqn:B; [apply Qeq_bool_eq in B; contradiction|].
      reflexivity.
    + cbn [nth_error] in Ha, Hb.
      pose proof (IH i a b Ha Hb Za Zb) as R.
      destruct (Qeq_bool p 0); [destruct (Qeq_bool c 0)|];
        cbn [Num.finite_values]; now rewrite ?R.
Qed.

Lemma zero_then_nonzero_close hist i a b :
  nth_error hist i = Some a -> nth_error hist (S i) = Some b ->
  close a == 0 -> ~ close b == 0 -> ~ steady hist.
Proof.
  intros Ha Hb Za Zb (returns & E & _).
  rewrite (zero_then_nonzero (map close hist) i (close a) (close b)) in E;
    [discriminate E | | | exact Za | exact Zb];
    rewrite nth_error_map; [rewrite Ha | rewrite Hb]; reflexivity.
Qed.

(** What a returned path is. *)
Lemma generate_predictions_returned fsqrt hist n st preds st' :
  generate_predictions fsqrt hist n st = Some (Some preds, st') ->
  (20 <= length hist)%nat
  /\ length preds = n
  /\ Forall ohlc_ok preds
  /\ map date preds
     = Calendar.prediction_dates (last (map date hist) 0%Z) n
  /\ Forall (fun c => volume c = Num.mean (Num.tail 20 (map volume hist))) preds.
Proof.
  unfold generate_predictions. intros E.
  destruct (length hist <? 20)%nat eqn:B; [discriminate E|].
  apply Nat.ltb_ge in B. split; [exact B|].
  destruct n as [|n].
  - injection E as <- <-. repeat split; constructor.
  - destruct (Num.series_mean (Num.pct_change (map close hist)))
      as [mr|]; [|discriminate E].
    destruct (Num.series_mean (Num.tail 20 (Num.pct_change (map close hist))))
      as [rm|]; [|discriminate E].
    destruct (Num.series_std fsqrt
                (Num.tail 20 (Num.pct_change (map close hist))))
      as [rv|]; [|discriminate E].
    match type of E with
    | context [simulate_days ?a ?b ?c ?d ?e 0 (S n) ?p st] =>
        pose proof (simulate_days_spec a b c d e (S n) 0%nat p st) as Sp;
        destruct (simulate_days a b c d e 0 (S n) p st) as [path st1]
    end.
    injection E as <- <-. cbv zeta in Sp. cbn [fst] in Sp.
    destruct Sp as (Hl & Ho & Hd & Hv). repeat split; assumption.
Qed.

Lemma generate_predictions_long fsqrt hist n st :
  (20 <= length hist)%nat -> steady hist ->
  exists preds st',
    generate_predictions fsqrt hist n st = Some (Some preds, st')
    /\ length preds = n
    /\ Forall ohlc_ok preds
    /\ map date preds
       = Calendar.prediction_dates (last (map date hist) 0%Z) n.
Proof.
  intros H Hs.
  assert (exists preds st',
            generate_predictions fsqrt hist n st = Some (Some preds, st'))
    as (preds & st' & E).
  { unfold generate_predictions.
    apply Nat.ltb_ge in H. rewrite H.
    destruct n as [|n]; [eexists; eexists; reflexivity|].
    destruct (steady_statistics fsqrt hist Hs)
      as (returns & _ & _ & -> & -> & -> & _).
    match goal with
    | |- context [simulate_days ?a ?b ?c ?d ?e 0 (S n) ?p st] =>
        destruct (simulate_days a b c d e 0 (S n) p st) as [path st1]
    end.
    eexists; eexists; reflexivity. }
  exists preds, st'. split; [exact E|].
  destruct (generate_predictions_returned _ _ _ _ _ _ E) as (_ & A & B & C & _).
  repeat split; assumption.
Qed.

(** With a day to predict the run raises exactly on returns that are not
    steady. *)
Lemma generate_predictions_raises fsqrt hist n st :
  (20 <= length hist)%nat -> (0 < n)%nat ->
  (generate_predictions fsqrt hist n st = None <-> ~ steady hist).
Proof.
  intros H Hn. split.
  - intros E Hs.
    destruct (generate_predictions_long fsqrt hist n st H Hs)
      as (preds & st' & E' & _).
    rewrite E in E'. discriminate E'.
  - intros Hs. unfold generate_predictions.
    apply Nat.ltb_ge in H. rewrite H.
    destruct n as [|n]; [lia|].
    destruct (Num.series_mean (Num.pct_change (map close hist)))
      as [mr|] eqn:Em; [|reflexivity].
    destruct (Num.series_mean (Num.tail 20 (Num.pct_change (map close hist))))
      as [rm|]; [|reflexivity].
    destruct (Num.series_std fsqrt
                (Num.tail 20 (Num.pct_change (map close hist))))
      as [rv|] eqn:Ev; [|reflexivity].
    exfalso. apply Hs. exact (statistics_steady fsqrt hist mr rv Em Ev).
Qed.

(** A window of at least 20 rows never gives the returned [None]. *)
Lemma generate_predictions_not_short fsqrt hist n st st' :
  (20 <= length hist)%nat ->
  generate_predictions fsqrt hist n st <> Some (None, st').
Proof.
  intros H E. unfold generate_predictions in E.
  apply Nat.ltb_ge in H. rewrite H in E.
  destruct n as [|n]; [discriminate E|].
  destruct (Num.series_mean (Num.pct_change (map close hist)));
    [|discriminate E].
  destruct (Num.series_mean (Num.tail 20 (Num.pct_change (map close hist))));
    [|discriminate E].
  destruct (Num.series_std fsqrt
              (Num.tail 20 (Num.pct_change (map close hist))));
    [|discriminate E].
  match type of E with
  | context [simulate_days ?a ?b ?c ?d ?e 0 (S n) ?p st] =>
      destruct (simulate_days a b c d e 0 (S n) p st) as [path st1]
  end.
  discriminate E.
Qed.

End SimulatorFacts.

(** C1. Every candle of a simulated path satisfies the OHLC invariant:
    whatever the window, the square root, the horizon and the random
    stream, a path that [generate_predictions] returns has the requested
    length and all its candles have [low <= open <= high] and
    [low <= close <= high].  A path is returned for every window of at
    least 20 rows in which no close is zero; after a zero close the returns
    are not finite and the simulator may raise instead. *)
Theorem C1_predicted_candles_ohlc :
  forall fsqrt hist prediction_days st,
    (forall preds st',
       Predictions.generate_predictions fsqrt hist prediction_days st
       = Some (Some preds, st') ->
       length preds = prediction_days
       /\ forall c, In c preds ->
            low c <= open c /\ open c <= high c
            /\ low c <= close c /\ close c <= high c)
    /\ ((20 <= length hist)%nat -> nonzero_closes hist ->
        exists preds st',
          Predictions.generate_predictions fsqrt hist prediction_days st
          = Some (Some preds, st')).
Proof.
  intros fsqrt hist n st. split.
  - intros preds st' E.
    destruct (SimulatorFacts.generate_predictions_returned _ _ _ _ _ _ E)
      as (_ & Hl & Ho & _).
    split; [exact Hl|]. intros c Hc.
    rewrite Forall_forall in Ho. apply (Ho c) in Hc. exact Hc.
  - intros H Hz.
    destruct (SimulatorFacts.generate_predictions_long fsqrt hist n st H)
      as (preds & st' & E & _).
    { apply SimulatorFacts.nonzero_closes_steady; [exact Hz | lia]. }
    exists preds, st'. exact E.
Qed.

Lemma C1_predicted_candles_ohlc_witness :
  exists preds st',
    Predictions.generate_predictions Num.sqrt_fix Samples.window 5 Samples.rng
    = Some (Some preds, st')
    /\ length preds = 5%nat
    /\ forall c, In c preds ->
         low c <= open c /\ open c <= high c
         /\ low c <= close c /\ close c <= high c.
Proof.
  destruct (C1_predicted_candles_ohlc Num.sqrt_fix Samples.window 5 Samples.rng)
    as [Hret Hex].
  destruct Hex as (preds & st' & E).
  - vm_compute. lia.
  - apply SimulatorFacts.forallb_nonzero_closes. vm_compute. reflexivity.
  - exists preds, st'. split; [exact E|]. exact (Hret preds st' E).
Defined.

(** ** The calendar walk *)

Module CalendarFacts.
Import Calendar.
Open Scope Z_scope.

Ltac weekday_lia :=
  unfold trading_day, weekday in *; Z.div_mod_to_equations; lia.

Ltac split_weekday :=
  match goal with
  | |- context [(5 <=? weekday ?x)] =>
      destruct (Z.leb_spec 5 (weekday x)); try (exfalso; weekday_lia)
  | |- context [(weekday ?x <? 5)] =>
      destruct (Z.ltb_spec (weekday x) 5); try (exfalso; weekday_lia)
  end.

Lemma weekday_range d : 0 <= weekday d < 7.
Proof. unfold weekday; apply Z.mod_pos_bound; lia. Qed.

(** Two unrollings exhaust the weekend loop: the result is a trading day. *)
Lemma skip_weekends_spec d :
  let r := skip_weekends 2 d in
  trading_day r /\ d <= r <= d + 2 /\ (trading_day d -> r = d).
Proof.
  simpl. repeat split_weekday; repeat split; intros; try weekday_lia.
Qed.

(** More fuel changes nothing. *)
Lemma skip_weekends_fuel fuel d :
  (2 <= fuel)%nat -> skip_weekends fuel d = skip_weekends 2 d.
Proof.
  intros H. destruct fuel as [|[|fuel]]; try lia.
  simpl. repeat split_weekday; try reflexivity.
  destruct fuel; simpl; [reflexivity|].
  repeat split_weekday; reflexivity.
Qed.

Lemma next_trading_day_spec d :
  trading_day (next_trading_day d) /\ d < next_trading_day d.
Proof.
  unfold next_trading_day.
  destruct (skip_weekends_spec (d + 1)) as (H1 & H2 & _).
  split; [assumption | lia].
Qed.

(** The walk of the specification yields distinct trading days in
    strictly increasing order. *)
Lemma trading_walk_spec n : forall d,
  length (trading_walk d n) = n
  /\ Forall trading_day (trading_walk d n)
  /\ Forall (fun x => d < x) (trading_walk d n)
  /\ increasing (trading_walk d n).
Proof.
  induction n as [|n IH]; intros d; simpl.
  - repeat split; constructor.
  - destruct (next_trading_day_spec d) as [Ht Hlt].
    destruct (IH (next_trading_day d)) as (Hl & Hd & Hb & Hi).
    repeat split.
    + now rewrite Hl.
    + constructor; assumption.
    + constructor; [assumption|].
      eapply Forall_impl; [|exact Hb]. simpl; intros; lia.
    + constructor; assumption.
Qed.

(** The loop of [fix_qqq_predictions] is that walk: seven unrollings
    collect the five dates, whatever the weekday of the start. *)
Lemma qqq_dates_walk d : qqq_predicted_dates d = trading_walk d 5.
Proof.
  unfold qqq_predicted_dates, trading_walk, next_trading_day.
  pose proof (weekday_range d) as R.
  assert (weekday d = 0 \/ weekday d = 1 \/ weekday d = 2 \/ weekday d = 3
          \/ weekday d = 4 \/ weekday d = 5 \/ weekday d = 6) as C by lia.
  clear R. simpl.
  repeat destruct C as [C|C]; repeat (split_weekday; simpl);
    repeat (f_equal; try lia).
Qed.

Lemma qqq_dates_fuel fuel d :
  (7 <= fuel)%nat -> qqq_dates_loop fuel d [] = qqq_predicted_dates d.
Proof.
  intros H. do 7 (destruct fuel as [|fuel]; [lia|]). clear H.
  unfold qqq_predicted_dates.
  pose proof (weekday_range d) as R.
  assert (weekday d = 0 \/ weekday d = 1 \/ weekday d = 2 \/ weekday d = 3
          \/ weekday d = 4 \/ weekday d = 5 \/ weekday d = 6) as C by lia.
  clear R. simpl.
  repeat destruct C as [C|C]; repeat (split_weekday; simpl);
    try reflexivity; destruct fuel; reflexivity.
Qed.

Lemma strongly_sorted_lt_nodup l : StronglySorted Z.lt l -> NoDup l.
Proof.
  induction 1 as [|a l Hs IH Hf]; constructor; [|assumption].
  intros Hin. rewrite Forall_forall in Hf. specialize (Hf a Hin). lia.
Qed.

End CalendarFacts.

(** The date loop of [fix_qqq_predictions] walks trading day by trading
    day: five pairwise distinct weekdays in strictly increasing order, each
    the next trading day after the one before. *)
Theorem qqq_dates_consecutive_trading_days :
  forall last_date,
    Calendar.qqq_predicted_dates last_date = Calendar.trading_walk last_date 5
    /\ length (Calendar.qqq_predicted_dates last_date) = 5%nat
    /\ Forall Calendar.trading_day (Calendar.qqq_predicted_dates last_date)
    /\ Calendar.increasing (Calendar.qqq_predicted_dates last_date)
    /\ NoDup (Calendar.qqq_predicted_dates last_date).
Proof.
  intros d. rewrite CalendarFacts.qqq_dates_walk.
  destruct (CalendarFacts.trading_walk_spec 5 d) as (Hl & Ht & _ & Hi).
  repeat split; try assumption.
  now apply CalendarFacts.strongly_sorted_lt_nodup.
Qed.

(** C2. The dates of [generate_predictions] are not the trading-day walk:
    each one restarts from the last historical date.  After the window that
    ends on Friday 2025-10-03 the five forecast dates are Monday 2025-10-06
    three times, then Tuesday and Wednesday: they repeat, and they differ
    from the walk that advances from the previous forecast date. *)
Theorem C2_dates_after_friday_repeat :
  forall fsqrt st,
    exists preds st',
      Predictions.generate_predictions fsqrt Samples.window 5 st
      = Some (Some preds, st')
      /\ map date preds = [739530; 739530; 739530; 739531; 739532]%Z
      /\ ~ NoDup (map date preds)
      /\ Calendar.trading_walk 739527 5
         = [739530; 739531; 739532; 739533; 739534]%Z.
Proof.
  intros fsqrt st.
  destruct (SimulatorFacts.generate_predictions_long fsqrt Samples.window 5 st)
    as (preds & st' & E & _ & _ & Hd).
  { simpl. lia. }
  { apply SimulatorFacts.nonzero_closes_steady; [|simpl; lia].
    apply SimulatorFacts.forallb_nonzero_closes. vm_compute. reflexivity. }
  exists preds, st'. split; [exact E|].
  assert (map date preds = [739530; 739530; 739530; 739531; 739532]%Z) as D
    by (rewrite Hd; reflexivity).
  repeat split.
  - exact D.
  - rewrite D. intros N. inversion N as [|? ? Hn _]. apply Hn. simpl; auto.
Qed.

(** ** The stable sort *)

Module SortFacts.
Import Py.

Section Sort.
Context {A : Type} (key : A -> Q).


Lemma insert_asc_perm x l : Permutation (insert_asc key x l) (x :: l).
Proof.
  induction l as [|y l IH]; simpl; [reflexivity|].
  destruct (Qlt_le_dec (key y) (key x)); [|reflexivity].
  rewrite IH. apply perm_swap.
Qed.

Lemma insert_desc_perm x l : Permutation (insert_desc key x l) (x :: l).
Proof.
  induction l as [|y l IH]; simpl; [reflexivity|].
  destruct (Qlt_le_dec (key x) (key y)); [|reflexivity].
  rewrite IH. apply perm_swap.
Qed.

Lemma sorted_by_perm r l : Permutation (sorted_by key r l) l.
Proof.
  induction l as [|x l IH]; simpl; [reflexivity|].
  destruct r; [rewrite insert_desc_perm | rewrite insert_asc_perm];
    now apply perm_skip.
Qed.

Lemma sorted_by_length r l : length (sorted_by key r l) = length l.
Proof. apply Permutation_length, sorted_by_perm. Qed.

Lemma insert_asc_sorted x l :
  StronglySorted (asc key) l -> StronglySorted (asc key) (insert_asc key x l).
Proof.
  induction 1 as [|y l Hs IH Hf]; simpl.
  - repeat constructor.
  - destruct (Qlt_le_dec (key y) (key x)) as [Hlt|Hle].
    + constructor; [assumption|].
      eapply Permutation_Forall.
      * symmetry; apply insert_asc_perm.
      * constructor; [unfold asc; lra | assumption].
    + constructor; [constructor; assumption|].
      constructor; [exact Hle|].
      eapply Forall_impl; [|exact Hf]. unfold asc; intros; lra.
Qed.

Lemma insert_desc_sorted x l :
  StronglySorted (desc key) l -> StronglySorted (desc key) (insert_desc key x l).
Proof.
  induction 1 as [|y l Hs IH Hf]; simpl.
  - repeat constructor.
  - destruct (Qlt_le_dec (key x) (key y)) as [Hlt|Hle].
    + constructor; [assumption|].
      eapply Permutation_Forall.
      * symmetry; apply insert_desc_perm.
      * constructor; [unfold desc; lra | assumption].
    + constructor; [constructor; assumption|].
      constructor; [exact Hle|].
      eapply Forall_impl; [|exact Hf]. unfold desc; intros; lra.
Qed.

Lemma sorted_by_asc l : StronglySorted (asc key) (sorted_by key false l).
Proof.
  induction l; simpl; [constructor | now apply insert_asc_sorted].
Qed.

Lemma sorted_by_desc l : StronglySorted (desc key) (sorted_by key true l).
Proof.
  induction l; simpl; [constructor | now apply insert_desc_sorted].
Qed.

(** An insertion never moves an element past one of the same key. *)
Lemma insert_asc_stable k x l :
  filter (same_key key k) (insert_asc key x l) = filter (same_key key k) (x :: l).
Proof.
  induction l as [|y l IH]; [reflexivity|].
  simpl insert_asc. destruct (Qlt_le_dec (key y) (key x)) as [Hlt|Hle];
    [|reflexivity].
  simpl in *. rewrite IH. unfold same_key.
  destruct (Qeq_bool (key x) k) eqn:Ex, (Qeq_bool (key y) k) eqn:Ey;
    try reflexivity.
  apply Qeq_bool_iff in Ex, Ey. lra.
Qed.

Lemma insert_desc_stable k x l :
  filter (same_key key k) (insert_desc key x l) = filter (same_key key k) (x :: l).
Proof.
  induction l as [|y l IH]; [reflexivity|].
  simpl insert_desc. destruct (Qlt_le_dec (key x) (key y)) as [Hlt|Hle];
    [|reflexivity].
  simpl in *. rewrite IH. unfold same_key.
  destruct (Qeq_bool (key x) k) eqn:Ex, (Qeq_bool (key y) k) eqn:Ey;
    try reflexivity.
  apply Qeq_bool_iff in Ex, Ey. lra.
Qed.

Lemma sorted_by_stable k r l :
  filter (same_key key k) (sorted_by key r l) = filter (same_key key k) l.
Proof.
  induction l as [|x l IH]; [reflexivity|].
  simpl sorted_by.
  destruct r; [rewrite insert_desc_stable | rewrite insert_asc_stable];
    simpl; fold (sorted_by key true l); fold (sorted_by key false l);
    rewrite IH; reflexivity.
Qed.
End Sort.

Lemma sorted_nth_le s :
  StronglySorted (asc (fun x => x)) s ->
  forall i j, (i <= j < length s)%nat -> nth i s 0 <= nth j s 0.
Proof.
  induction 1 as [|a l Hs IH Hf]; intros i j Hij; simpl in *; [lia|].
  destruct i as [|i], j as [|j]; try lia.
  - lra.
  - rewrite Forall_forall in Hf. apply Hf, nth_In. lia.
  - apply IH. lia.
Qed.
End SortFacts.

(** ** Percentiles *)

Module PercentileFacts.

Lemma floor_index v n :
  0 <= v -> v <= inject_Z (Z.of_nat n) ->
  (0 <= Qfloor v)%Z /\ (Z.to_nat (Qfloor v) <= n)%nat.
Proof.
  intros H0 Hn.
  pose proof (Qfloor_resp_le _ _ H0) as F0.
  pose proof (Qfloor_resp_le _ _ Hn) as Fn.
  rewrite Qfloor_Z in Fn. change (Qfloor 0) with 0%Z in F0.
  split; lia.
Qed.

Lemma interpolate_between s v :
  StronglySorted (Py.asc (fun x => x)) s ->
  0 <= v -> v <= inject_Z (Z.of_nat (length s - 1)) -> (0 < length s)%nat ->
  nth (Z.to_nat (Qfloor v)) s 0 <= interpolate s v
  /\ interpolate s v
     <= nth (Nat.min (S (Z.to_nat (Qfloor v))) (length s - 1)) s 0.
Proof.
  intros Hs H0 Hn Hlen. unfold interpolate.
  destruct (floor_index v _ H0 Hn) as [F0 Fn].
  destruct (NumFacts.floor_bounds v) as [B1 B2].
  set (p := Z.to_nat (Qfloor v)) in *.
  assert (nth p s 0 <= nth (Nat.min (S p) (length s - 1)) s 0) as Hab
    by (apply SortFacts.sorted_nth_le; [assumption | lia]).
  set (a := nth p s 0) in *. set (b := nth _ s 0) in *.
  set (g := v - inject_Z (Qfloor v)).
  assert (0 <= g /\ g <= 1) as [G0 G1] by (unfold g; lra).
  split; nra.
Qed.

Lemma interpolate_mono s v1 v2 :
  StronglySorted (Py.asc (fun x => x)) s ->
  (0 < length s)%nat ->
  0 <= v1 -> v1 <= v2 -> v2 <= inject_Z (Z.of_nat (length s - 1)) ->
  interpolate s v1 <= interpolate s v2.
Proof.
  intros Hs Hlen H0 H12 Hn.
  assert (v1 <= inject_Z (Z.of_nat (length s - 1))) as Hn1 by lra.
  assert (0 <= v2) as H02 by lra.
  destruct (floor_index v1 _ H0 Hn1) as [F1 L1].
  destruct (floor_index v2 _ H02 Hn) as [F2 L2].
  pose proof (Qfloor_resp_le _ _ H12) as F12.
  destruct (Z.eq_dec (Qfloor v1) (Qfloor v2)) as [E|N].
  - unfold interpolate. rewrite <- E.
    set (p := Z.to_nat (Qfloor v1)) in *.
    assert (nth p s 0 <= nth (Nat.min (S p) (length s - 1)) s 0) as Hab
      by (apply SortFacts.sorted_nth_le; [assumption | lia]).
    set (a := nth p s 0) in *. set (b := nth _ s 0) in *.
    destruct (NumFacts.floor_bounds v1) as [B1 _].
    nra.
  - destruct (interpolate_between s v1 Hs H0 Hn1 Hlen) as [_ U].
    destruct (interpolate_between s v2 Hs H02 Hn Hlen) as [L _].
    assert (nth (Nat.min (S (Z.to_nat (Qfloor v1))) (length s - 1)) s 0
            <= nth (Z.to_nat (Qfloor v2)) s 0) as M
      by (apply SortFacts.sorted_nth_le; [assumption | lia]).
    lra.
Qed.

Lemma np_percentile_mono values q1 q2 :
  values <> [] -> 0 <= q1 -> q1 <= q2 -> q2 <= 100 ->
  np_percentile values q1 <= np_percentile values q2.
Proof.
  intros Hne H0 H12 H100. unfold np_percentile.
  set (s := Py.sorted_by (fun x => x) false values).
  assert (0 < length s)%nat as Hlen.
  { unfold s. rewrite SortFacts.sorted_by_length.
    destruct values; [congruence | simpl; lia]. }
  assert (Num.len s - 1 == inject_Z (Z.of_nat (length s - 1))) as El.
  { unfold Num.len. rewrite Nat2Z.inj_sub by lia.
    change (Z.of_nat 1) with 1%Z. unfold Z.sub.
    rewrite inject_Z_plus, inject_Z_opp.
    change (inject_Z 1) with 1. lra. }
  assert (0 <= Num.len s - 1) as Hl0.
  { rewrite El. change 0 with (inject_Z 0). rewrite <- Zle_Qle. lia. }
  unfold Qdiv. change (/ 100) with (1 # 100).
  apply interpolate_mono.
  - apply SortFacts.sorted_by_asc.
  - exact Hlen.
  - nra.
  - nra.
  - rewrite <- El. nra.
Qed.

End PercentileFacts.

(** ** The ensemble: columns, percentiles and means *)

Module EnsembleFacts.
Import Predictions.

Lemma column_values metric n paths d :
  rectangular n paths -> (d < n)%nat ->
  column metric d paths = Some (ensemble_values metric d paths).
Proof.
  intros R Hd. induction R as [|path paths Hp R IH]; [reflexivity|].
  simpl. destruct (nth_error path d) as [c|] eqn:E.
  - simpl. rewrite IH. reflexivity.
  - apply nth_error_None in E. lia.
Qed.

Lemma ensemble_values_nonempty metric d paths :
  paths <> [] -> ensemble_values metric d paths <> [].
Proof. destruct paths; [congruence | discriminate]. Qed.

Lemma metric_stats_monotone fsqrt values :
  values <> [] -> percentiles_monotone (metric_stats fsqrt values).
Proof.
  intros H. unfold percentiles_monotone, metric_stats.
  cbn [p10 p25 p50 p75 p90].
  split; [|split; [|split]]; apply PercentileFacts.np_percentile_mono;
    try assumption; lra.
Qed.

Lemma day_stats_values fsqrt n paths d :
  rectangular n paths -> (d < n)%nat ->
  day_stats fsqrt paths d
  = Some (mkDayStats
            (metric_stats fsqrt (ensemble_values open d paths))
            (metric_stats fsqrt (ensemble_values high d paths))
            (metric_stats fsqrt (ensemble_values low d paths))
            (metric_stats fsqrt (ensemble_values close d paths))).
Proof.
  intros R Hd. unfold day_stats.
  rewrite !(column_values _ n) by assumption. reflexivity.
Qed.

Lemma day_stats_monotone fsqrt n paths d ds :
  paths <> [] -> rectangular n paths -> (d < n)%nat ->
  day_stats fsqrt paths d = Some ds -> day_monotone ds.
Proof.
  intros Hne R Hd E. rewrite (day_stats_values fsqrt n) in E by assumption.
  injection E as <-. unfold day_monotone.
  cbn [stats_open stats_high stats_low stats_close].
  split; [|split; [|split]];
    apply metric_stats_monotone, ensemble_values_nonempty; assumption.
Qed.

Lemma dict_set_Forall {K V} eqb (P : K * V -> Prop) k v d :
  P (k, v) -> Forall P d -> Forall P (Py.dict_set eqb k v d).
Proof.
  intros Hk. induction 1 as [|[k' v'] d Hx Hd IH]; simpl.
  - repeat constructor; assumption.
  - destruct (eqb k' k); constructor; assumption.
Qed.

Lemma dict_set_keys {V} k (v : V) d k' :
  In k' (map fst (Py.dict_set Z.eqb k v d)) <-> k' = k \/ In k' (map fst d).
Proof.
  induction d as [|[k0 v0] d IH]; simpl.
  - intuition.
  - destruct (Z.eqb_spec k0 k) as [->|N]; simpl; [intuition|].
    rewrite IH. intuition.
Qed.

Lemma percentiles_loop_spec fsqrt n first rest days :
  let paths := first :: rest in
  rectangular n paths ->
  Forall (fun d => (d < n)%nat) days ->
  forall acc,
    Forall (fun kv => day_monotone (snd kv)) acc ->
    exists r,
      percentiles_loop fsqrt paths days acc = Some r
      /\ Forall (fun kv => day_monotone (snd kv)) r
      /\ (forall k, In k (map fst acc) -> In k (map fst r))
      /\ (forall d c, In d days -> nth_error first d = Some c ->
                      In (date c) (map fst r)).
Proof.
  intros paths R Hdays. induction Hdays as [|d days Hd Hdays IH]; intros acc Hacc.
  - exists acc. simpl. split; [reflexivity|]. split; [assumption|].
    split; [auto|]. intros d c [].
  - assert (length first = n) as Hlen by (inversion R; assumption).
    destruct (nth_error first d) as [c|] eqn:Ec;
      [|apply nth_error_None in Ec; lia].
    destruct (day_stats fsqrt paths d) as [ds|] eqn:Eds;
      [|rewrite (day_stats_values fsqrt n) in Eds by assumption; discriminate].
    assert (day_monotone ds) as Hds
      by (eapply day_stats_monotone; eauto; discriminate).
    destruct (IH (Py.dict_set Z.eqb (date c) ds acc)) as (r & Er & Fr & Kr & Dr).
    { apply dict_set_Forall; assumption. }
    exists r. simpl. unfold paths in *. simpl in Eds |- *.
    rewrite Ec. simpl. rewrite Eds. simpl. rewrite Er.
    split; [reflexivity|]. split; [assumption|]. split.
    + intros k Hk. apply Kr, dict_set_keys. now right.
    + intros d' c' [<-|Hin] Hc'.
      * rewrite Ec in Hc'. injection Hc' as <-.
        apply Kr, dict_set_keys. now left.
      * eapply Dr; eauto.
Qed.

End EnsembleFacts.

(** ** The record builder *)

Module RecordFacts.
Import Predictions.

Lemma calculate_percentiles_spec fsqrt n mc :
  mc <> [] -> rectangular n mc ->
  exists pcts,
    calculate_percentiles fsqrt mc = Some pcts
    /\ Forall (fun kv => day_monotone (snd kv)) pcts
    /\ forall c, In c (hd [] mc) -> In (date c) (map fst pcts).
Proof.
  intros Hne R. destruct mc as [|first rest]; [congruence|].
  assert (length first = n) as Hlen by (inversion R; assumption).
  destruct (EnsembleFacts.percentiles_loop_spec fsqrt n first rest
              (seq 0 (length first)) R) with (acc := @nil (Z * DayStats))
    as (r & Er & Fr & _ & Dr).
  - apply Forall_forall. intros d Hd. apply in_seq in Hd. lia.
  - constructor.
  - exists r. simpl. split; [exact Er|]. split; [exact Fr|].
    intros c Hc. apply In_nth_error in Hc. destruct Hc as [d Hd].
    apply (Dr d c); [|assumption].
    apply in_seq. split; [lia|]. simpl.
    apply nth_error_Some. congruence.
Qed.

Lemma mean_pred_spec n first rest d :
  rectangular n (first :: rest) -> (d < n)%nat ->
  mean_pred (first :: rest) d = Some (spec_mean_candle (first :: rest) d).
Proof.
  intros R Hd. unfold mean_pred.
  assert (length first = n) as Hlen by (inversion R; assumption).
  rewrite !(EnsembleFacts.column_values _ n) by assumption.
  unfold spec_mean_candle. cbn [nth_error hd Py.bind].
  destruct (nth_error first d) as [c|] eqn:Ec;
    [reflexivity | apply nth_error_None in Ec; lia].
Qed.

Lemma mean_loop_spec n first rest days :
  rectangular n (first :: rest) ->
  Forall (fun d => (d < n)%nat) days ->
  mean_loop (first :: rest) days
  = Some (map (spec_mean_candle (first :: rest)) days).
Proof.
  intros R. induction 1 as [|d days Hd Hdays IH]; [reflexivity|].
  cbn [mean_loop map]. rewrite (mean_pred_spec n) by assumption.
  cbn [Py.bind]. rewrite IH. reflexivity.
Qed.

Lemma mean_predictions_ensemble n predictions mc :
  mc <> [] -> rectangular n mc ->
  mean_predictions_of predictions mc
  = Some (map (spec_mean_candle mc) (seq 0 n)).
Proof.
  intros Hne R. destruct mc as [|first rest]; [congruence|].
  assert (length first = n) as Hlen by (inversion R; assumption).
  unfold mean_predictions_of. rewrite Hlen.
  apply (mean_loop_spec n); [assumption|].
  apply Forall_forall. intros d Hd. apply in_seq in Hd. lia.
Qed.

Lemma last_item_some {A} (l : list A) : l <> [] -> exists x, Py.last_item l = Some x.
Proof.
  intros H. unfold Py.last_item.
  destruct (rev l) as [|x r] eqn:E.
  - apply (f_equal (@length A)) in E. rewrite length_rev in E.
    destruct l; [congruence | discriminate].
  - exists x. reflexivity.
Qed.

Lemma hd_error_some {A} (l : list A) : l <> [] -> exists x, hd_error l = Some x.
Proof. destruct l; [congruence | eexists; reflexivity]. Qed.

(** With a usable mean path and a non-empty window the record is built. *)
Lemma create_prediction_json_built fsqrt now ticker hist predictions mc st mp pcts :
  hist <> [] -> mp <> [] ->
  mean_predictions_of predictions mc = Some mp ->
  match mc with [] => Some [] | _ => calculate_percentiles fsqrt mc end = Some pcts ->
  exists js st',
    create_prediction_json fsqrt now ticker hist predictions mc st = Some (js, st')
    /\ predicted_candlesticks (chart_data js) = mp
    /\ prediction_percentiles (chart_data js) = pcts
    /\ monte_carlo_paths (chart_data js) = mc
    /\ historical_candlesticks (chart_data js) = hist
    /\ actual_candlesticks (chart_data js) = []
    /\ volatility (summary_stats js)
       = option_map Num.py_round2 (annualized_volatility fsqrt hist)
    /\ prediction_quality (summary_stats js)
       = quality_of (annualized_volatility fsqrt hist)
    /\ exists jitter, overall_score (summary_stats js) = score_of jitter.
Proof.
  intros Hh Hm Emp Epc. unfold create_prediction_json.
  rewrite Emp, Epc. cbn [Py.bind].
  destruct (hd_error_some hist Hh) as [h0 ->].
  destruct (last_item_some hist Hh) as [h1 ->].
  destruct (hd_error_some mp Hm) as [m0 ->].
  destruct (last_item_some mp Hm) as [m1 ->].
  cbn [Py.bind].
  destruct (Rng.randint (-5) 10 st) as [jitter st'] eqn:Ej.
  eexists; eexists. split; [reflexivity|].
  cbn [chart_data predicted_candlesticks prediction_percentiles
       monte_carlo_paths historical_candlesticks actual_candlesticks
       summary_stats volatility prediction_quality overall_score].
  split; [reflexivity|]. split; [reflexivity|].
  split; [destruct mc; reflexivity|].
  split; [apply map_id|]. split; [reflexivity|].
  split; [reflexivity|]. split; [reflexivity|].
  exists jitter; reflexivity.
Qed.

End RecordFacts.

(** C3. For a non-empty ensemble of paths of one length, [calculate_percentiles]
    returns a table that has an entry for every date of the first path, and
    in every entry, for each of open, high, low and close,
    [p10 <= p25 <= p50 <= p75 <= p90]. *)
Theorem C3_percentiles_monotone :
  forall fsqrt n mc,
    mc <> [] -> rectangular n mc ->
    exists pcts,
      Predictions.calculate_percentiles fsqrt mc = Some pcts
      /\ (forall c, In c (hd [] mc) -> In (date c) (map fst pcts))
      /\ forall d ds, In (d, ds) pcts ->
           percentiles_monotone (stats_open ds)
           /\ percentiles_monotone (stats_high ds)
           /\ percentiles_monotone (stats_low ds)
           /\ percentiles_monotone (stats_close ds).
Proof.
  intros fsqrt n mc Hne R.
  destruct (RecordFacts.calculate_percentiles_spec fsqrt n mc Hne R)
    as (pcts & E & F & K).
  exists pcts. split; [exact E|]. split; [exact K|].
  intros d ds Hin. rewrite Forall_forall in F. exact (F (d, ds) Hin).
Qed.

Lemma C3_percentiles_monotone_witness :
  exists pcts,
    Predictions.calculate_percentiles Num.sqrt_fix Samples.ensemble = Some pcts
    /\ (forall c, In c (hd [] Samples.ensemble) -> In (date c) (map fst pcts))
    /\ forall d ds, In (d, ds) pcts ->
         percentiles_monotone (stats_open ds)
         /\ percentiles_monotone (stats_high ds)
         /\ percentiles_monotone (stats_low ds)
         /\ percentiles_monotone (stats_close ds).
Proof.
  apply (C3_percentiles_monotone Num.sqrt_fix 2 Samples.ensemble).
  - discriminate.
  - repeat constructor.
Defined.

(** C4. For a non-empty ensemble of K paths of one length n > 0 the record
    is built, its predicted candles are n, and on every day each field of
    the predicted candle (open, high, low, close, volume) is the sum of the
    K paths' values of that field on that day divided by K.  The single
    path handed to the builder plays no part: any other one gives the same
    record. *)
Theorem C4_mean_path_is_ensemble_mean :
  forall fsqrt now ticker hist predictions mc st n,
    mc <> [] -> rectangular n mc -> (0 < n)%nat -> hist <> [] ->
    exists js st',
      Predictions.create_prediction_json fsqrt now ticker hist predictions mc st
      = Some (js, st')
      /\ length (predicted_candlesticks (chart_data js)) = n
      /\ (forall d c,
            nth_error (predicted_candlesticks (chart_data js)) d = Some c ->
            let K := inject_Z (Z.of_nat (length mc)) in
            open c = Num.sum (ensemble_values open d mc) / K
            /\ high c = Num.sum (ensemble_values high d mc) / K
            /\ low c = Num.sum (ensemble_values low d mc) / K
            /\ close c = Num.sum (ensemble_values close d mc) / K
            /\ volume c = Num.sum (ensemble_values volume d mc) / K)
      /\ forall other,
           Predictions.create_prediction_json fsqrt now ticker hist other mc st
           = Some (js, st').
Proof.
  intros fsqrt now ticker hist predictions mc st n Hne R Hn Hh.
  pose proof (RecordFacts.mean_predictions_ensemble n predictions mc Hne R) as Emp.
  destruct (RecordFacts.calculate_percentiles_spec fsqrt n mc Hne R)
    as (pcts & Epc & _).
  assert (match mc with [] => Some [] | _ => Predictions.calculate_percentiles fsqrt mc end
          = Some pcts) as Epc' by (destruct mc; [congruence | exact Epc]).
  assert (map (spec_mean_candle mc) (seq 0 n) <> []) as Hm
    by (destruct n; [lia | discriminate]).
  destruct (RecordFacts.create_prediction_json_built fsqrt now ticker hist
              predictions mc st _ pcts Hh Hm Emp Epc')
    as (js & st' & E & Hp & _).
  exists js, st'. split; [exact E|]. rewrite Hp.
  split; [now rewrite length_map, length_seq|]. split.
  - intros d c Hc K.
    rewrite nth_error_map in Hc.
    destruct (nth_error (seq 0 n) d) as [i|] eqn:Ei; [|discriminate].
    injection Hc as <-.
    assert (i = d) as ->.
    { assert (d < n)%nat as Hd.
      { rewrite <- (length_seq n 0). apply nth_error_Some. congruence. }
      pose proof (nth_error_nth _ _ 0%nat Ei) as Hi.
      rewrite seq_nth in Hi by exact Hd. lia. }
    unfold spec_mean_candle, arithmetic_mean, ensemble_values, K.
    cbn [open high low close volume]. rewrite !length_map.
    repeat split.
  - intros other. unfold Predictions.create_prediction_json in *.
    destruct mc as [|first rest]; [congruence|]. exact E.
Qed.

Lemma C4_mean_path_is_ensemble_mean_witness :
  exists js st',
    Predictions.create_prediction_json Num.sqrt_fix "now" "QQQ" Samples.window
      [] Samples.ensemble Samples.rng = Some (js, st')
    /\ length (predicted_candlesticks (chart_data js)) = 2%nat
    /\ (forall d c,
          nth_error (predicted_candlesticks (chart_data js)) d = Some c ->
          let K := inject_Z (Z.of_nat (length Samples.ensemble)) in
          open c = Num.sum (ensemble_values open d Samples.ensemble) / K
          /\ high c = Num.sum (ensemble_values high d Samples.ensemble) / K
          /\ low c = Num.sum (ensemble_values low d Samples.ensemble) / K
          /\ close c = Num.sum (ensemble_values close d Samples.ensemble) / K
          /\ volume c = Num.sum (ensemble_values volume d Samples.ensemble) / K)
    /\ forall other,
         Predictions.create_prediction_json Num.sqrt_fix "now" "QQQ"
           Samples.window other Samples.ensemble Samples.rng = Some (js, st').
Proof.
  apply (C4_mean_path_is_ensemble_mean Num.sqrt_fix "now" "QQQ" Samples.window
           [] Samples.ensemble Samples.rng 2).
  - discriminate.
  - repeat constructor.
  - lia.
  - discriminate.
Defined.

(** ** The ensemble driver and the per-ticker run *)

Module DriverFacts.
Import Predictions.

Lemma monte_carlo_loop_spec fsqrt hist days runs :
  (20 <= length hist)%nat -> steady hist -> (0 < days)%nat ->
  forall st,
    exists paths st',
      monte_carlo_loop fsqrt hist days runs st = Some (paths, st')
      /\ length paths = runs
      /\ rectangular days paths
      /\ Forall (Forall ohlc_ok) paths.
Proof.
  intros Hh Hs Hd. induction runs as [|runs IH]; intros st.
  - exists [], st. cbn [monte_carlo_loop length].
    repeat split; constructor.
  - cbn [monte_carlo_loop].
    destruct (SimulatorFacts.generate_predictions_long fsqrt hist days st Hh Hs)
      as (preds & st1 & E & Hl & Ho & _).
    rewrite E. cbn [Py.bind].
    destruct (IH st1) as (paths & st2 & Ep & IHl & IHr & IHo).
    rewrite Ep. cbn [Py.bind].
    destruct preds as [|c path]; [cbn in Hl; lia|].
    eexists; eexists. split; [reflexivity|]. cbn [length].
    split; [now rewrite IHl|]. split; constructor; assumption.
Qed.

(** When the simulator raises, so does the ensemble. *)
Lemma monte_carlo_loop_raises fsqrt hist days runs st :
  (20 <= length hist)%nat -> ~ steady hist -> (0 < days)%nat ->
  (0 < runs)%nat ->
  monte_carlo_loop fsqrt hist days runs st = None.
Proof.
  intros Hh Hs Hd Hr. destruct runs as [|runs]; [lia|].
  cbn [monte_carlo_loop].
  assert (generate_predictions fsqrt hist days st = None) as ->
    by now apply SimulatorFacts.generate_predictions_raises.
  reflexivity.
Qed.

Lemma create_prediction_json_summary fsqrt now ticker hist predictions mc st js st' :
  create_prediction_json fsqrt now ticker hist predictions mc st = Some (js, st') ->
  volatility (summary_stats js)
  = option_map Num.py_round2 (annualized_volatility fsqrt hist)
  /\ prediction_quality (summary_stats js)
     = quality_of (annualized_volatility fsqrt hist)
  /\ (exists jitter, overall_score (summary_stats js) = score_of jitter)
  /\ actual_candlesticks (chart_data js) = []
  /\ historical_candlesticks (chart_data js) = hist.
Proof.
  unfold create_prediction_json. intros E.
  destruct (mean_predictions_of predictions mc) as [mp|]; [|discriminate].
  cbn [Py.bind] in E.
  destruct (match mc with [] => Some [] | _ => calculate_percentiles fsqrt mc end)
    as [pcts|]; [|discriminate].
  cbn [Py.bind] in E.
  destruct (hd_error hist); [|discriminate]. cbn [Py.bind] in E.
  destruct (Py.last_item hist); [|discriminate]. cbn [Py.bind] in E.
  destruct (hd_error mp); [|discriminate]. cbn [Py.bind] in E.
  destruct (Py.last_item mp); [|discriminate]. cbn [Py.bind] in E.
  destruct (Rng.randint (-5) 10 st) as [jitter st1].
  injection E as <- <-.
  cbn [chart_data actual_candlesticks historical_candlesticks summary_stats
       volatility prediction_quality overall_score].
  split; [reflexivity|]. split; [reflexivity|].
  split; [exists jitter; reflexivity|]. split; [reflexivity | apply map_id].
Qed.

Lemma score_of_bounds jitter : (70 <= score_of jitter <= 95)%Z.
Proof. unfold score_of. lia. Qed.

Lemma quality_of_good v : quality_of (Some v) = "GOOD"%string <-> v < 40.
Proof.
  unfold quality_of. destruct (Qlt_le_dec v 40); split; intros H;
    try reflexivity; try assumption; try discriminate. lra.
Qed.

Lemma quality_of_moderate v :
  quality_of (Some v) = "MODERATE"%string <-> 40 <= v.
Proof.
  unfold quality_of. destruct (Qlt_le_dec v 40); split; intros H;
    try reflexivity; try assumption; try discriminate. lra.
Qed.

(** The annualized volatility is a number exactly on steady returns. *)
Lemma annualized_volatility_steady fsqrt hist returns :
  Num.finite_values (Num.pct_change (map close hist)) = Some returns ->
  (2 <= length returns)%nat ->
  annualized_volatility fsqrt hist
  = Some (Num.std_sample fsqrt returns * fsqrt 252 * 100).
Proof.
  intros E Hl. unfold annualized_volatility, Num.series_std.
  rewrite E. apply Nat.leb_le in Hl. now rewrite Hl.
Qed.

Lemma annualized_volatility_nan fsqrt hist :
  ~ steady hist -> annualized_volatility fsqrt hist = None.
Proof.
  intros Hs. unfold annualized_volatility, Num.series_std.
  destruct (Num.finite_values (Num.pct_change (map close hist)))
    as [returns|] eqn:E; [|reflexivity].
  destruct (2 <=? length returns)%nat eqn:B; [|reflexivity].
  exfalso. apply Hs. exists returns. apply Nat.leb_le in B. now split.
Qed.

Lemma process_ticker_short fsqrt now ticker df files st :
  (length (get_lookback_data df LOOKBACK_END LOOKBACK_DAYS) < 20)%nat ->
  process_ticker fsqrt now ticker (Some df) files st = Some (false, files, st).
Proof.
  intros H. unfold process_ticker. apply Nat.ltb_lt in H. now rewrite H.
Qed.

Lemma process_ticker_long fsqrt now ticker df files st :
  (20 <= length (get_lookback_data df LOOKBACK_END LOOKBACK_DAYS))%nat ->
  steady (get_lookback_data df LOOKBACK_END LOOKBACK_DAYS) ->
  exists js st',
    process_ticker fsqrt now ticker (Some df) files st
    = Some (true, Py.dict_set String.eqb ticker js files, st').
Proof.
  intros H Hs. unfold process_ticker.
  set (historical := get_lookback_data df LOOKBACK_END LOOKBACK_DAYS) in *.
  pose proof H as Hb. apply Nat.ltb_ge in Hb. rewrite Hb.
  destruct (SimulatorFacts.generate_predictions_long fsqrt historical
              PREDICTION_DAYS st H Hs) as (preds & st1 & E & Hl & _).
  rewrite E. cbn [Py.bind]. destruct preds as [|c rest]; [discriminate|].
  unfold generate_monte_carlo_paths. rewrite Hb.
  destruct (monte_carlo_loop_spec fsqrt historical PREDICTION_DAYS
              MONTE_CARLO_RUNS H Hs ltac:(unfold PREDICTION_DAYS; lia) st1)
    as (mc & st2 & Em & Ml & Mr & _).
  rewrite Em. cbn [Py.bind].
  assert (mc <> []) as Hne.
  { destruct mc; [discriminate Ml | discriminate]. }
  assert (historical <> []) as Hh by (intros X; rewrite X in H; simpl in H; lia).
  pose proof (RecordFacts.mean_predictions_ensemble PREDICTION_DAYS (c :: rest)
                mc Hne Mr) as Emp.
  destruct (RecordFacts.calculate_percentiles_spec fsqrt PREDICTION_DAYS mc Hne Mr)
    as (pcts & Epc & _).
  assert (match mc with [] => Some [] | _ => calculate_percentiles fsqrt mc end
          = Some pcts) as Epc' by (destruct mc; [congruence | exact Epc]).
  assert (map (spec_mean_candle mc) (seq 0 PREDICTION_DAYS) <> []) as Hm
    by discriminate.
  destruct (RecordFacts.create_prediction_json_built fsqrt now ticker historical
              (c :: rest) mc st2 _ pcts Hh Hm Emp Epc')
    as (js & st3 & Ej & _).
  rewrite Ej. cbn [Py.bind]. exists js, st3. reflexivity.
Qed.

(** On a window of at least 20 rows the run raises exactly when the
    returns are not steady. *)
Lemma process_ticker_raises fsqrt now ticker df files st :
  (20 <= length (get_lookback_data df LOOKBACK_END LOOKBACK_DAYS))%nat ->
  (process_ticker fsqrt now ticker (Some df) files st = None
   <-> ~ steady (get_lookback_data df LOOKBACK_END LOOKBACK_DAYS)).
Proof.
  intros H. split.
  - intros E Hs.
    destruct (process_ticker_long fsqrt now ticker df files st H Hs)
      as (js & st' & E').
    rewrite E in E'. discriminate E'.
  - intros Hs. unfold process_ticker.
    pose proof H as Hb. apply Nat.ltb_ge in Hb. rewrite Hb.
    assert (generate_predictions fsqrt
              (get_lookback_data df LOOKBACK_END LOOKBACK_DAYS)
              PREDICTION_DAYS st = None) as ->.
    { apply SimulatorFacts.generate_predictions_raises;
        [exact H | unfold PREDICTION_DAYS; lia | exact Hs]. }
    reflexivity.
Qed.

End DriverFacts.

(** C7. A window of fewer than 20 rows yields no predictions and an empty
    ensemble, and the ticker run returns [False] with the files on disk left
    as they were.  A window of at least 20 rows never fails for this
    reason: the generator never returns [None] and the ticker run never
    returns [False].  When no close of such a window is zero the generator
    returns a path of the requested length, and the ticker run writes the
    record of that ticker and returns [True].  When a zero close is
    followed by a non-zero close the generator, asked for at least one
    day, raises; the ticker run raises exactly when the returns of the
    window are not finite numbers, or are fewer than two. *)
Theorem C7_insufficient_history :
  forall fsqrt now ticker hist prediction_days df files st,
    ((length hist < 20)%nat ->
       Predictions.generate_predictions fsqrt hist prediction_days st
       = Some (None, st)
       /\ Predictions.generate_monte_carlo_paths fsqrt hist prediction_days
            Predictions.MONTE_CARLO_RUNS st = Some ([], st))
    /\ ((20 <= length hist)%nat ->
        (forall st',
           Predictions.generate_predictions fsqrt hist prediction_days st
           <> Some (None, st'))
        /\ (nonzero_closes hist ->
            exists preds st',
              Predictions.generate_predictions fsqrt hist prediction_days st
              = Some (Some preds, st')
              /\ length preds = prediction_days)
        /\ (forall i a b,
              nth_error hist i = Some a -> nth_error hist (S i) = Some b ->
              close a == 0 -> ~ close b == 0 ->
              (0 < prediction_days)%nat ->
              Predictions.generate_predictions fsqrt hist prediction_days st
              = None))
    /\ let historical :=
         Predictions.get_lookback_data df Predictions.LOOKBACK_END
           Predictions.LOOKBACK_DAYS in
       ((length historical < 20)%nat ->
          Predictions.process_ticker fsqrt now ticker (Some df) files st
          = Some (false, files, st))
       /\ ((20 <= length historical)%nat ->
           (forall files' st',
              Predictions.process_ticker fsqrt now ticker (Some df) files st
              <> Some (false, files', st'))
           /\ (nonzero_closes historical ->
               exists js st',
                 Predictions.process_ticker fsqrt now ticker (Some df) files st
                 = Some (true, Py.dict_set String.eqb ticker js files, st'))
           /\ (Predictions.process_ticker fsqrt now ticker (Some df) files st
               = None <-> ~ steady historical)).
Proof.
  intros fsqrt now ticker hist n df files st. split; [|split; [|split]].
  - intros H. split.
    + now apply SimulatorFacts.generate_predictions_short.
    + unfold Predictions.generate_monte_carlo_paths.
      apply Nat.ltb_lt in H. now rewrite H.
  - intros H. split; [|split].
    + intros st'. now apply SimulatorFacts.generate_predictions_not_short.
    + intros Hz.
      destruct (SimulatorFacts.generate_predictions_long fsqrt hist n st H)
        as (preds & st' & E & Hl & _).
      { apply SimulatorFacts.nonzero_closes_steady; [exact Hz | lia]. }
      exists preds, st'. split; assumption.
    + intros i a b Ha Hb Za Zb Hn.
      apply SimulatorFacts.generate_predictions_raises; [exact H | exact Hn|].
      exact (SimulatorFacts.zero_then_nonzero_close hist i a b Ha Hb Za Zb).
  - apply DriverFacts.process_ticker_short.
  - intros H. split; [|split].
    + intros files' st' E.
      destruct (SimulatorFacts.steady_dec
                  (Predictions.get_lookback_data df Predictions.LOOKBACK_END
                     Predictions.LOOKBACK_DAYS)) as [Hs|Hs].
      * destruct (DriverFacts.process_ticker_long fsqrt now ticker df files st
                    H Hs) as (js & st1 & E1).
        rewrite E in E1. discriminate E1.
      * apply (DriverFacts.process_ticker_raises fsqrt now ticker df files st H)
          in Hs.
        rewrite E in Hs. discriminate Hs.
    + intros Hz. apply DriverFacts.process_ticker_long; [exact H|].
      apply SimulatorFacts.nonzero_closes_steady; [exact Hz | lia].
    + now apply DriverFacts.process_ticker_raises.
Qed.

Lemma C7_insufficient_history_witness :
  Predictions.process_ticker Num.sqrt_fix "now" "QQQ"
    (Some (firstn 19 Samples.window)) [] Samples.rng
  = Some (false, [], Samples.rng)
  /\ exists js st',
       Predictions.process_ticker Num.sqrt_fix "now" "QQQ" (Some Samples.window)
         [] Samples.rng
       = Some (true, Py.dict_set String.eqb "QQQ"%string js [], st').
Proof.
  split.
  - apply (C7_insufficient_history Num.sqrt_fix "now" "QQQ" [] 5%nat
             (firstn 19 Samples.window) [] Samples.rng).
    vm_compute. lia.
  - apply (C7_insufficient_history Num.sqrt_fix "now" "QQQ" [] 5%nat
             Samples.window [] Samples.rng).
    + vm_compute. lia.
    + apply SimulatorFacts.forallb_nonzero_closes. vm_compute. reflexivity.
Defined.

(** C8. With an empty ensemble the record is built from the single path it
    was handed: that path is the predicted candlesticks, the percentile table
    is empty and the list of Monte Carlo paths is empty.  With an empty
    ensemble and an empty single path no record is built (the builder
    raises), so no record has an empty forecast. *)
Theorem C8_empty_ensemble_fallback :
  forall fsqrt now ticker hist predictions st,
    hist <> [] -> predictions <> [] ->
    Predictions.calculate_percentiles fsqrt [] = Some []
    /\ Predictions.create_prediction_json fsqrt now ticker hist [] [] st = None
    /\ exists js st',
         Predictions.create_prediction_json fsqrt now ticker hist predictions [] st
         = Some (js, st')
         /\ predicted_candlesticks (chart_data js) = predictions
         /\ prediction_percentiles (chart_data js) = []
         /\ monte_carlo_paths (chart_data js) = [].
Proof.
  intros fsqrt now ticker hist predictions st Hh Hp.
  split; [reflexivity|]. split.
  - unfold Predictions.create_prediction_json. cbn [Predictions.mean_predictions_of Py.bind].
    destruct (hd_error hist); [|reflexivity]. cbn [Py.bind].
    destruct (Py.last_item hist); reflexivity.
  - destruct (RecordFacts.create_prediction_json_built fsqrt now ticker hist
                predictions [] st predictions [] Hh Hp eq_refl eq_refl)
      as (js & st' & E & H1 & H2 & H3 & _).
    exists js, st'. repeat split; assumption.
Qed.

Lemma C8_empty_ensemble_fallback_witness :
  Predictions.calculate_percentiles Num.sqrt_fix [] = Some []
  /\ Predictions.create_prediction_json Num.sqrt_fix "now" "QQQ" Samples.window
       [] [] Samples.rng = None
  /\ exists js st',
       Predictions.create_prediction_json Num.sqrt_fix "now" "QQQ" Samples.window
         (hd [] Samples.ensemble) [] Samples.rng = Some (js, st')
       /\ predicted_candlesticks (chart_data js) = hd [] Samples.ensemble
       /\ prediction_percentiles (chart_data js) = []
       /\ monte_carlo_paths (chart_data js) = [].
Proof.
  apply (C8_empty_ensemble_fallback Num.sqrt_fix "now" "QQQ" Samples.window
           (hd [] Samples.ensemble) Samples.rng).
  - discriminate.
  - discriminate.
Defined.

(** C9, as the claim states it, fails: on the sample window, with the
    fixed-point square root, the volatility the record reports (0.76)
    differs from the sample deviation of the returns times the root of 252
    times 100 (0.75606...). *)
Lemma C9_reported_volatility_differs :
  option_map
    (fun r =>
       match volatility (summary_stats (fst r)),
             Num.finite_values (Num.pct_change (map close Samples.window)) with
       | Some reported, Some returns =>
           Qeq_bool reported
             (Num.std_sample Num.sqrt_fix returns * Num.sqrt_fix 252 * 100)
       | _, _ => true
       end)
    (Predictions.create_prediction_json Num.sqrt_fix "now" "QQQ" Samples.window
       [] Samples.ensemble Samples.rng)
  = Some false.
Proof. vm_compute. reflexivity. Qed.

(** C9, amended. In every record the builder returns, the overall score
    lies in [70, 95], as does the score of every jitter.  When the simple
    returns of the full window are finite numbers, at least two of them,
    the reported volatility is their sample deviation times the root of
    252 times 100, rounded to two decimals, and the quality label is "GOOD"
    exactly when that annualized volatility, before the rounding, is below
    40, and "MODERATE" otherwise.  When they are not (a non-zero close
    after a zero close, or fewer than two returns) the reported volatility
    is NaN and the label is "MODERATE". *)
Theorem C9_volatility_quality_score :
  forall fsqrt now ticker hist predictions mc st js st',
    Predictions.create_prediction_json fsqrt now ticker hist predictions mc st
    = Some (js, st') ->
    (forall returns,
       Num.finite_values (Num.pct_change (map close hist)) = Some returns ->
       (2 <= length returns)%nat ->
       let annualized := Num.std_sample fsqrt returns * fsqrt 252 * 100 in
       volatility (summary_stats js) = Some (Num.py_round2 annualized)
       /\ (prediction_quality (summary_stats js) = "GOOD"%string
           <-> annualized < 40)
       /\ (prediction_quality (summary_stats js) = "MODERATE"%string
           <-> ~ annualized < 40))
    /\ (~ steady hist ->
        volatility (summary_stats js) = None
        /\ prediction_quality (summary_stats js) = "MODERATE"%string)
    /\ (70 <= overall_score (summary_stats js) <= 95)%Z
    /\ forall jitter, (70 <= Predictions.score_of jitter <= 95)%Z.
Proof.
  intros fsqrt now ticker hist predictions mc st js st' E.
  destruct (DriverFacts.create_prediction_json_summary _ _ _ _ _ _ _ _ _ E)
    as (Hv & Hq & (jitter & Hs) & _).
  split; [|split; [|split]].
  - intros returns Er Hl annualized.
    rewrite (DriverFacts.annualized_volatility_steady fsqrt hist returns Er Hl)
      in Hv, Hq.
    fold annualized in Hv, Hq. rewrite Hv, Hq.
    split; [reflexivity|]. split; [apply DriverFacts.quality_of_good|].
    rewrite DriverFacts.quality_of_moderate. split; intros H; lra.
  - intros Hn.
    rewrite (DriverFacts.annualized_volatility_nan fsqrt hist Hn) in Hv, Hq.
    split; [exact Hv | exact Hq].
  - rewrite Hs. apply DriverFacts.score_of_bounds.
  - apply DriverFacts.score_of_bounds.
Qed.

Lemma C9_volatility_quality_score_witness :
  exists js returns,
    option_map fst
      (Predictions.create_prediction_json Num.sqrt_fix "now" "QQQ" Samples.window
         [] Samples.ensemble Samples.rng) = Some js
    /\ Num.finite_values (Num.pct_change (map close Samples.window))
       = Some returns
    /\ volatility (summary_stats js)
       = Some (Num.py_round2
                 (Num.std_sample Num.sqrt_fix returns * Num.sqrt_fix 252 * 100))
    /\ (70 <= overall_score (summary_stats js) <= 95)%Z.
Proof.
  destruct (Predictions.create_prediction_json Num.sqrt_fix "now" "QQQ"
              Samples.window [] Samples.ensemble Samples.rng)
    as [[js st']|] eqn:E; [|vm_compute in E; discriminate E].
  destruct (Num.finite_values (Num.pct_change (map close Samples.window)))
    as [returns|] eqn:Er; [|vm_compute in Er; discriminate Er].
  exists js, returns. split; [reflexivity|]. split; [reflexivity|].
  destruct (C9_volatility_quality_score Num.sqrt_fix "now" "QQQ" Samples.window
              [] Samples.ensemble Samples.rng js st' E) as (Hf & _ & Hs & _).
  destruct (Hf returns Er) as (Hv & _).
  - rewrite (SimulatorFacts.finite_values_length _ _ Er). vm_compute. lia.
  - split; [exact Hv | exact Hs].
Defined.

(** ** The market overview *)

Module OverviewFacts.
Import Processor.

Lemma firstn_sorted {A} (R : A -> A -> Prop) n l :
  StronglySorted R l -> StronglySorted R (firstn n l).
Proof.
  intros H. revert n. induction H as [|a l Hs IH Hf]; intros [|n]; simpl;
    try constructor.
  - apply IH.
  - rewrite Forall_forall in *. intros x Hx. apply Hf.
    rewrite <- (firstn_skipn n l). apply in_or_app. now left.
Qed.

Lemma firstn_filter_prefix {A} (f : A -> bool) n l :
  exists rest, filter f l = filter f (firstn n l) ++ rest.
Proof.
  exists (filter f (skipn n l)).
  rewrite <- filter_app, firstn_skipn. reflexivity.
Qed.

Lemma slice_length {A} (l : list A) : (length (Py.slice_to 10 l) <= 10)%nat.
Proof. unfold Py.slice_to. rewrite length_firstn. lia. Qed.

Lemma top_desc_spec all :
  let l := Py.slice_to 10 (Py.sorted_by metric true all) in
  ranking true l /\ ties_in_record_order all l.
Proof.
  split; [split|].
  - apply slice_length.
  - apply firstn_sorted, SortFacts.sorted_by_desc.
  - intros k. rewrite <- (SortFacts.sorted_by_stable metric k true all).
    apply firstn_filter_prefix.
Qed.

Lemma top_asc_of_desc_spec all :
  let l := Py.slice_to 10 (Py.sorted_by metric false (Py.sorted_by metric true all)) in
  ranking false l /\ ties_in_record_order all l.
Proof.
  split; [split|].
  - apply slice_length.
  - apply firstn_sorted, SortFacts.sorted_by_asc.
  - intros k. rewrite <- (SortFacts.sorted_by_stable metric k true all).
    rewrite <- (SortFacts.sorted_by_stable metric k false
                  (Py.sorted_by metric true all)).
    apply firstn_filter_prefix.
Qed.

Lemma in_slice {A} n (l : list A) x : In x (Py.slice_to n l) -> In x l.
Proof.
  unfold Py.slice_to. intros H. rewrite <- (firstn_skipn n l).
  apply in_or_app. now left.
Qed.

Lemma in_sorted_by {A} (key : A -> Q) r l x : In x (Py.sorted_by key r l) -> In x l.
Proof. apply Permutation_in, SortFacts.sorted_by_perm. Qed.

(** Every entry of a top list stems from a record of the store. *)
Lemma top_entry_origin value store e :
  In e (Py.slice_to 10 (Py.sorted_by metric true (entries value store)))
  \/ In e (Py.slice_to 10 (Py.sorted_by metric false
                             (Py.sorted_by metric true (entries value store)))) ->
  exists r, In (entry_ticker e, r) store /\ metric e = value r.
Proof.
  intros H.
  assert (In e (entries value store)) as Hin.
  { destruct H as [H|H]; apply in_slice in H; repeat apply in_sorted_by in H;
      exact H. }
  unfold entries in Hin. apply in_map_iff in Hin.
  destruct Hin as ([t r] & <- & Hkv). exists r. split; [exact Hkv | reflexivity].
Qed.

Lemma dict_set_in {V} k (v : V) d :
  In (k, v) (Py.dict_set String.eqb k v d).
Proof.
  induction d as [|[k' v'] d IH]; simpl; [now left|].
  destruct (String.eqb k' k); [now left | now right].
Qed.

Lemma dict_set_unique {V} k (v v' : V) d :
  In (k, v') (Py.dict_set String.eqb k v d) -> NoDup (map fst d) -> v' = v.
Proof.
  induction d as [|[k0 v0] d IH]; simpl; intros Hin Hnd.
  - destruct Hin as [E|[]]. congruence.
  - inversion Hnd as [|? ? Hni Hnd']; subst.
    destruct (String.eqb_spec k0 k) as [->|N].
    + destruct Hin as [E|Hin]; [congruence|].
      exfalso. apply Hni. apply (in_map fst) in Hin. exact Hin.
    + destruct Hin as [E|Hin]; [congruence|]. now apply IH.
Qed.

Lemma dict_set_nonempty {V} k (v : V) d : is_empty (Py.dict_set String.eqb k v d) = false.
Proof. destruct d as [|[k' v'] d]; simpl; [reflexivity|]. destruct (String.eqb k' k); reflexivity. Qed.

Lemma bucket_partition store :
  (length (bucket Bullish store) + length (bucket Bearish store)
   + length (bucket Neutral store) = length store)%nat.
Proof.
  unfold bucket. rewrite !length_map.
  induction store as [|kv store IH]; [reflexivity|].
  simpl. destruct (trend_of kv); simpl; lia.
Qed.

Lemma in_bucket t store ticker r :
  In (ticker, r) store -> classify_trend (price_change_percent r) = t ->
  In ticker (bucket t store).
Proof.
  intros Hin Ht. unfold bucket. apply in_map_iff.
  exists (ticker, r). split; [reflexivity|].
  apply filter_In. split; [assumption|].
  unfold trend_of. simpl. rewrite Ht. destruct t; reflexivity.
Qed.

Lemma bucket_in t store ticker :
  In ticker (bucket t store) ->
  exists r, In (ticker, r) store /\ classify_trend (price_change_percent r) = t.
Proof.
  unfold bucket. intros H. apply in_map_iff in H.
  destruct H as ([k r] & <- & Hf). apply filter_In in Hf.
  destruct Hf as [Hin Ht]. exists r. split; [assumption|].
  unfold trend_of in Ht. simpl in Ht.
  destruct (classify_trend (price_change_percent r)), t;
    try reflexivity; discriminate.
Qed.

Lemma classify_trend_spec pct :
  (classify_trend pct = Bullish <-> 1 < pct)
  /\ (classify_trend pct = Bearish <-> pct < -1)
  /\ (classify_trend pct = Neutral <-> -1 <= pct /\ pct <= 1).
Proof.
  unfold classify_trend.
  destruct (Qlt_le_dec 1 pct) as [H1|H1];
    [|destruct (Qlt_le_dec pct (-1)) as [H2|H2]];
    (split; [|split]); split; intros H;
    try reflexivity; try discriminate; try assumption; try lra;
    split; lra.
Qed.


Lemma analyze_file_tallied predicted historical t :
  GenerateStats.tallied t -> GenerateStats.tallied (GenerateStats.analyze_file predicted historical t).
Proof.
  unfold GenerateStats.tallied, GenerateStats.analyze_file. intros H.
  destruct (Py.last_item predicted), (Py.last_item historical); try assumption.
  destruct (Qlt_le_dec 0 (close c0)); [|assumption].
  destruct (Qlt_le_dec 0 (close c)); [|assumption].
  unfold GenerateStats.count. simpl.
  destruct (classify_trend _); simpl; lia.
Qed.


End OverviewFacts.

(** The direction of [fix_qqq_predictions] is the same classification of
    the percentage change. *)
Lemma qqq_direction_classifies :
  forall last_close predicted_close t,
    FixQQQ.direction last_close predicted_close = Some t ->
    t = classify_trend ((predicted_close - last_close) / last_close * 100).
Proof.
  unfold FixQQQ.direction. intros l p t H.
  destruct (Qeq_bool l 0); [discriminate | congruence].
Qed.


(** C6, as the claim states it, fails: the store holds the records of ZZZ
    and AAA, in that order, with equal change percent; the gainers list is
    ZZZ then AAA, so the tie is not in ticker order. *)
Lemma C6_ties_not_in_ticker_order :
  map Processor.entry_ticker
    (Processor.top_gainers
       (Processor.update_market_overview "now" Samples.store
          Processor.initial_overview))
  = ["ZZZ"; "AAA"]%string
  /\ ~ Processor.ties_by_ticker
         (Processor.top_gainers
            (Processor.update_market_overview "now" Samples.store
               Processor.initial_overview)).
Proof.
  split; [vm_compute; reflexivity|].
  intros H.
  specialize (H 0%nat 1%nat
                (Processor.mkEntry "ZZZ" 0 (Some (119 # 1)))
                (Processor.mkEntry "AAA" 0 (Some (119 # 1)))).
  assert (true = false) as F; [|discriminate F].
  rewrite <- H; [reflexivity | lia | vm_compute; reflexivity
                | vm_compute; reflexivity | reflexivity].
Qed.

(** C6, amended. Each of the four rankings of the overview has at most ten
    entries and is sorted by its metric (gainers, volume and volatility
    descending, losers ascending); entries with equal metric stay in the
    order in which their records are held in the store. *)
Theorem C6_rankings_sorted_top10 :
  forall now store prior,
    (store = [] -> prior = Processor.initial_overview) ->
    let ov := Processor.update_market_overview now store prior in
    (Processor.ranking true (Processor.top_gainers ov)
     /\ Processor.ties_in_record_order
          (Processor.entries Processor.price_change_percent store)
          (Processor.top_gainers ov))
    /\ (Processor.ranking false (Processor.top_losers ov)
        /\ Processor.ties_in_record_order
             (Processor.entries Processor.price_change_percent store)
             (Processor.top_losers ov))
    /\ (Processor.ranking true (Processor.highest_volume ov)
        /\ Processor.ties_in_record_order
             (Processor.entries Processor.average_volume store)
             (Processor.highest_volume ov))
    /\ (Processor.ranking true (Processor.most_volatile ov)
        /\ Processor.ties_in_record_order
             (Processor.entries Processor.volatility store)
             (Processor.most_volatile ov)).
Proof.
  intros now store prior Hprior ov. subst ov.
  unfold Processor.update_market_overview.
  destruct store as [|kv store].
  - rewrite (Hprior eq_refl).
    cbn [Processor.is_empty Processor.initial_overview Processor.entries map
         Processor.top_gainers Processor.top_losers Processor.highest_volume
         Processor.most_volatile].
    assert (Processor.ranking true [] /\ Processor.ranking false []) as [Rt Rf]
      by (split; split; simpl; try lia; constructor).
    assert (Processor.ties_in_record_order [] []) as T
      by (intros k; exists []; reflexivity).
    split; [split; assumption|]. split; [split; assumption|].
    split; split; assumption.
  - cbn [Processor.is_empty Processor.top_gainers Processor.top_losers
         Processor.highest_volume Processor.most_volatile].
    split; [apply OverviewFacts.top_desc_spec|].
    split; [apply OverviewFacts.top_asc_of_desc_spec|].
    split; apply OverviewFacts.top_desc_spec.
Qed.

Lemma C6_rankings_sorted_top10_witness :
  let ov :=
    Processor.update_market_overview "now" Samples.store
      Processor.initial_overview in
  Processor.ranking true (Processor.top_gainers ov)
  /\ Processor.ranking false (Processor.top_losers ov)
  /\ Processor.ranking true (Processor.highest_volume ov)
  /\ Processor.ranking true (Processor.most_volatile ov).
Proof.
  destruct (C6_rankings_sorted_top10 "now" Samples.store
              Processor.initial_overview) as ((G & _) & (L & _) & (V & _) & (M & _)).
  - vm_compute. discriminate.
  - intros ov. split; [exact G|]. split; [exact L|]. split; [exact V | exact M].
Defined.

(** C10. A prediction file whose list of actual candles is empty is
    processed into a record with price change percent 0 and volatility 0.
    Once that record is stored under its ticker, the ticker is in the
    Neutral bucket and in neither of the others, and every entry it has in
    the gainers, losers and volatility rankings carries the metric 0. *)
Theorem C10_fresh_record_neutral_zero :
  forall fsqrt data ticker chart now store prior,
    Processor.in_chart_data data = Some chart ->
    Processor.in_actual_candlesticks chart = [] ->
    NoDup (map fst store) ->
    exists r,
      Processor.process_ohlcv_file fsqrt data ticker = Some r
      /\ Processor.price_change_percent r = 0
      /\ Processor.volatility r = 0
      /\ let store' := Processor.process_prediction_file fsqrt data ticker store in
         let ov := Processor.update_market_overview now store' prior in
         In ticker (Processor.bucket Neutral store')
         /\ ~ In ticker (Processor.bucket Bullish store')
         /\ ~ In ticker (Processor.bucket Bearish store')
         /\ forall e,
              In e (Processor.top_gainers ov) \/ In e (Processor.top_losers ov)
              \/ In e (Processor.most_volatile ov) ->
              Processor.entry_ticker e = ticker -> Processor.metric e = 0.
Proof.
  intros fsqrt data ticker chart now store prior Hc Ha Hnd.
  assert (exists r, Processor.process_ohlcv_file fsqrt data ticker = Some r
                    /\ Processor.price_change_percent r = 0
                    /\ Processor.volatility r = 0) as (r & Er & Hp & Hv).
  { unfold Processor.process_ohlcv_file. rewrite Hc. cbn [Py.bind]. rewrite Ha.
    cbn [Py.last_item rev hd_error Processor.is_empty negb Py.bind].
    destruct (Py.last_item (Processor.in_historical_candlesticks chart));
      cbn [Py.bind]; eexists; (split; [reflexivity|]); split; reflexivity. }
  exists r. split; [exact Er|]. split; [exact Hp|]. split; [exact Hv|].
  unfold Processor.process_prediction_file. rewrite Er.
  set (store' := Py.dict_set String.eqb ticker r store).
  assert (In (ticker, r) store') as Hin by apply OverviewFacts.dict_set_in.
  assert (forall r', In (ticker, r') store' -> r' = r) as Huniq
    by (intros r' H'; eapply OverviewFacts.dict_set_unique; eauto).
  assert (classify_trend (Processor.price_change_percent r) = Neutral) as Hn
    by (rewrite Hp; reflexivity).
  cbv zeta. split; [eapply OverviewFacts.in_bucket; eauto|].
  split; [|split].
  - intros Hb. apply OverviewFacts.bucket_in in Hb.
    destruct Hb as (r' & Hr' & Ht). apply Huniq in Hr'. subst r'. congruence.
  - intros Hb. apply OverviewFacts.bucket_in in Hb.
    destruct Hb as (r' & Hr' & Ht). apply Huniq in Hr'. subst r'. congruence.
  - intros e He Ht. unfold Processor.update_market_overview in He.
    assert (Processor.is_empty store' = false) as Hne
      by apply OverviewFacts.dict_set_nonempty.
    rewrite Hne in He.
    cbn [Processor.top_gainers Processor.top_losers Processor.most_volatile] in He.
    assert (exists value r',
               In (Processor.entry_ticker e, r') store'
               /\ Processor.metric e = value r'
               /\ (value = Processor.price_change_percent
                   \/ value = Processor.volatility)) as (value & r' & Hr' & Hm & Hval).
    { destruct He as [He|[He|He]].
      - destruct (OverviewFacts.top_entry_origin Processor.price_change_percent
                    store' e (or_introl He)) as (r' & H1 & H2).
        exists Processor.price_change_percent, r'. auto.
      - destruct (OverviewFacts.top_entry_origin Processor.price_change_percent
                    store' e (or_intror He)) as (r' & H1 & H2).
        exists Processor.price_change_percent, r'. auto.
      - destruct (OverviewFacts.top_entry_origin Processor.volatility
                    store' e (or_introl He)) as (r' & H1 & H2).
        exists Processor.volatility, r'. auto. }
    rewrite Ht in Hr'. apply Huniq in Hr'. subst r'.
    rewrite Hm. destruct Hval as [->| ->]; assumption.
Qed.

Lemma C10_fresh_record_neutral_zero_witness :
  exists r,
    Processor.process_ohlcv_file Num.sqrt_fix Samples.fresh_file "AAA" = Some r
    /\ Processor.price_change_percent r = 0
    /\ Processor.volatility r = 0
    /\ In "AAA"%string
         (Processor.bucket Neutral
            (Processor.process_prediction_file Num.sqrt_fix Samples.fresh_file
               "AAA" [])).
Proof.
  destruct (C10_fresh_record_neutral_zero Num.sqrt_fix Samples.fresh_file "AAA"
              (Processor.mkChartIn Samples.window [] []) "now" []
              Processor.initial_overview eq_refl eq_refl (NoDup_nil _))
    as (r & Er & Hp & Hv & Hn & _).
  exists r. repeat split; assumption.
Defined.


(** * Further properties *)

(** ** The lookback window and the simulator *)

Module WindowFacts.
Import Predictions.

Lemma tail_suffix {A} n (l : list A) : exists earlier, l = earlier ++ Num.tail n l.
Proof.
  exists (firstn (length l - n) l). unfold Num.tail.
  symmetry. apply firstn_skipn.
Qed.

Lemma tail_length {A} n (l : list A) : length (Num.tail n l) = Nat.min n (length l).
Proof. unfold Num.tail. rewrite length_skipn. lia. Qed.

Lemma skip_weekends_step d :
  (Calendar.skip_weekends 2 d <= Calendar.skip_weekends 2 (d + 1))%Z.
Proof.
  simpl. repeat CalendarFacts.split_weekday; try lia; CalendarFacts.weekday_lia.
Qed.

Lemma pred_date_spec last_date i :
  Calendar.trading_day (Calendar.pred_date last_date i)
  /\ (last_date < Calendar.pred_date last_date i)%Z
  /\ (Calendar.pred_date last_date i <= last_date + Z.of_nat i + 3)%Z
  /\ (Calendar.pred_date last_date i <= Calendar.pred_date last_date (S i))%Z.
Proof.
  unfold Calendar.pred_date.
  destruct (CalendarFacts.skip_weekends_spec (last_date + Z.of_nat i + 1))
    as (T & B & _).
  pose proof (skip_weekends_step (last_date + Z.of_nat i + 1)) as M.
  replace (last_date + Z.of_nat (S i) + 1)%Z
    with (last_date + Z.of_nat i + 1 + 1)%Z by lia.
  repeat split; try assumption; lia.
Qed.

Lemma pred_dates_sorted last_date n : forall i,
  StronglySorted Z.le (map (Calendar.pred_date last_date) (seq i n)).
Proof.
  induction n as [|n IH]; intros i; simpl; constructor.
  - apply IH.
  - apply Forall_forall. intros d Hd. apply in_map_iff in Hd.
    destruct Hd as (j & <- & Hj). apply in_seq in Hj.
    assert (forall k, (Calendar.pred_date last_date i
                       <= Calendar.pred_date last_date (i + k))%Z) as Hk.
    { induction k as [|k IHk]; [rewrite Nat.add_0_r; lia|].
      destruct (pred_date_spec last_date (i + k)) as (_ & _ & _ & S1).
      replace (i + S k)%nat with (S (i + k)) by lia. lia. }
    replace j with (i + (j - i))%nat by lia. apply Hk.
Qed.

(** With no day to predict nothing is drawn and no path is kept. *)
Lemma monte_carlo_loop_no_days fsqrt hist runs :
  forall st, monte_carlo_loop fsqrt hist 0 runs st = Some ([], st).
Proof.
  induction runs as [|runs IH]; intros st; cbn [monte_carlo_loop];
    [reflexivity|].
  assert (exists p, generate_predictions fsqrt hist 0 st = Some (p, st)
                    /\ (p = None \/ p = Some [])) as (p & -> & Hp).
  { unfold generate_predictions.
    destruct (length hist <? 20)%nat; eexists; (split; [reflexivity|]); auto. }
  cbn [Py.bind]. rewrite IH. cbn [Py.bind].
  destruct Hp as [-> | ->]; reflexivity.
Qed.

End WindowFacts.

(** X1. The lookback window has at most [lookback_days] rows, none dated after
    the end date, and it is the tail of the rows up to the end date, in
    their order; when those are no more than [lookback_days] it is all of
    them. *)
Theorem get_lookback_data_window :
  forall df end_date lookback_days,
    let upto := filter (fun row => (date row <=? end_date)%Z) df in
    let w := Predictions.get_lookback_data df end_date lookback_days in
    length w = Nat.min lookback_days (length upto)
    /\ Forall (fun row => (date row <= end_date)%Z) w
    /\ exists earlier, upto = earlier ++ w.
Proof.
  intros df end_date n upto w. unfold w, Predictions.get_lookback_data.
  fold upto. split; [apply WindowFacts.tail_length|].
  destruct (WindowFacts.tail_suffix n upto) as [earlier E].
  split; [|exists earlier; exact E].
  apply Forall_forall. intros row Hr.
  assert (In row upto) as Hu by (rewrite E; apply in_or_app; now right).
  apply filter_In in Hu. destruct Hu as [_ Hd]. now apply Z.leb_le.
Qed.

(** X2. On a window of at least 20 rows in which no close is zero, every
    forecast date of a simulated path is a weekday later than the last
    historical date and at most three days past its step; the dates never
    decrease along the path; every candle carries the mean volume of the
    last 20 rows. *)
Theorem forecast_dates_are_weekdays :
  forall fsqrt hist prediction_days st,
    (20 <= length hist)%nat -> nonzero_closes hist ->
    exists preds st',
      Predictions.generate_predictions fsqrt hist prediction_days st
      = Some (Some preds, st')
      /\ (forall i c, nth_error preds i = Some c ->
            Calendar.trading_day (date c)
            /\ (last (map date hist) 0 < date c
                <= last (map date hist) 0 + Z.of_nat i + 3)%Z)
      /\ StronglySorted Z.le (map date preds)
      /\ Forall (fun c => volume c = Num.mean (Num.tail 20 (map volume hist)))
           preds.
Proof.
  intros fsqrt hist n st H Hz.
  destruct (SimulatorFacts.generate_predictions_long fsqrt hist n st H)
    as (preds & st' & E & _).
  { apply SimulatorFacts.nonzero_closes_steady; [exact Hz | lia]. }
  destruct (SimulatorFacts.generate_predictions_returned _ _ _ _ _ _ E)
    as (_ & Hl & _ & Hd & Hv).
  exists preds, st'. split; [exact E|]. split; [|split].
  - intros i c Hi.
    assert (nth_error (map date preds) i = Some (date c)) as Hm
      by (rewrite nth_error_map, Hi; reflexivity).
    unfold Calendar.prediction_dates in Hd.
    rewrite Hd, nth_error_map in Hm.
    destruct (nth_error (seq 0 n) i) as [j|] eqn:Ej; [|discriminate].
    assert (i < n)%nat as Hin
      by (rewrite <- (length_seq n 0); apply nth_error_Some; congruence).
    pose proof (nth_error_nth _ _ 0%nat Ej) as Hj.
    rewrite seq_nth in Hj by exact Hin. simpl in Hj. subst j.
    injection Hm as <-.
    destruct (WindowFacts.pred_date_spec (last (map date hist) 0%Z) i)
      as (T & L & U & _).
    repeat split; assumption.
  - rewrite Hd. apply WindowFacts.pred_dates_sorted.
  - exact Hv.
Qed.

Lemma forecast_dates_are_weekdays_witness :
  exists preds st',
    Predictions.generate_predictions Num.sqrt_fix Samples.window 5 Samples.rng
    = Some (Some preds, st')
    /\ (forall i c, nth_error preds i = Some c ->
          Calendar.trading_day (date c)
          /\ (last (map date Samples.window) 0 < date c
              <= last (map date Samples.window) 0 + Z.of_nat i + 3)%Z)
    /\ StronglySorted Z.le (map date preds)
    /\ Forall (fun c => volume c
                        = Num.mean (Num.tail 20 (map volume Samples.window)))
         preds.
Proof.
  apply (forecast_dates_are_weekdays Num.sqrt_fix Samples.window 5 Samples.rng).
  - vm_compute. lia.
  - apply SimulatorFacts.forallb_nonzero_closes. vm_compute. reflexivity.
Defined.

(** X3. On a window of at least 20 rows with a day to predict: when no close
    is zero the ensemble driver returns exactly [num_simulations] paths,
    each of [prediction_days] candles that satisfy the OHLC invariant; when
    the returns are not finite numbers, or fewer than two, the first run
    raises and so does the driver.  With a horizon of zero days every path
    is empty and is dropped, so the ensemble is empty. *)
Theorem monte_carlo_ensemble_shape :
  forall fsqrt hist prediction_days num_simulations st,
    (20 <= length hist)%nat ->
    ((0 < prediction_days)%nat -> nonzero_closes hist ->
     exists paths st',
       Predictions.generate_monte_carlo_paths fsqrt hist prediction_days
         num_simulations st = Some (paths, st')
       /\ length paths = num_simulations
       /\ rectangular prediction_days paths
       /\ Forall (Forall ohlc_ok) paths)
    /\ ((0 < prediction_days)%nat -> (0 < num_simulations)%nat ->
        ~ steady hist ->
        Predictions.generate_monte_carlo_paths fsqrt hist prediction_days
          num_simulations st = None)
    /\ (prediction_days = 0%nat ->
        Predictions.generate_monte_carlo_paths fsqrt hist prediction_days
          num_simulations st = Some ([], st)).
Proof.
  intros fsqrt hist n runs st H.
  unfold Predictions.generate_monte_carlo_paths.
  pose proof H as Hb. apply Nat.ltb_ge in Hb. rewrite Hb.
  split; [|split].
  - intros Hn Hz. apply DriverFacts.monte_carlo_loop_spec; try assumption.
    apply SimulatorFacts.nonzero_closes_steady; [exact Hz | lia].
  - intros Hn Hr Hs. now apply DriverFacts.monte_carlo_loop_raises.
  - intros ->. apply WindowFacts.monte_carlo_loop_no_days.
Qed.

Lemma monte_carlo_ensemble_shape_witness :
  exists paths st',
    Predictions.generate_monte_carlo_paths Num.sqrt_fix Samples.window 5 10
      Samples.rng = Some (paths, st')
    /\ length paths = 10%nat
    /\ rectangular 5 paths
    /\ Forall (Forall ohlc_ok) paths.
Proof.
  apply (monte_carlo_ensemble_shape Num.sqrt_fix Samples.window 5 10 Samples.rng).
  - vm_compute. lia.
  - lia.
  - apply SimulatorFacts.forallb_nonzero_closes. vm_compute. reflexivity.
Defined.

(** ** Means, percentiles and the table *)

Module StatsFacts.
Import Predictions.

Lemma sum_le_pointwise {A} (f g : A -> Q) l :
  (forall x, In x l -> f x <= g x) ->
  Num.sum (map f l) <= Num.sum (map g l).
Proof.
  induction l as [|x l IH]; intros H; simpl; [lra|].
  assert (f x <= g x) by (apply H; now left).
  assert (Num.sum (map f l) <= Num.sum (map g l))
    by (apply IH; intros; apply H; now right).
  lra.
Qed.

Lemma div_le_compat x y k : 0 < k -> x <= y -> x / k <= y / k.
Proof.
  intros Hk H. unfold Qdiv. apply Qmult_le_compat_r; [exact H|].
  apply Qlt_le_weak, Qinv_lt_0_compat, Hk.
Qed.

Lemma len_pos {A} (l : list A) : l <> [] -> 0 < inject_Z (Z.of_nat (length l)).
Proof.
  intros H. destruct l; [congruence|].
  change 0 with (inject_Z 0). rewrite <- Zlt_Qlt. simpl length. lia.
Qed.

Lemma mean_le_pointwise {A} (f g : A -> Q) l :
  l <> [] -> (forall x, In x l -> f x <= g x) ->
  arithmetic_mean (map f l) <= arithmetic_mean (map g l).
Proof.
  intros Hne H. unfold arithmetic_mean. rewrite !length_map.
  apply div_le_compat; [now apply len_pos | now apply sum_le_pointwise].
Qed.

(** The mean candle of OHLC-valid candles is OHLC-valid. *)
Lemma spec_mean_candle_ok n paths d :
  paths <> [] -> rectangular n paths -> (d < n)%nat ->
  Forall (Forall ohlc_ok) paths -> ohlc_ok (spec_mean_candle paths d).
Proof.
  intros Hne R Hd Ho. unfold ohlc_ok, spec_mean_candle, ensemble_values.
  cbn [low open high close].
  assert (forall path, In path paths ->
            exists c, nth_error path d = Some c /\ ohlc_ok c) as Hc.
  { intros path Hp. unfold rectangular in R. rewrite Forall_forall in R, Ho.
    destruct (nth_error path d) as [c|] eqn:E.
    - exists c. split; [reflexivity|].
      specialize (Ho path Hp). rewrite Forall_forall in Ho.
      eapply Ho, nth_error_In, E.
    - apply nth_error_None in E. rewrite (R path Hp) in E. lia. }
  split; [|split; [|split]]; apply mean_le_pointwise; try assumption;
    intros path Hp; destruct (Hc path Hp) as (c & -> & O);
    unfold ohlc_ok in O; tauto.
Qed.

Lemma np_percentile_bounds a b values q :
  values <> [] -> 0 <= q -> q <= 100 ->
  (forall v, In v values -> a <= v /\ v <= b) ->
  a <= np_percentile values q /\ np_percentile values q <= b.
Proof.
  intros Hne H0 H100 Hin. unfold np_percentile.
  set (s := Py.sorted_by (fun x => x) false values).
  assert (0 < length s)%nat as Hlen.
  { unfold s. rewrite SortFacts.sorted_by_length.
    destruct values; [congruence | simpl; lia]. }
  assert (Num.len s - 1 == inject_Z (Z.of_nat (length s - 1))) as El.
  { unfold Num.len. rewrite Nat2Z.inj_sub by lia.
    change (Z.of_nat 1) with 1%Z. unfold Z.sub.
    rewrite inject_Z_plus, inject_Z_opp.
    change (inject_Z 1) with 1. lra. }
  assert (0 <= Num.len s - 1) as Hl0.
  { rewrite El. change 0 with (inject_Z 0). rewrite <- Zle_Qle. lia. }
  set (v := (Num.len s - 1) * (q / 100)).
  assert (0 <= v /\ v <= inject_Z (Z.of_nat (length s - 1))) as [V0 V1].
  { unfold v, Qdiv. change (/ 100) with (1 # 100). rewrite <- El. split; nra. }
  destruct (PercentileFacts.interpolate_between s v
              (SortFacts.sorted_by_asc _ values) V0 V1 Hlen) as [L U].
  destruct (PercentileFacts.floor_index v _ V0 V1) as [F0 Fn].
  assert (forall i, (i < length s)%nat -> a <= nth i s 0 /\ nth i s 0 <= b) as Hs.
  { intros i Hi. apply Hin.
    apply (Permutation_in _ (SortFacts.sorted_by_perm (fun x => x) false values)).
    apply nth_In, Hi. }
  destruct (Hs (Z.to_nat (Qfloor v)) ltac:(lia)) as [A1 _].
  destruct (Hs (Nat.min (S (Z.to_nat (Qfloor v))) (length s - 1)) ltac:(lia))
    as [_ B2].
  split; lra.
Qed.

(** [d[k] = v] keeps the keys distinct. *)
Lemma dict_set_nodup {V} k (v : V) d :
  NoDup (map fst d) -> NoDup (map fst (Py.dict_set Z.eqb k v d)).
Proof.
  induction d as [|[k0 v0] d IH]; simpl; intros H.
  - repeat constructor. intros [].
  - inversion H as [|? ? Hn Hd]; subst.
    destruct (Z.eqb_spec k0 k) as [->|N]; simpl; [constructor; assumption|].
    constructor; [|now apply IH].
    intros Hin. apply EnsembleFacts.dict_set_keys in Hin.
    destruct Hin as [E|Hin]; [congruence | contradiction].
Qed.

Lemma percentiles_loop_keys fsqrt paths days :
  forall acc r,
    percentiles_loop fsqrt paths days acc = Some r ->
    (NoDup (map fst acc) -> NoDup (map fst r))
    /\ forall k, In k (map fst r) ->
         In k (map fst acc)
         \/ exists d c, In d days /\ nth_error (hd [] paths) d = Some c
                        /\ date c = k.
Proof.
  induction days as [|d days IH]; intros acc r E; simpl in E.
  - injection E as <-. split; [auto|]. intros k Hk. now left.
  - destruct paths as [|first rest]; [discriminate|].
    cbn [nth_error Py.bind] in E.
    destruct (nth_error first d) as [c|] eqn:Ec; [|discriminate].
    cbn [Py.bind] in E.
    destruct (day_stats fsqrt (first :: rest) d) as [ds|]; [|discriminate].
    cbn [Py.bind] in E.
    destruct (IH _ _ E) as [Hn Hk]. split.
    + intros Ha. apply Hn, dict_set_nodup, Ha.
    + intros k Hin. destruct (Hk k Hin) as [Hacc|(d' & c' & Hd' & Hc' & Hk')].
      * apply EnsembleFacts.dict_set_keys in Hacc.
        destruct Hacc as [->|Hacc]; [|now left].
        right. exists d, c. simpl. auto.
      * right. exists d', c'. simpl. auto.
Qed.

End StatsFacts.

(** X4. When every candle of a non-empty ensemble of equal-length paths
    satisfies the OHLC invariant, so does every predicted candle of the
    record built from it: the means keep low <= open, close <= high. *)
Theorem mean_path_keeps_ohlc :
  forall fsqrt now ticker hist predictions mc st n js st',
    mc <> [] -> rectangular n mc -> Forall (Forall ohlc_ok) mc ->
    Predictions.create_prediction_json fsqrt now ticker hist predictions mc st
    = Some (js, st') ->
    length (predicted_candlesticks (chart_data js)) = n
    /\ Forall ohlc_ok (predicted_candlesticks (chart_data js)).
Proof.
  intros fsqrt now ticker hist predictions mc st n js st' Hne R Ho E.
  pose proof (RecordFacts.mean_predictions_ensemble n predictions mc Hne R) as Emp.
  unfold Predictions.create_prediction_json in E. rewrite Emp in E.
  cbn [Py.bind] in E.
  destruct (match mc with [] => Some [] | _ => Predictions.calculate_percentiles fsqrt mc end);
    [|discriminate].
  cbn [Py.bind] in E.
  destruct (hd_error hist); [|discriminate]. cbn [Py.bind] in E.
  destruct (Py.last_item hist); [|discriminate]. cbn [Py.bind] in E.
  destruct (hd_error (map (spec_mean_candle mc) (seq 0 n))); [|discriminate].
  cbn [Py.bind] in E.
  destruct (Py.last_item (map (spec_mean_candle mc) (seq 0 n))); [|discriminate].
  cbn [Py.bind] in E.
  destruct (Rng.randint (-5) 10 st) as [jitter st1].
  injection E as <- <-. cbn [chart_data predicted_candlesticks].
  split; [now rewrite length_map, length_seq|].
  apply Forall_forall. intros x Hc. apply in_map_iff in Hc.
  destruct Hc as (d & <- & Hd). apply in_seq in Hd.
  apply (StatsFacts.spec_mean_candle_ok n); try assumption. lia.
Qed.

Lemma mean_path_keeps_ohlc_witness :
  exists js,
    option_map fst
      (Predictions.create_prediction_json Num.sqrt_fix "now" "QQQ" Samples.window
         [] Samples.ensemble Samples.rng) = Some js
    /\ length (predicted_candlesticks (chart_data js)) = 2%nat
    /\ Forall ohlc_ok (predicted_candlesticks (chart_data js)).
Proof.
  destruct (Predictions.create_prediction_json Num.sqrt_fix "now" "QQQ"
              Samples.window [] Samples.ensemble Samples.rng)
    as [[js st']|] eqn:E; [|vm_compute in E; discriminate E].
  exists js. split; [reflexivity|].
  apply (mean_path_keeps_ohlc Num.sqrt_fix "now" "QQQ" Samples.window []
           Samples.ensemble Samples.rng 2 js st').
  - discriminate.
  - repeat constructor.
  - repeat constructor; vm_compute; discriminate.
  - exact E.
Defined.

(** X5. The percentiles of a non-empty sample stay inside the sample's
    range: when every value lies in [a, b], so do p10, p25, p50, p75 and
    p90. *)
Theorem day_statistics_within_range :
  forall fsqrt values a b,
    values <> [] ->
    (forall v, In v values -> a <= v /\ v <= b) ->
    let s := Predictions.metric_stats fsqrt values in
    (a <= p10 s /\ p10 s <= b) /\ (a <= p25 s /\ p25 s <= b)
    /\ (a <= p50 s /\ p50 s <= b) /\ (a <= p75 s /\ p75 s <= b)
    /\ (a <= p90 s /\ p90 s <= b).
Proof.
  intros fsqrt values a b Hne H s. unfold s, Predictions.metric_stats.
  cbn [p10 p25 p50 p75 p90].
  split; [|split; [|split; [|split]]];
    apply StatsFacts.np_percentile_bounds; try assumption; lra.
Qed.

Lemma day_statistics_within_range_witness :
  let s := Predictions.metric_stats Num.sqrt_fix [102; 98; 101] in
  (98 <= p10 s /\ p10 s <= 102) /\ (98 <= p25 s /\ p25 s <= 102)
  /\ (98 <= p50 s /\ p50 s <= 102) /\ (98 <= p75 s /\ p75 s <= 102)
  /\ (98 <= p90 s /\ p90 s <= 102).
Proof.
  apply (day_statistics_within_range Num.sqrt_fix [102; 98; 101] 98 102).
  - discriminate.
  - intros v [<-|[<-|[<-|[]]]]; split; vm_compute; discriminate.
Defined.

(** X6. The percentile table has one entry per distinct date of the first
    path: its keys do not repeat, they are exactly the dates of the first
    path, and so the table has at most as many entries as the path has
    days. *)
Theorem percentile_table_keys :
  forall fsqrt n mc,
    mc <> [] -> rectangular n mc ->
    exists pcts,
      Predictions.calculate_percentiles fsqrt mc = Some pcts
      /\ NoDup (map fst pcts)
      /\ (forall k, In k (map fst pcts) <-> In k (map date (hd [] mc)))
      /\ (length pcts <= n)%nat.
Proof.
  intros fsqrt n mc Hne R.
  destruct (RecordFacts.calculate_percentiles_spec fsqrt n mc Hne R)
    as (pcts & E & _ & K).
  exists pcts. split; [exact E|].
  destruct mc as [|first rest]; [congruence|].
  assert (length first = n) as Hlen by (inversion R; assumption).
  unfold Predictions.calculate_percentiles in E.
  destruct (StatsFacts.percentiles_loop_keys fsqrt _ _ _ _ E) as [Hn Hk].
  assert (NoDup (map fst pcts)) as ND by (apply Hn; constructor).
  assert (forall k, In k (map fst pcts) <-> In k (map date first)) as Hiff.
  { intros k. split.
    - intros Hin. destruct (Hk k Hin) as [[]|(d & c & _ & Hc & <-)].
      apply in_map. eapply nth_error_In. exact Hc.
    - intros Hin. apply in_map_iff in Hin. destruct Hin as (c & <- & Hc).
      apply K. exact Hc. }
  split; [exact ND|]. split; [exact Hiff|].
  rewrite <- Hlen, <- (length_map date first), <- (length_map fst pcts).
  apply NoDup_incl_length; [exact ND|].
  intros k Hin. now apply Hiff.
Qed.

Lemma percentile_table_keys_witness :
  exists pcts,
    Predictions.calculate_percentiles Num.sqrt_fix Samples.ensemble = Some pcts
    /\ NoDup (map fst pcts)
    /\ (forall k, In k (map fst pcts) <-> In k (map date (hd [] Samples.ensemble)))
    /\ (length pcts <= 2)%nat.
Proof.
  apply (percentile_table_keys Num.sqrt_fix 2 Samples.ensemble).
  - discriminate.
  - repeat constructor.
Defined.


(** ** The files on disk and the batch *)

Module FileFacts.
Import Predictions.

Lemma dict_get_set_same {V} k (v : V) d :
  PyExt.dict_get String.eqb k (Py.dict_set String.eqb k v d) = Some v.
Proof.
  induction d as [|[k0 v0] d IH]; simpl.
  - now rewrite String.eqb_refl.
  - destruct (String.eqb_spec k0 k) as [->|N]; simpl.
    + now rewrite String.eqb_refl.
    + destruct (String.eqb_spec k0 k); [contradiction | exact IH].
Qed.

Lemma dict_get_set_other {V} k k' (v : V) d :
  k' <> k ->
  PyExt.dict_get String.eqb k' (Py.dict_set String.eqb k v d)
  = PyExt.dict_get String.eqb k' d.
Proof.
  intros N. induction d as [|[k0 v0] d IH]; simpl.
  - destruct (String.eqb_spec k k'); [congruence | reflexivity].
  - destruct (String.eqb_spec k0 k) as [->|N0]; simpl.
    + destruct (String.eqb_spec k k'); [congruence | reflexivity].
    + destruct (String.eqb_spec k0 k'); [reflexivity | exact IH].
Qed.

Lemma dict_set_present_keys {V} k (v : V) d :
  In k (map fst d) ->
  map fst (Py.dict_set String.eqb k v d) = map fst d.
Proof.
  induction d as [|[k0 v0] d IH]; simpl; [intros []|].
  intros H. destruct (String.eqb_spec k0 k) as [->|N]; simpl; [reflexivity|].
  destruct H as [E|H]; [congruence|]. now rewrite IH.
Qed.

Lemma dict_set_length {V} k (v : V) d :
  (length d <= length (Py.dict_set String.eqb k v d) <= S (length d))%nat.
Proof.
  induction d as [|[k0 v0] d IH]; simpl; [lia|].
  destruct (String.eqb k0 k); simpl; lia.
Qed.

Lemma dict_set_nodup_keys {V} k (v : V) d :
  NoDup (map fst d) -> NoDup (map fst (Py.dict_set String.eqb k v d)).
Proof.
  induction d as [|[k0 v0] d IH]; simpl; intros H.
  - repeat constructor. intros [].
  - inversion H as [|? ? Hn Hd]; subst.
    destruct (String.eqb_spec k0 k) as [->|N]; simpl; [constructor; assumption|].
    constructor; [|now apply IH].
    intros Hin. apply in_map_iff in Hin. destruct Hin as ([k1 v1] & E & Hin).
    simpl in E. subst k1.
    assert (In k0 (map fst d)) as Hold.
    { clear - Hin N. induction d as [|[k2 v2] d IH]; simpl in *.
      - destruct Hin as [E|[]]. congruence.
      - destruct (String.eqb_spec k2 k) as [->|N2]; simpl in Hin.
        + destruct Hin as [E|Hin]; [congruence|]. right.
          apply (in_map fst) in Hin. exact Hin.
        + destruct Hin as [E|Hin]; [left; congruence | right; now apply IH]. }
    contradiction.
Qed.

(** What the run of one ticker writes. *)
Lemma process_ticker_record fsqrt now ticker df files st :
  let historical := get_lookback_data df LOOKBACK_END LOOKBACK_DAYS in
  (20 <= length historical)%nat -> steady historical ->
  exists js st',
    process_ticker fsqrt now ticker (Some df) files st
    = Some (true, Py.dict_set String.eqb ticker js files, st')
    /\ length (predicted_candlesticks (chart_data js)) = PREDICTION_DAYS
    /\ Forall ohlc_ok (predicted_candlesticks (chart_data js))
    /\ length (monte_carlo_paths (chart_data js)) = MONTE_CARLO_RUNS
    /\ rectangular PREDICTION_DAYS (monte_carlo_paths (chart_data js))
    /\ Forall (Forall ohlc_ok) (monte_carlo_paths (chart_data js))
    /\ Forall (fun kv => day_monotone (snd kv))
         (prediction_percentiles (chart_data js))
    /\ historical_candlesticks (chart_data js) = historical
    /\ actual_candlesticks (chart_data js) = []
    /\ (70 <= overall_score (summary_stats js) <= 95)%Z.
Proof.
  intros historical H Hs. unfold process_ticker. fold historical.
  pose proof H as Hb. apply Nat.ltb_ge in Hb. rewrite Hb.
  destruct (SimulatorFacts.generate_predictions_long fsqrt historical
              PREDICTION_DAYS st H Hs) as (preds & st1 & E & Hl & _).
  rewrite E. cbn [Py.bind]. destruct preds as [|c rest]; [discriminate|].
  unfold generate_monte_carlo_paths. rewrite Hb.
  destruct (DriverFacts.monte_carlo_loop_spec fsqrt historical PREDICTION_DAYS
              MONTE_CARLO_RUNS H Hs ltac:(unfold PREDICTION_DAYS; lia) st1)
    as (mc & st2 & Em & Ml & Mr & Mo).
  rewrite Em. cbn [Py.bind].
  assert (mc <> []) as Hne by (destruct mc; [discriminate Ml | discriminate]).
  assert (historical <> []) as Hh by (intros X; rewrite X in H; simpl in H; lia).
  pose proof (RecordFacts.mean_predictions_ensemble PREDICTION_DAYS (c :: rest)
                mc Hne Mr) as Emp.
  destruct (RecordFacts.calculate_percentiles_spec fsqrt PREDICTION_DAYS mc Hne Mr)
    as (pcts & Epc & Fpc & _).
  assert (match mc with [] => Some [] | _ => calculate_percentiles fsqrt mc end
          = Some pcts) as Epc' by (destruct mc; [congruence | exact Epc]).
  assert (map (spec_mean_candle mc) (seq 0 PREDICTION_DAYS) <> []) as Hm
    by discriminate.
  destruct (RecordFacts.create_prediction_json_built fsqrt now ticker historical
              (c :: rest) mc st2 _ pcts Hh Hm Emp Epc')
    as (js & st3 & Ej & P1 & P2 & P3 & P4 & P5 & _ & _ & (jitter & Pj)).
  rewrite Ej. cbn [Py.bind]. exists js, st3.
  split; [reflexivity|]. rewrite P1, P2, P3, P4, P5, Pj.
  split; [now rewrite length_map, length_seq|].
  split.
  { apply Forall_forall. intros x Hx. apply in_map_iff in Hx.
    destruct Hx as (d & <- & Hd). apply in_seq in Hd.
    apply (StatsFacts.spec_mean_candle_ok PREDICTION_DAYS); try assumption. lia. }
  repeat (split; [assumption || reflexivity|]).
  apply DriverFacts.score_of_bounds.
Qed.

(** The three ways the run of one ticker ends. *)
Lemma process_ticker_cases fsqrt now ticker df files st :
  (Batch.unusable (fun _ => df) ticker
   /\ process_ticker fsqrt now ticker df files st = Some (false, files, st))
  \/ (Batch.broken (fun _ => df) ticker
      /\ process_ticker fsqrt now ticker df files st = None)
  \/ (~ Batch.unusable (fun _ => df) ticker
      /\ ~ Batch.broken (fun _ => df) ticker
      /\ exists js st',
           process_ticker fsqrt now ticker df files st
           = Some (true, Py.dict_set String.eqb ticker js files, st')).
Proof.
  unfold Batch.unusable, Batch.broken. destruct df as [df|].
  - cbv zeta.
    destruct (Nat.lt_ge_cases
                (length (get_lookback_data df LOOKBACK_END LOOKBACK_DAYS)) 20)
      as [Hs|Hl].
    + left. split; [exact Hs|]. now apply DriverFacts.process_ticker_short.
    + destruct (SimulatorFacts.steady_dec
                  (get_lookback_data df LOOKBACK_END LOOKBACK_DAYS)) as [Hy|Hn].
      * right; right. split; [lia|]. split; [tauto|].
        now apply DriverFacts.process_ticker_long.
      * right; left. split; [now split|].
        now apply DriverFacts.process_ticker_raises.
  - left. split; [exact I | reflexivity].
Qed.

Lemma unusable_not_broken load t : Batch.unusable load t -> ~ Batch.broken load t.
Proof.
  unfold Batch.unusable, Batch.broken. destruct (load t); [|tauto].
  cbv zeta. lia.
Qed.

Lemma insert_string_perm x l : Permutation (PyExt.insert_string x l) (x :: l).
Proof.
  induction l as [|y l IH]; simpl; [reflexivity|].
  destruct (String.ltb y x); [|reflexivity].
  rewrite IH. apply perm_swap.
Qed.

Lemma sorted_strings_perm l : Permutation (PyExt.sorted_strings l) l.
Proof.
  induction l as [|x l IH]; simpl; [reflexivity|].
  rewrite insert_string_perm. now apply perm_skip.
Qed.

(** One broken ticker aborts the loop. *)
Lemma main_loop_raises fsqrt now load tickers :
  (exists t, In t tickers /\ Batch.broken load t) ->
  forall files st success failed,
    Batch.main_loop fsqrt now load tickers files st success failed = None.
Proof.
  induction tickers as [|ticker rest IH]; intros (t & Hin & Hb);
    [destruct Hin|].
  intros files st success failed. cbn [Batch.main_loop].
  destruct (process_ticker_cases fsqrt (now ticker) ticker (load ticker)
              files st) as [[U E]|[[B E]|(U & B & js & st1 & E)]];
    rewrite E; cbn [Py.bind]; [|reflexivity|].
  - apply IH. exists t. split; [|exact Hb].
    destruct Hin as [<-|Hin]; [|exact Hin].
    exfalso. revert Hb. now apply unusable_not_broken.
  - apply IH. exists t. split; [|exact Hb].
    destruct Hin as [<-|Hin]; [|exact Hin]. contradiction.
Qed.

Lemma main_loop_spec fsqrt now load tickers :
  forall files st success failed,
    (forall t, In t tickers -> In t (map fst files)) ->
    (forall t, In t tickers -> ~ Batch.broken load t) ->
    exists success' failed' files' st',
      Batch.main_loop fsqrt now load tickers files st success failed
      = Some (success', failed', files', st')
      /\ (success' + length failed' = success + length failed + length tickers)%nat
      /\ (success <= success')%nat
      /\ (forall t, In t failed' <->
                    In t failed \/ (In t tickers /\ Batch.unusable load t))
      /\ ((success < success')%nat <->
          exists t, In t tickers /\ ~ Batch.unusable load t)
      /\ map fst files' = map fst files
      /\ (forall t, Batch.unusable load t ->
            PyExt.dict_get String.eqb t files'
            = PyExt.dict_get String.eqb t files).
Proof.
  induction tickers as [|ticker rest IH]; intros files st success failed Hk Hnb.
  - exists success, failed, files, st. simpl.
    split; [reflexivity|]. split; [lia|]. split; [lia|].
    split; [intros t; split; [tauto | intros [H|[[] _]]; exact H]|].
    split; [split; [lia | intros (t & [] & _)]|]. split; reflexivity.
  - cbn [Batch.main_loop].
    destruct (process_ticker_cases fsqrt (now ticker) ticker (load ticker)
                files st) as [[U E]|[[B E]|(U & _ & js & st1 & E)]];
      [| exfalso; apply (Hnb ticker); [now left | exact B] |].
    + rewrite E. cbn [Py.bind].
      destruct (IH files st success (failed ++ [ticker]))
        as (s' & f' & fl' & st' & E' & Hc & Hle & Hf & Hz & Hkeys & Hget).
      { intros t Ht. apply Hk. now right. }
      { intros t Ht. apply Hnb. now right. }
      exists s', f', fl', st'. split; [exact E'|].
      rewrite length_app in Hc. simpl in Hc. simpl length.
      split; [lia|]. split; [exact Hle|]. split; [|split; [|split]].
      * intros t. rewrite Hf, in_app_iff. simpl. unfold Batch.unusable in *.
        split.
        -- intros [[H|[<-|[]]]|[H1 H2]]; auto.
        -- intros [H|[[<-|H1] H2]]; auto.
      * rewrite Hz. split.
        -- intros (t & Ht & Hu). exists t. split; [now right | exact Hu].
        -- intros (t & [<-|Ht] & Hu); [contradiction|]. exists t. auto.
      * exact Hkeys.
      * exact Hget.
    + rewrite E. cbn [Py.bind].
      assert (In ticker (map fst files)) as Hin by (apply Hk; now left).
      destruct (IH (Py.dict_set String.eqb ticker js files) st1 (S success) failed)
        as (s' & f' & fl' & st' & E' & Hc & Hle & Hf & Hz & Hkeys & Hget).
      { intros t Ht. rewrite dict_set_present_keys by exact Hin.
        apply Hk. now right. }
      { intros t Ht. apply Hnb. now right. }
      exists s', f', fl', st'. split; [exact E'|]. simpl length.
      split; [lia|]. split; [lia|]. split; [|split; [|split]].
      * intros t. rewrite Hf. unfold Batch.unusable in *. simpl. split.
        -- intros [H|[H1 H2]]; auto.
        -- intros [H|[[<-|H1] H2]]; auto. contradiction.
      * split; [|lia]. intros _. exists ticker. split; [now left | exact U].
      * rewrite Hkeys. now apply dict_set_present_keys.
      * intros t Ht. rewrite (Hget t Ht). apply dict_get_set_other.
        intros ->. unfold Batch.unusable in *. contradiction.
Qed.

End FileFacts.

(** X7. The run of one ticker on a lookback window of at least 20 rows in
    which no close is zero writes one record under the ticker and touches
    no other file.  The record holds 5 predicted candles and 10 Monte Carlo
    paths of 5 candles, all within the OHLC invariant, ordered percentiles
    for every date, the lookback window as its historical candles, no
    actual candle, and a score in [70, 95]. *)
Theorem process_ticker_writes_one_record :
  forall fsqrt now ticker df files st,
    (20 <= length (Predictions.get_lookback_data df Predictions.LOOKBACK_END
                     Predictions.LOOKBACK_DAYS))%nat ->
    nonzero_closes
      (Predictions.get_lookback_data df Predictions.LOOKBACK_END
         Predictions.LOOKBACK_DAYS) ->
    exists js files' st',
      Predictions.process_ticker fsqrt now ticker (Some df) files st
      = Some (true, files', st')
      /\ PyExt.dict_get String.eqb ticker files' = Some js
      /\ (forall other, other <> ticker ->
            PyExt.dict_get String.eqb other files'
            = PyExt.dict_get String.eqb other files)
      /\ length (predicted_candlesticks (chart_data js)) = 5%nat
      /\ Forall ohlc_ok (predicted_candlesticks (chart_data js))
      /\ length (monte_carlo_paths (chart_data js)) = 10%nat
      /\ rectangular 5 (monte_carlo_paths (chart_data js))
      /\ Forall (Forall ohlc_ok) (monte_carlo_paths (chart_data js))
      /\ Forall (fun kv => day_monotone (snd kv))
           (prediction_percentiles (chart_data js))
      /\ historical_candlesticks (chart_data js)
         = Predictions.get_lookback_data df Predictions.LOOKBACK_END
             Predictions.LOOKBACK_DAYS
      /\ actual_candlesticks (chart_data js) = []
      /\ (70 <= overall_score (summary_stats js) <= 95)%Z.
Proof.
  intros fsqrt now ticker df files st H Hz.
  destruct (FileFacts.process_ticker_record fsqrt now ticker df files st H)
    as (js & st' & E & P).
  { apply SimulatorFacts.nonzero_closes_steady; [exact Hz | lia]. }
  exists js, (Py.dict_set String.eqb ticker js files), st'.
  split; [exact E|]. split; [apply FileFacts.dict_get_set_same|].
  split; [intros other N; now apply FileFacts.dict_get_set_other|].
  exact P.
Qed.

Lemma process_ticker_writes_one_record_witness :
  exists js files' st',
    Predictions.process_ticker Num.sqrt_fix "now" "QQQ" (Some Samples.window) []
      Samples.rng = Some (true, files', st')
    /\ PyExt.dict_get String.eqb "QQQ"%string files' = Some js
    /\ length (predicted_candlesticks (chart_data js)) = 5%nat
    /\ Forall ohlc_ok (predicted_candlesticks (chart_data js)).
Proof.
  destruct (process_ticker_writes_one_record Num.sqrt_fix "now" "QQQ"
              Samples.window [] Samples.rng)
    as (js & files' & st' & E & G & _ & L & O & _).
  - vm_compute. lia.
  - apply SimulatorFacts.forallb_nonzero_closes. vm_compute. reflexivity.
  - exists js, files', st'. repeat split; assumption.
Defined.

(** X8. [main] has no handler of its own: it raises as soon as the run of one
    ticker does, that is when some ticker with a prediction file has a
    lookback window of at least 20 rows whose returns are not finite
    numbers, or fewer than two.  When no ticker is like that, every ticker
    with a prediction file is counted once, as a success or as a failure;
    the failures are exactly the tickers without data or with a lookback
    window of fewer than 20 rows, and their files are left as they were;
    no file is added or removed; the result is true exactly when some
    ticker succeeded. *)
Theorem main_counts_every_ticker :
  forall fsqrt now load files st,
    ((exists t, In t (map fst files) /\ Batch.broken load t) ->
     Batch.main fsqrt now load files st = None)
    /\ ((forall t, In t (map fst files) -> ~ Batch.broken load t) ->
        exists success_count failed_tickers files' st',
          Batch.main fsqrt now load files st
          = Some ((0 <? success_count)%nat, success_count, failed_tickers,
                  files', st')
          /\ (success_count + length failed_tickers = length files)%nat
          /\ (forall t, In t failed_tickers <->
                        In t (map fst files) /\ Batch.unusable load t)
          /\ ((0 <? success_count)%nat = true <->
              exists t, In t (map fst files) /\ ~ Batch.unusable load t)
          /\ map fst files' = map fst files
          /\ forall t, Batch.unusable load t ->
               PyExt.dict_get String.eqb t files'
               = PyExt.dict_get String.eqb t files).
Proof.
  intros fsqrt now load files st. unfold Batch.main.
  pose proof (FileFacts.sorted_strings_perm (map fst files)) as P.
  split.
  - intros (t & Hin & Hb).
    rewrite (FileFacts.main_loop_raises fsqrt now load
               (PyExt.sorted_strings (map fst files))); [reflexivity|].
    exists t. split; [|exact Hb].
    eapply Permutation_in; [symmetry; exact P | exact Hin].
  - intros Hnb.
    destruct (FileFacts.main_loop_spec fsqrt now load
                (PyExt.sorted_strings (map fst files)) files st 0%nat [])
      as (s & f & fl & st' & E & Hc & _ & Hf & Hz & Hk & Hg).
    { intros t Ht. eapply Permutation_in; eauto. }
    { intros t Ht. apply Hnb. eapply Permutation_in; eauto. }
    rewrite E. cbn [Py.bind]. exists s, f, fl, st'.
    split; [reflexivity|].
    rewrite (Permutation_length P), length_map in Hc. simpl in Hc.
    split; [lia|]. split; [|split; [|split; [exact Hk | exact Hg]]].
    + intros t. rewrite Hf. split.
      * intros [[]|[H1 H2]]. split; [eapply Permutation_in; eauto | exact H2].
      * intros [H1 H2]. right.
        split; [eapply Permutation_in; [symmetry; exact P | exact H1] | exact H2].
    + rewrite Nat.ltb_lt, Hz. split.
      * intros (t & Ht & Hu). exists t.
        split; [eapply Permutation_in; eauto | exact Hu].
      * intros (t & Ht & Hu). exists t.
        split; [eapply Permutation_in; [symmetry; exact P | exact Ht] | exact Hu].
Qed.

(** ** The processor's store and its records *)

Module StoreFacts.
Import Processor.

Lemma last_item_nil {A} (l : list A) : Py.last_item l = None <-> l = [].
Proof.
  unfold Py.last_item. split.
  - intros H. destruct (rev l) eqn:E; [|discriminate].
    apply (f_equal (@rev A)) in E. now rewrite rev_involutive in E.
  - intros ->. reflexivity.
Qed.

Lemma is_empty_last {A} (l : list A) :
  is_empty l = match Py.last_item l with None => true | Some _ => false end.
Proof.
  destruct (Py.last_item l) eqn:E.
  - destruct l; [discriminate | reflexivity].
  - apply last_item_nil in E. now subst.
Qed.

Lemma sorted_split {A} (R : A -> A -> Prop) l1 l2 :
  StronglySorted R (l1 ++ l2) ->
  forall a b, In a l1 -> In b l2 -> R a b.
Proof.
  induction l1 as [|x l1 IH]; simpl; intros H a b Ha Hb; [contradiction|].
  inversion H as [|? ? Hs Hf]; subst.
  destruct Ha as [<-|Ha].
  - rewrite Forall_forall in Hf. apply Hf, in_or_app. now right.
  - now apply IH.
Qed.

Lemma top_desc_largest all :
  Conditions.holds_largest all (Py.slice_to 10 (Py.sorted_by metric true all)).
Proof.
  exists (skipn 10 (Py.sorted_by metric true all)). unfold Py.slice_to.
  rewrite firstn_skipn. split; [apply SortFacts.sorted_by_perm|].
  intros e x He Hx.
  pose proof (SortFacts.sorted_by_desc metric all) as S.
  rewrite <- (firstn_skipn 10) in S.
  exact (sorted_split _ _ _ S e x He Hx).
Qed.

Lemma top_asc_smallest all :
  Conditions.holds_smallest all
    (Py.slice_to 10 (Py.sorted_by metric false (Py.sorted_by metric true all))).
Proof.
  set (l := Py.sorted_by metric true all).
  exists (skipn 10 (Py.sorted_by metric false l)). unfold Py.slice_to.
  rewrite firstn_skipn. split.
  - rewrite SortFacts.sorted_by_perm. apply SortFacts.sorted_by_perm.
  - intros e x He Hx.
    pose proof (SortFacts.sorted_by_asc metric l) as S.
    rewrite <- (firstn_skipn 10) in S.
    exact (sorted_split _ _ _ S e x He Hx).
Qed.

Lemma slice_min {A} (l : list A) : length (Py.slice_to 10 l) = Nat.min 10 (length l).
Proof. unfold Py.slice_to. apply length_firstn. Qed.

Lemma entries_length value store : length (entries value store) = length store.
Proof. unfold entries. apply length_map. Qed.

End StoreFacts.

(** X9. Processing an OHLCV file changes the store under its ticker only: every
    other ticker reads as before, distinct keys stay distinct, and the store
    grows by at most one record.  When the file yields a record, the ticker
    reads that record afterwards; when it does not, the store is left as it
    was. *)
Theorem store_update_round_trip :
  forall fsqrt data ticker store,
    let store' := Processor.process_prediction_file fsqrt data ticker store in
    (forall other, other <> ticker ->
       PyExt.dict_get String.eqb other store'
       = PyExt.dict_get String.eqb other store)
    /\ (NoDup (map fst store) -> NoDup (map fst store'))
    /\ (length store <= length store' <= S (length store))%nat
    /\ match Processor.process_ohlcv_file fsqrt data ticker with
       | Some r => PyExt.dict_get String.eqb ticker store' = Some r
       | None => store' = store
       end.
Proof.
  intros fsqrt data ticker store store'. subst store'.
  unfold Processor.process_prediction_file.
  destruct (Processor.process_ohlcv_file fsqrt data ticker) as [r|].
  - split; [intros other N; now apply FileFacts.dict_get_set_other|].
    split; [apply FileFacts.dict_set_nodup_keys|].
    split; [apply FileFacts.dict_set_length|].
    apply FileFacts.dict_get_set_same.
  - split; [reflexivity|]. split; [auto|]. split; [lia | reflexivity].
Qed.

(** X10. [process_ohlcv_file] yields no record in exactly three cases: the file
    has no [chart_data]; there are actual candles and the last historical
    close is zero; or the last ten actual candles are at least two and their
    closes have mean zero. *)
Theorem process_ohlcv_file_fails_iff :
  forall fsqrt data ticker,
    Processor.process_ohlcv_file fsqrt data ticker = None <->
    match Processor.in_chart_data data with
    | None => True
    | Some chart =>
        Conditions.change_fails chart \/ Conditions.volatility_fails chart
    end.
Proof.
  intros fsqrt data ticker. unfold Processor.process_ohlcv_file.
  destruct (Processor.in_chart_data data) as [chart|]; [|simpl; tauto].
  cbn [Py.bind].
  unfold Conditions.change_fails, Conditions.volatility_fails.
  rewrite (StoreFacts.is_empty_last (Processor.in_actual_candlesticks chart)).
  set (prices :=
         map close (Num.tail 10 (Processor.in_actual_candlesticks chart))).
  destruct (Py.last_item (Processor.in_historical_candlesticks chart)) as [h|] eqn:Eh;
    destruct (Py.last_item (Processor.in_actual_candlesticks chart)) as [a|] eqn:Ea;
    cbn [negb Py.bind].
  - destruct (Qeq_bool (close h) 0) eqn:Ez; cbn [Py.bind].
    + split; [intros _|reflexivity]. left. exists h, a.
      repeat split. now apply Qeq_bool_iff.
    + assert (~ close h == 0) as Nz
        by (intros X; apply Qeq_bool_iff in X; congruence).
      destruct (1 <? length prices)%nat eqn:El; cbn [Py.bind].
      * destruct (Qeq_bool (Num.mean prices) 0) eqn:Em; cbn [Py.bind].
        -- split; [intros _|reflexivity]. right.
           split; [now apply Nat.ltb_lt | now apply Qeq_bool_iff].
        -- split; [discriminate|].
           intros [(h' & a' & Hh & _ & Hz)|[_ Hm]].
           ++ injection Hh as <-. contradiction.
           ++ apply Qeq_bool_iff in Hm. congruence.
      * split; [discriminate|].
        intros [(h' & a' & Hh & _ & Hz)|[Hl _]].
        -- injection Hh as <-. contradiction.
        -- apply Nat.ltb_lt in Hl. congruence.
  - split; [discriminate|].
    intros [(h' & a' & _ & Ha & _)|[Hl _]]; [discriminate|].
    apply StoreFacts.last_item_nil in Ea. unfold prices in Hl.
    rewrite Ea in Hl. simpl in Hl. lia.
  - destruct (1 <? length prices)%nat eqn:El; cbn [Py.bind].
    + destruct (Qeq_bool (Num.mean prices) 0) eqn:Em; cbn [Py.bind].
      * split; [intros _|reflexivity]. right.
        split; [now apply Nat.ltb_lt | now apply Qeq_bool_iff].
      * split; [discriminate|].
        intros [(h' & a' & Hh & _)|[_ Hm]]; [discriminate|].
        apply Qeq_bool_iff in Hm. congruence.
    + split; [discriminate|].
      intros [(h' & a' & Hh & _)|[Hl _]]; [discriminate|].
      apply Nat.ltb_lt in Hl. congruence.
  - split; [discriminate|].
    intros [(h' & a' & Hh & _)|[Hl _]]; [discriminate|].
    apply StoreFacts.last_item_nil in Ea. unfold prices in Hl.
    rewrite Ea in Hl. simpl in Hl. lia.
Qed.

(** X11. With actual candles and a positive last historical close, the record
    carries the last actual close as latest price and the change from the
    last historical close to it; the ticker is Bullish exactly when the last
    actual close is more than 1% above the last historical close, Bearish
    exactly when it is more than 1% below. *)
Theorem actual_close_decides_trend :
  forall fsqrt data ticker chart h a r,
    Processor.in_chart_data data = Some chart ->
    Py.last_item (Processor.in_historical_candlesticks chart) = Some h ->
    Py.last_item (Processor.in_actual_candlesticks chart) = Some a ->
    0 < close h ->
    Processor.process_ohlcv_file fsqrt data ticker = Some r ->
    Processor.latest_price r = Some (close a)
    /\ Processor.price_change r = close a - close h
    /\ Processor.price_change_percent r = (close a - close h) / close h * 100
    /\ (classify_trend (Processor.price_change_percent r) = Bullish
        <-> close h * 1.01 < close a)
    /\ (classify_trend (Processor.price_change_percent r) = Bearish
        <-> close a < close h * 0.99).
Proof.
  intros fsqrt data ticker chart h a r Hc Hh Ha Hpos E.
  unfold Processor.process_ohlcv_file in E. rewrite Hc in E.
  cbn [Py.bind] in E. rewrite Hh, Ha in E.
  assert (Qeq_bool (close h) 0 = false) as Ez.
  { destruct (Qeq_bool (close h) 0) eqn:X; [|reflexivity].
    apply Qeq_bool_iff in X. lra. }
  rewrite Ez in E. cbn [Py.bind] in E.
  match type of E with
  | Py.bind ?v _ = _ => destruct v as [vol|]; [|discriminate]
  end.
  cbn [Py.bind fst snd] in E. injection E as <-.
  cbn [Processor.latest_price Processor.price_change
       Processor.price_change_percent].
  split; [reflexivity|]. split; [reflexivity|]. split; [reflexivity|].
  set (p := (close a - close h) / close h).
  assert (p * close h == close a - close h) as Hp
    by (unfold p; field; lra).
  destruct (OverviewFacts.classify_trend_spec (p * 100)) as (B & R & _).
  rewrite B, R. split; split; intros H; nra.
Qed.

Lemma actual_close_decides_trend_witness :
  exists r,
    Processor.process_ohlcv_file Num.sqrt_fix MoreSamples.actual_file "QQQ"
    = Some r
    /\ Processor.latest_price r = Some 122
    /\ (classify_trend (Processor.price_change_percent r) = Bullish
        <-> 119 * 1.01 < 122).
Proof.
  destruct (Processor.process_ohlcv_file Num.sqrt_fix MoreSamples.actual_file
              "QQQ") as [r|] eqn:E; [|vm_compute in E; discriminate E].
  exists r.
  destruct (actual_close_decides_trend Num.sqrt_fix MoreSamples.actual_file
              "QQQ" MoreSamples.actual_chart (Samples.candle_at 19)
              MoreSamples.actual_candle r eq_refl eq_refl eq_refl
              ltac:(vm_compute; reflexivity) E)
    as (L & _ & _ & B & _).
  split; [reflexivity|]. split; [exact L | exact B].
Defined.

(** X12. With no record the overview is left as it was.  With records, the
    total is their number, the three trend counts add up to it, each of the
    four rankings has min(10, number of records) entries, and the overview
    carries the time of the update. *)
Theorem overview_counts_and_sizes :
  forall now store prior,
    let ov := Processor.update_market_overview now store prior in
    (store = [] -> ov = prior)
    /\ (store <> [] ->
        Processor.total_tickers ov = length store
        /\ (Processor.bullish_count ov + Processor.bearish_count ov
            + Processor.neutral_count ov = length store)%nat
        /\ length (Processor.top_gainers ov) = Nat.min 10 (length store)
        /\ length (Processor.top_losers ov) = Nat.min 10 (length store)
        /\ length (Processor.highest_volume ov) = Nat.min 10 (length store)
        /\ length (Processor.most_volatile ov) = Nat.min 10 (length store)
        /\ Processor.last_updated ov = Some now).
Proof.
  intros now store prior ov. subst ov. split; [intros ->; reflexivity|].
  intros Hne. unfold Processor.update_market_overview.
  destruct store as [|kv store]; [congruence|].
  cbn [Processor.is_empty Processor.total_tickers Processor.bullish_count
       Processor.bearish_count Processor.neutral_count Processor.top_gainers
       Processor.top_losers Processor.highest_volume Processor.most_volatile
       Processor.last_updated].
  rewrite !StoreFacts.slice_min, !SortFacts.sorted_by_length,
    !StoreFacts.entries_length.
  split; [reflexivity|].
  split; [apply OverviewFacts.bucket_partition|].
  repeat (split; [reflexivity|]). reflexivity.
Qed.

Lemma overview_counts_and_sizes_witness :
  Processor.update_market_overview "now" [] Processor.initial_overview
  = Processor.initial_overview
  /\ length
       (Processor.top_gainers
          (Processor.update_market_overview "now" Samples.store
             Processor.initial_overview))
     = Nat.min 10 (length Samples.store).
Proof.
  split.
  - apply (overview_counts_and_sizes "now" [] Processor.initial_overview).
    reflexivity.
  - apply (overview_counts_and_sizes "now" Samples.store
             Processor.initial_overview).
    vm_compute. discriminate.
Defined.

(** X13. The rankings hold the extremes: the gainers, volume and volatility
    lists hold the largest values of their metric among all records (no
    record left out has a larger one), the losers list the smallest. *)
Theorem rankings_hold_the_extremes :
  forall now store prior,
    store <> [] ->
    let ov := Processor.update_market_overview now store prior in
    Conditions.holds_largest
      (Processor.entries Processor.price_change_percent store)
      (Processor.top_gainers ov)
    /\ Conditions.holds_smallest
         (Processor.entries Processor.price_change_percent store)
         (Processor.top_losers ov)
    /\ Conditions.holds_largest
         (Processor.entries Processor.average_volume store)
         (Processor.highest_volume ov)
    /\ Conditions.holds_largest
         (Processor.entries Processor.volatility store)
         (Processor.most_volatile ov).
Proof.
  intros now store prior Hne ov. subst ov.
  unfold Processor.update_market_overview.
  destruct store as [|kv store]; [congruence|].
  cbn [Processor.is_empty Processor.top_gainers Processor.top_losers
       Processor.highest_volume Processor.most_volatile].
  split; [apply StoreFacts.top_desc_largest|].
  split; [apply StoreFacts.top_asc_smallest|].
  split; apply StoreFacts.top_desc_largest.
Qed.

Lemma rankings_hold_the_extremes_witness :
  Conditions.holds_largest
    (Processor.entries Processor.price_change_percent Samples.store)
    (Processor.top_gainers
       (Processor.update_market_overview "now" Samples.store
          Processor.initial_overview)).
Proof.
  apply (rankings_hold_the_extremes "now" Samples.store
           Processor.initial_overview).
  vm_compute. discriminate.
Defined.


(** ** Timestamped files and the file monitor *)

Module MonitorFacts.

Lemma map_candle_eta l :
  map (fun item =>
         mkCandle (date item) (open item) (high item) (low item) (close item)
           (volume item)) l = l.
Proof.
  induction l as [|[d o h lw c v] l IH]; simpl; [reflexivity|].
  now rewrite IH.
Qed.

Lemma hd_skipn {A} k (l : list A) : hd_error (skipn k l) = nth_error l k.
Proof.
  revert l. induction k as [|k IH]; intros [|x l]; simpl; try reflexivity.
  apply IH.
Qed.

Lemma set_add_in x y s : In x (Monitor.set_add y s) <-> x = y \/ In x s.
Proof.
  unfold Monitor.set_add.
  destruct (existsb (String.eqb y) s) eqn:E.
  - split; [now right|]. intros [->|H]; [|exact H].
    apply existsb_exists in E. destruct E as (z & Hz & Ez).
    apply String.eqb_eq in Ez. now subst.
  - rewrite in_app_iff. simpl. intuition.
Qed.

Lemma set_add_nodup y s : NoDup s -> NoDup (Monitor.set_add y s).
Proof.
  intros H. unfold Monitor.set_add.
  destruct (existsb (String.eqb y) s) eqn:E; [exact H|].
  apply NoDup_app; [exact H | repeat constructor; intros [] |].
  intros x Hx [Exy|[]]. subst x.
  assert (existsb (String.eqb y) s = true) as T.
  { apply existsb_exists. exists y. split; [exact Hx | apply String.eqb_refl]. }
  congruence.
Qed.

Lemma process_files_processed fsqrt read files :
  forall s,
    (forall f, In f (Monitor.processed_files
                       (Monitor.process_files fsqrt read files s)) <->
               In f files \/ In f (Monitor.processed_files s))
    /\ (NoDup (Monitor.processed_files s) ->
        NoDup (Monitor.processed_files
                 (Monitor.process_files fsqrt read files s)))
    /\ Monitor.market_overview (Monitor.process_files fsqrt read files s)
       = Monitor.market_overview s.
Proof.
  unfold Monitor.process_files.
  induction files as [|x files IH]; intros s; cbn [fold_left].
  - split; [intros f; simpl; tauto|]. split; [auto | reflexivity].
  - match goal with
    | |- context [fold_left ?g files ?s0] =>
        destruct (IH s0) as (Hin & Hnd & Hov)
    end.
    cbn [Monitor.processed_files Monitor.market_overview] in Hin, Hnd, Hov.
    split; [|split].
    + intros f. rewrite Hin, set_add_in. simpl.
      split; intros H; intuition (subst; auto).
    + intros H. apply Hnd, set_add_nodup, H.
    + exact Hov.
Qed.

Lemma filter_all_known known files :
  (forall f, In f files -> In f known) ->
  filter (fun f => negb (existsb (String.eqb f) known)) files = [].
Proof.
  induction files as [|x files IH]; intros H; simpl; [reflexivity|].
  assert (existsb (String.eqb x) known = true) as ->.
  { apply existsb_exists. exists x.
    split; [apply H; now left | apply String.eqb_refl]. }
  simpl. apply IH. intros f Hf. apply H. now right.
Qed.

Lemma known_of_filter known files :
  filter (fun f => negb (existsb (String.eqb f) known)) files = [] ->
  forall f, In f files -> In f known.
Proof.
  induction files as [|x files IH]; simpl; intros H f Hf; [contradiction|].
  destruct (existsb (String.eqb x) known) eqn:E; simpl in H; [|discriminate].
  destruct Hf as [<-|Hf]; [|now apply IH].
  apply existsb_exists in E. destruct E as (z & Hz & Ez).
  apply String.eqb_eq in Ez. now subst.
Qed.

End MonitorFacts.

Module StringFacts.
Open Scope string_scope.

Lemma prefix_nil s : String.prefix "" s = true.
Proof. destruct s; reflexivity. Qed.

Lemma prefix_same_head c p s :
  String.prefix (String c p) (String c s) = String.prefix p s.
Proof. simpl. destruct (Ascii.ascii_dec c c); [reflexivity | congruence]. Qed.

Lemma prefix_head_differs c p c' s :
  c' <> c -> String.prefix (String c p) (String c' s) = false.
Proof.
  intros N. simpl. destruct (Ascii.ascii_dec c c'); [congruence | reflexivity].
Qed.

Lemma prefix_app p s : String.prefix p (p ++ s) = true.
Proof.
  induction p as [|c p IH]; [apply prefix_nil|].
  cbn [append]. now rewrite prefix_same_head.
Qed.

Lemma contains_prefix pattern s :
  String.prefix pattern s = true -> PyExt.contains pattern s = true.
Proof. intros H. destruct s; simpl in *; rewrite H; reflexivity. Qed.

Lemma contains_cons pattern c s :
  PyExt.contains pattern s = true ->
  PyExt.contains pattern (String c s) = true.
Proof. intros H. cbn [PyExt.contains]. rewrite H. apply orb_true_r. Qed.

Lemma contains_app pattern a b :
  PyExt.contains pattern b = true -> PyExt.contains pattern (a ++ b) = true.
Proof.
  induction a as [|c a IH]; intros H; [exact H|].
  apply contains_cons, IH, H.
Qed.

Lemma lacks_no_char c a b :
  Conditions.lacks c a ->
  PyExt.contains (String c "") b = false ->
  PyExt.contains (String c "") (a ++ b) = false.
Proof.
  induction a as [|c' a IH]; intros L H; [exact H|].
  destruct L as [N L]. cbn [append PyExt.contains].
  rewrite (prefix_head_differs c "" c' (a ++ b) N).
  cbn [orb]. now apply IH.
Qed.

Lemma lacks_contains c s :
  Conditions.lacks c s -> PyExt.contains (String c "") s = false.
Proof.
  induction s as [|c' s IH]; intros L; [reflexivity|].
  destruct L as [N L]. cbn [PyExt.contains].
  rewrite (prefix_head_differs c "" c' s N). cbn [orb]. now apply IH.
Qed.

Lemma basename_no_slash name :
  PyExt.contains "/" name = false -> Monitor.basename name = name.
Proof.
  intros H. destruct name as [|c name]; [reflexivity|].
  cbn [Monitor.basename]. now rewrite H.
Qed.

Lemma basename_of_path dir name :
  PyExt.contains "/" name = false ->
  Monitor.basename (dir ++ "/" ++ name) = name.
Proof.
  intros H. change ("/" ++ name) with (String "/"%char name).
  assert (PyExt.contains "/" (String "/"%char name) = true) as Hs
    by (apply contains_prefix; rewrite prefix_same_head; apply prefix_nil).
  induction dir as [|c dir IH].
  - cbn [append Monitor.basename]. rewrite Hs.
    now apply basename_no_slash.
  - cbn [append Monitor.basename].
    rewrite (contains_cons "/" c (dir ++ String "/"%char name))
      by (apply contains_app, Hs).
    exact IH.
Qed.

Lemma replace_suffix pattern_tail ticker :
  Conditions.lacks "_" ticker ->
  let pattern := String "_"%char pattern_tail in
  Monitor.replace_from 0 pattern "" pattern = "" ->
  Monitor.replace_from 0 pattern "" (ticker ++ pattern) = ticker.
Proof.
  intros L pattern H. induction ticker as [|c ticker IH]; [exact H|].
  destruct L as [N L]. cbn [append Monitor.replace_from].
  unfold pattern at 1.
  rewrite (prefix_head_differs "_" pattern_tail c (ticker ++ pattern) N).
  f_equal. now apply IH.
Qed.

Lemma before_first_prefix sep_tail ticker rest :
  Conditions.lacks "_" ticker ->
  let sep := String "_"%char sep_tail in
  Monitor.before_first sep (ticker ++ sep ++ rest) = ticker.
Proof.
  intros L sep. induction ticker as [|c ticker IH].
  - cbn [append]. pose proof (prefix_app sep rest) as H.
    destruct (sep ++ rest) eqn:E; cbn [Monitor.before_first];
      [reflexivity | now rewrite H].
  - destruct L as [N L]. cbn [append Monitor.before_first].
    unfold sep at 1.
    rewrite (prefix_head_differs "_" sep_tail c (ticker ++ sep ++ rest) N).
    f_equal. now apply IH.
Qed.

End StringFacts.

(** X14. A timestamped file with its candle list yields no record only when it
    has at least five candles and the close of the fifth from the end is
    zero.  Otherwise the record holds the candles as historical ones and no
    actual candle; with fewer than five candles its change is zero, and
    with five or more its change percent is the move from the close of the
    fifth candle from the end to the last close. *)
Theorem timestamped_file_record :
  forall data ticker candles,
    Timestamped.ohlcv_data data = Some candles ->
    match Timestamped.process_timestamped_file data ticker with
    | Some r =>
        Processor.historical_candlesticks r = candles
        /\ Processor.actual_candlesticks r = []
        /\ ((length candles < 5)%nat ->
            Processor.price_change r = 0
            /\ Processor.price_change_percent r = 0)
        /\ ((5 <= length candles)%nat ->
            exists s e,
              nth_error candles (length candles - 5) = Some s
              /\ Py.last_item candles = Some e
              /\ ~ close s == 0
              /\ Processor.price_change_percent r
                 = (close e - close s) / close s * 100)
    | None =>
        (5 <= length candles)%nat
        /\ exists s,
             nth_error candles (length candles - 5) = Some s /\ close s == 0
    end.
Proof.
  intros data ticker candles Hc. unfold Timestamped.process_timestamped_file.
  rewrite Hc. cbn [Py.bind]. rewrite MonitorFacts.map_candle_eta.
  destruct (5 <=? length candles)%nat eqn:E5.
  - apply Nat.leb_le in E5. unfold Num.tail. rewrite MonitorFacts.hd_skipn.
    destruct (nth_error candles (length candles - 5)) as [s|] eqn:Es;
      [|apply nth_error_None in Es; lia].
    cbn [Py.bind].
    destruct (RecordFacts.last_item_some candles) as [e Ee];
      [intros ->; simpl in E5; lia|].
    rewrite Ee. cbn [Py.bind].
    destruct (Qeq_bool (close s) 0) eqn:Ez; cbn [Py.bind].
    + split; [exact E5|]. exists s. split; [reflexivity|].
      now apply Qeq_bool_iff.
    + cbn [Processor.historical_candlesticks Processor.actual_candlesticks
           Processor.price_change Processor.price_change_percent fst snd].
      split; [reflexivity|]. split; [reflexivity|]. split; [lia|].
      intros _. exists s, e. repeat split.
      intros X. apply Qeq_bool_iff in X. congruence.
  - apply Nat.leb_gt in E5. cbn [Py.bind].
    cbn [Processor.historical_candlesticks Processor.actual_candlesticks
         Processor.price_change Processor.price_change_percent fst snd].
    split; [reflexivity|]. split; [reflexivity|].
    split; [intros _; split; reflexivity | lia].
Qed.

Lemma timestamped_file_record_witness :
  match Timestamped.process_timestamped_file
          (Monitor.as_timestamped MoreSamples.parsed) "QQQ" with
  | Some r =>
      Processor.historical_candlesticks r = Samples.window
      /\ Processor.actual_candlesticks r = []
  | None => False
  end.
Proof.
  pose proof (timestamped_file_record
                (Monitor.as_timestamped MoreSamples.parsed)
                "QQQ" Samples.window eq_refl) as H.
  destruct (Timestamped.process_timestamped_file
              (Monitor.as_timestamped MoreSamples.parsed) "QQQ")
    as [r|] eqn:E.
  - destruct H as (H1 & H2 & _). split; assumption.
  - vm_compute in E. discriminate E.
Defined.

(** X15. After [process_new_files] every file of the listing is recorded as
    processed, and the recorded paths stay distinct.  A second call on the
    same listing finds nothing new and leaves the whole state, overview and
    its time included, as it was. *)
Theorem process_new_files_skips_processed :
  forall fsqrt read now later prediction_files s,
    let s1 := Monitor.process_new_files fsqrt read now prediction_files s in
    (forall f, In f prediction_files -> In f (Monitor.processed_files s1))
    /\ (NoDup (Monitor.processed_files s) -> NoDup (Monitor.processed_files s1))
    /\ Monitor.process_new_files fsqrt read later prediction_files s1 = s1.
Proof.
  intros fsqrt read now later files s s1.
  assert ((forall f, In f files -> In f (Monitor.processed_files s1))
          /\ (NoDup (Monitor.processed_files s)
              -> NoDup (Monitor.processed_files s1))) as [Hin Hnd].
  { unfold s1, Monitor.process_new_files.
    destruct (filter (fun f => negb (existsb (String.eqb f)
                                       (Monitor.processed_files s))) files)
      as [|x new] eqn:En.
    - split; [|auto]. now apply MonitorFacts.known_of_filter.
    - destruct (MonitorFacts.process_files_processed fsqrt read (x :: new) s)
        as (P & N & _).
      unfold Monitor.refresh. cbn [Monitor.processed_files].
      split; [|exact N].
      intros f Hf. apply P.
      destruct (existsb (String.eqb f) (Monitor.processed_files s)) eqn:Ef.
      + right. apply existsb_exists in Ef. destruct Ef as (z & Hz & Ez).
        apply String.eqb_eq in Ez. now subst.
      + left. rewrite <- En. apply filter_In. split; [exact Hf|].
        now rewrite Ef. }
  split; [exact Hin|]. split; [exact Hnd|].
  unfold Monitor.process_new_files at 1.
  now rewrite (MonitorFacts.filter_all_known _ _ Hin).
Qed.

(** X16. A path [dir/TICKER_ohlcv_prediction.json] whose ticker has neither an
    underscore nor a slash is read as an OHLCV file and stored under
    [TICKER]. *)
Theorem ohlcv_file_name_gives_ticker :
  forall fsqrt read dir ticker data store,
    Conditions.lacks "_" ticker -> Conditions.lacks "/" ticker ->
    let path := (dir ++ "/" ++ ticker ++ "_ohlcv_prediction.json")%string in
    read path = Some data ->
    Monitor.process_prediction_file fsqrt read path store
    = Processor.process_prediction_file fsqrt (Monitor.as_ohlcv data) ticker
        store.
Proof.
  intros fsqrt read dir ticker data store Lu Ls path Hr.
  unfold Monitor.process_prediction_file. rewrite Hr. unfold path.
  rewrite StringFacts.basename_of_path
    by (apply StringFacts.lacks_no_char; [exact Ls | reflexivity]).
  rewrite StringFacts.contains_app by reflexivity.
  unfold Monitor.replace.
  rewrite (StringFacts.replace_suffix "ohlcv_prediction.json" ticker Lu)
    by reflexivity.
  reflexivity.
Qed.

Lemma ohlcv_file_name_gives_ticker_witness :
  Monitor.process_prediction_file Num.sqrt_fix MoreSamples.read_parsed
    "/data/QQQ_ohlcv_prediction.json" []
  = Processor.process_prediction_file Num.sqrt_fix Samples.fresh_file "QQQ" [].
Proof.
  exact (ohlcv_file_name_gives_ticker Num.sqrt_fix MoreSamples.read_parsed
           "/data" "QQQ" MoreSamples.parsed []
           ltac:(simpl; repeat split; discriminate)
           ltac:(simpl; repeat split; discriminate) eq_refl).
Defined.

(** X17. A path [dir/TICKER_prediction_STAMP] whose ticker has neither an
    underscore nor a slash, whose stamp has no slash and whose name does
    not contain [_ohlcv_prediction.json], is read as a timestamped file and
    stored under [TICKER]. *)
Theorem timestamped_file_name_gives_ticker :
  forall fsqrt read dir ticker stamp data store,
    Conditions.lacks "_" ticker -> Conditions.lacks "/" ticker ->
    Conditions.lacks "/" stamp ->
    let name := (ticker ++ "_prediction_" ++ stamp)%string in
    PyExt.contains "_ohlcv_prediction.json" name = false ->
    read (dir ++ "/" ++ name)%string = Some data ->
    Monitor.process_prediction_file fsqrt read (dir ++ "/" ++ name) store
    = Monitor.store ticker
        (Timestamped.process_timestamped_file (Monitor.as_timestamped data)
           ticker)
        store.
Proof.
  intros fsqrt read dir ticker stamp data store Lu Ls Lst name Hn Hr.
  unfold Monitor.process_prediction_file. rewrite Hr.
  assert (PyExt.contains "/" name = false) as Hslash.
  { unfold name. apply StringFacts.lacks_no_char; [exact Ls|].
    change ("_prediction_" ++ stamp)%string
      with ("_prediction_" ++ ("" ++ stamp))%string.
    apply (StringFacts.lacks_no_char "/" "_prediction_");
      [simpl; repeat split; discriminate|].
    now apply StringFacts.lacks_contains. }
  rewrite StringFacts.basename_of_path by exact Hslash.
  rewrite Hn.
  assert (PyExt.contains "_prediction_" name = true) as ->.
  { unfold name.
    apply StringFacts.contains_app, StringFacts.contains_prefix,
      StringFacts.prefix_app. }
  unfold name.
  rewrite (StringFacts.before_first_prefix "prediction_" ticker stamp Lu).
  reflexivity.
Qed.

Lemma timestamped_file_name_gives_ticker_witness :
  Monitor.process_prediction_file Num.sqrt_fix MoreSamples.read_parsed
    "/data/QQQ_prediction_20251003.json" []
  = Monitor.store "QQQ"
      (Timestamped.process_timestamped_file
         (Monitor.as_timestamped MoreSamples.parsed) "QQQ")
      [].
Proof.
  exact (timestamped_file_name_gives_ticker Num.sqrt_fix MoreSamples.read_parsed
           "/data" "QQQ" "20251003.json" MoreSamples.parsed []
           ltac:(simpl; repeat split; discriminate)
           ltac:(simpl; repeat split; discriminate)
           ltac:(simpl; repeat split; discriminate) eq_refl eq_refl).
Defined.


(** ** The QQQ repair *)

Module QQQFacts.
Import FixQQQRun.

Lemma np_normal_some loc scale st :
  0 <= scale -> PyExt.np_normal loc scale st = Some (Rng.normal loc scale st).
Proof.
  intros H. unfold PyExt.np_normal.
  apply Qle_bool_iff in H. now rewrite H.
Qed.

Lemma np_normal_none loc scale st :
  scale < 0 -> PyExt.np_normal loc scale st = None.
Proof.
  intros H. unfold PyExt.np_normal.
  destruct (Qle_bool 0 scale) eqn:E; [|reflexivity].
  apply Qle_bool_iff in E. lra.
Qed.

(** A daily return drawn from a variate of at least -100 does not turn
    the price over. *)
Lemma return_keeps_sign z : -100 <= z -> 0 < 1 + (0.001 + 0.01 * z).
Proof. intros H. lra. Qed.

Lemma predicted_loop_spec dates :
  forall price st,
    0 <= price -> (forall n, -100 <= stream st n) ->
    exists candles st',
      predicted_loop dates price st = Some (candles, st')
      /\ map date candles = dates
      /\ Forall ohlc_ok candles
      /\ stream st' = stream st
      /\ cursor st' = (cursor st + 5 * length dates)%nat.
Proof.
  induction dates as [|d dates IH]; intros price st Hp Hz.
  - exists [], st. cbn [predicted_loop map length].
    repeat split; [constructor | lia].
  - cbn [predicted_loop]. unfold Rng.normal at 1. unfold Rng.next_sample.
    cbn [stream cursor].
    pose proof (return_keeps_sign _ (Hz (cursor st))) as Hr.
    set (price' := price * (1 + (0.001 + 0.01 * stream st (cursor st)))).
    assert (0 <= price') as Hp' by (unfold price'; nra).
    assert (0 <= price' * 0.005) as Hv by lra.
    do 3 (rewrite (np_normal_some _ _ _ Hv);
          unfold Rng.normal at 1; unfold Rng.next_sample;
          cbn [Py.bind stream cursor]).
    unfold Rng.normal, Rng.next_sample. cbn [stream cursor].
    match goal with
    | |- context [predicted_loop dates price' ?s] =>
        destruct (IH price' s Hp' Hz) as (rest & st' & E & Hd & Ho & Hs & Hc)
    end.
    rewrite E. cbn [Py.bind]. eexists. exists st'.
    split; [reflexivity|]. cbn [map date length cursor stream] in *.
    split; [now rewrite Hd|]. split; [|split; [exact Hs | lia]].
    constructor; [|exact Ho].
    unfold ohlc_ok; cbn [low open high close].
    match goal with
    | |- context [Num.py_max ?o ?p + Qabs ?n] =>
        destruct (NumFacts.py_max_ub o p) as [M1 M2];
        pose proof (Qabs_nonneg n) as A1
    end.
    match goal with
    | |- context [Num.py_min ?o ?p - Qabs ?n] =>
        destruct (NumFacts.py_min_lb o p) as [L1 L2];
        pose proof (Qabs_nonneg n) as A2
    end.
    split; [|split; [|split]]; apply NumFacts.py_round2_mono; lra.
Qed.

(** A negative price makes the intraday volatility negative, and the
    first draw scaled by it raises. *)
Lemma predicted_loop_negative d dates price st :
  price < 0 -> -100 <= stream st (cursor st) ->
  predicted_loop (d :: dates) price st = None.
Proof.
  intros Hp Hz. cbn [predicted_loop]. unfold Rng.normal at 1.
  unfold Rng.next_sample. cbn [stream cursor].
  pose proof (return_keeps_sign _ Hz) as Hr.
  set (price' := price * (1 + (0.001 + 0.01 * stream st (cursor st)))).
  assert (price' * 0.005 < 0) as Hv by (unfold price'; nra).
  rewrite (np_normal_none _ _ _ Hv). reflexivity.
Qed.

Lemma path_loop_dates dates :
  forall price st, map point_date (fst (path_loop dates price st)) = dates.
Proof.
  induction dates as [|d dates IH]; intros price st; simpl; [reflexivity|].
  unfold Rng.normal, Rng.next_sample; simpl.
  match goal with
  | |- context [path_loop dates ?p ?s] =>
      specialize (IH p s); destruct (path_loop dates p s) as [rest st']
  end.
  simpl in *. now rewrite IH.
Qed.

Lemma paths_loop_spec runs dates last_close :
  forall st,
    let paths := fst (paths_loop runs dates last_close st) in
    length paths = runs /\ Forall (fun p => map point_date p = dates) paths.
Proof.
  induction runs as [|runs IH]; intros st; simpl.
  - split; [reflexivity | constructor].
  - pose proof (path_loop_dates dates last_close st) as P.
    destruct (path_loop dates last_close st) as [path st1].
    specialize (IH st1).
    destruct (paths_loop runs dates last_close st1) as [paths st2].
    simpl in *. destruct IH as [Il If].
    split; [now rewrite Il | constructor; assumption].
Qed.

Lemma closes_at_some n i paths :
  Forall (fun p : list Point => length p = n) paths -> (i < n)%nat ->
  exists values, closes_at i paths = Some values /\ length values = length paths.
Proof.
  intros H Hi. induction H as [|p paths Hp H IH].
  - exists []. split; reflexivity.
  - destruct IH as (vs & E & L). simpl.
    destruct (nth_error p i) as [x|] eqn:Ex;
      [|apply nth_error_None in Ex; lia].
    cbn [Py.bind]. rewrite E. cbn [Py.bind].
    eexists. split; [reflexivity | simpl; now rewrite L].
Qed.

Lemma path_loop_state dates :
  forall price st,
    stream (snd (path_loop dates price st)) = stream st
    /\ cursor (snd (path_loop dates price st))
       = (cursor st + length dates)%nat.
Proof.
  induction dates as [|d dates IH]; intros price st.
  - cbn [path_loop snd length]. split; [reflexivity | lia].
  - cbn [path_loop]. unfold Rng.normal, Rng.next_sample.
    cbn [stream cursor].
    match goal with
    | |- context [path_loop dates ?p ?s] =>
        specialize (IH p s); destruct (path_loop dates p s) as [rest st']
    end.
    cbn [snd stream cursor length] in *. destruct IH as [Hs Hc].
    split; [exact Hs | lia].
Qed.

Lemma paths_loop_state runs dates last_close :
  forall st,
    stream (snd (paths_loop runs dates last_close st)) = stream st
    /\ cursor (snd (paths_loop runs dates last_close st))
       = (cursor st + runs * length dates)%nat.
Proof.
  induction runs as [|runs IH]; intros st.
  - cbn [paths_loop snd]. split; [reflexivity | lia].
  - cbn [paths_loop].
    pose proof (path_loop_state dates last_close st) as P.
    destruct (path_loop dates last_close st) as [path st1].
    specialize (IH st1).
    destruct (paths_loop runs dates last_close st1) as [paths st2].
    cbn [snd] in *. destruct P as [Ps Pc], IH as [Is Ic].
    split; [congruence | lia].
Qed.

Lemma below_snoc lower upper a b :
  below lower upper -> point_value a <= point_value b ->
  below (lower ++ [a]) (upper ++ [b]).
Proof.
  intros H Hab. apply Forall2_app; [exact H | repeat constructor; exact Hab].
Qed.

Lemma bands_loop_spec n paths predicted dates :
  Forall (fun p : list Point => length p = n) paths ->
  length predicted = n ->
  forall i bands seen,
    (i + length dates <= n)%nat ->
    dated bands seen -> ordered bands ->
    exists bands',
      bands_loop i dates paths predicted bands = Some bands'
      /\ dated bands' (seen ++ dates) /\ ordered bands'.
Proof.
  intros Hp Hl. induction dates as [|d dates IH]; intros i bands seen Hi Hd Ho.
  - exists bands. rewrite app_nil_r. split; [reflexivity | split; assumption].
  - cbn [length] in Hi.
    destruct (closes_at_some n i paths Hp ltac:(lia)) as (vs & Ev & _).
    destruct (nth_error predicted i) as [c|] eqn:Ec;
      [|apply nth_error_None in Ec; lia].
    cbn [bands_loop]. rewrite Ev. cbn [Py.bind]. rewrite Ec. cbn [Py.bind].
    set (values := vs ++ [close c]).
    assert (values <> []) as Hne by (unfold values; destruct vs; discriminate).
    assert (forall q1 q2, 0 <= q1 -> q1 <= q2 -> q2 <= 100 ->
              Num.py_round2 (np_percentile values q1)
              <= Num.py_round2 (np_percentile values q2)) as Hm.
    { intros q1 q2 H0 H12 H100. apply NumFacts.py_round2_mono.
      now apply PercentileFacts.np_percentile_mono. }
    destruct Hd as (D1 & D2 & D3 & D4 & D5).
    destruct Ho as (O1 & O2 & O3 & O4).
    match goal with
    | |- context [bands_loop (S i) dates paths predicted ?b] =>
        destruct (IH (S i) b (seen ++ [d])) as (b' & E & Hd' & Ho')
    end.
    + lia.
    + unfold dated; cbn [band_p10 band_p25 band_p50 band_p75 band_p90].
      rewrite !map_app, D1, D2, D3, D4, D5. repeat split; reflexivity.
    + unfold ordered; cbn [band_p10 band_p25 band_p50 band_p75 band_p90].
      split; [|split; [|split]]; apply below_snoc; try assumption;
        cbn [point_value]; apply Hm; lra.
    + exists b'. split; [exact E|]. split; [|exact Ho'].
      rewrite <- app_assoc in Hd'. exact Hd'.
Qed.

(** The run up to the direction: with a price that starts non-negative
    and variates of at least -100, everything but the final division
    returns. *)
Lemma fix_qqq_run last_date last_close st :
  0 <= last_close -> (forall n, -100 <= stream st n) ->
  exists predicted paths bands c st',
    FixQQQRun.fix_qqq_predictions last_date last_close st
    = (direction <- FixQQQ.direction last_close (close c) ;;
       Some (mkResult predicted paths bands (close c)
               (Num.py_round2 (close c - last_close))
               (Num.py_round2 ((close c - last_close) / last_close * 100))
               direction, st'))
    /\ map date predicted = Calendar.trading_walk last_date 5
    /\ Forall ohlc_ok predicted
    /\ Py.last_item predicted = Some c
    /\ length paths = 10%nat
    /\ Forall (fun p => map point_date p = Calendar.trading_walk last_date 5) paths
    /\ dated bands (Calendar.trading_walk last_date 5)
    /\ ordered bands
    /\ stream st' = stream st
    /\ cursor st' = (cursor st + 75)%nat.
Proof.
  intros Hpos Hz.
  unfold fix_qqq_predictions. rewrite CalendarFacts.qqq_dates_walk.
  set (dates := Calendar.trading_walk last_date 5).
  assert (length dates = 5%nat) as Hlen
    by apply (CalendarFacts.trading_walk_spec 5 last_date).
  destruct (predicted_loop_spec dates last_close st Hpos Hz)
    as (predicted & st1 & Ep & Pd & Po & Ps & Pc).
  rewrite Ep. cbn [Py.bind].
  destruct (paths_loop_spec 10 dates last_close st1) as [Ml Md].
  destruct (paths_loop_state 10 dates last_close st1) as [Ms Mc].
  destruct (paths_loop 10 dates last_close st1) as [paths st2].
  cbn [fst snd] in *.
  assert (length predicted = 5%nat) as Lp
    by (rewrite <- Hlen, <- Pd; symmetry; apply length_map).
  assert (Forall (fun p : list Point => length p = 5%nat) paths) as Lm.
  { eapply Forall_impl; [|exact Md]. cbn beta. intros p Hp.
    rewrite <- Hlen, <- Hp. symmetry; apply length_map. }
  destruct (bands_loop_spec 5 paths predicted dates Lm Lp 0%nat
              (mkBands [] [] [] [] []) [])
    as (bands & Eb & Hd & Ho).
  - rewrite Hlen. cbn. lia.
  - repeat split; reflexivity.
  - repeat split; constructor.
  - rewrite Eb. cbn [Py.bind].
    destruct (Py.last_item predicted) as [c|] eqn:El.
    + cbn [Py.bind]. exists predicted, paths, bands, c, st2.
      split; [reflexivity|].
      repeat (split; [assumption|]).
      split; [congruence | rewrite Mc, Pc, Hlen; lia].
    + unfold Py.last_item in El.
      destruct (rev predicted) eqn:Er; [|discriminate El].
      apply (f_equal (@length Candle)) in Er. rewrite length_rev, Lp in Er.
      discriminate Er.
Qed.

Lemma direction_none last_close predicted_close :
  FixQQQ.direction last_close predicted_close = None <-> last_close == 0.
Proof.
  unfold FixQQQ.direction.
  destruct (Qeq_bool last_close 0) eqn:E.
  - apply Qeq_bool_eq in E. tauto.
  - apply Qeq_bool_neq in E. split; [discriminate | tauto].
Qed.

End QQQFacts.

(** X18. As long as no variate lies below -100 (so that no daily return turns
    the price over), the QQQ repair raises exactly when the last historical
    close is not positive: a zero close fails in the division of the price
    change, a negative one in the first draw scaled by the intraday
    volatility. *)
Theorem qqq_run_fails_iff_close_not_positive (last_date : Z) (last_close : Q)
    (st : RandomState) :
  (forall n, -100 <= stream st n) ->
  FixQQQRun.fix_qqq_predictions last_date last_close st = None
  <-> last_close <= 0.
Proof.
  intros Hz. destruct (Qlt_le_dec last_close 0) as [Hneg|Hpos].
  - split; [intros _; lra | intros _].
    unfold FixQQQRun.fix_qqq_predictions.
    rewrite CalendarFacts.qqq_dates_walk. cbn [Calendar.trading_walk].
    rewrite (QQQFacts.predicted_loop_negative _ _ _ _ Hneg (Hz _)).
    reflexivity.
  - destruct (QQQFacts.fix_qqq_run last_date last_close st Hpos Hz)
      as (predicted & paths & bands & c & st' & E & _).
    rewrite E.
    pose proof (QQQFacts.direction_none last_close (close c)) as D.
    destruct (FixQQQ.direction last_close (close c)); cbn [Py.bind].
    + split; [discriminate|]. intros Hle.
      assert (last_close == 0) as H0 by lra.
      apply D in H0. discriminate H0.
    + split; [intros _|reflexivity].
      assert (last_close == 0) as H0 by now apply D.
      lra.
Qed.

Lemma qqq_run_fails_iff_close_not_positive_witness :
  FixQQQRun.fix_qqq_predictions 739527 0 Samples.rng = None <-> 0 <= 0.
Proof.
  apply (qqq_run_fails_iff_close_not_positive 739527 0 Samples.rng).
  intros n. cbn. discriminate.
Defined.

(** X19. With a positive last close and no variate below -100 the QQQ repair
    writes five candles, dated by the five trading days that follow the
    last historical date, each with low <= open, close <= high; the
    reported predicted close is the close of the last of them, and the run
    takes exactly 75 variates from the generator (five per candle and one
    per point of the ten paths). *)
Theorem qqq_run_candles (last_date : Z) (last_close : Q) (st : RandomState) :
  0 < last_close -> (forall n, -100 <= stream st n) ->
  exists res st',
    FixQQQRun.fix_qqq_predictions last_date last_close st = Some (res, st')
    /\ map date (FixQQQRun.predicted_candlesticks res)
       = Calendar.trading_walk last_date 5
    /\ Forall ohlc_ok (FixQQQRun.predicted_candlesticks res)
    /\ option_map close (Py.last_item (FixQQQRun.predicted_candlesticks res))
       = Some (FixQQQRun.predicted_close res)
    /\ stream st' = stream st
    /\ cursor st' = (cursor st + 75)%nat.
Proof.
  intros Hpos Hz.
  destruct (QQQFacts.fix_qqq_run last_date last_close st
              (Qlt_le_weak _ _ Hpos) Hz)
    as (predicted & paths & bands & c & st' & E & Hd & Ho & Hl & _ & _ & _ & _
        & Hs & Hc).
  destruct (FixQQQ.direction last_close (close c)) as [dir|] eqn:Ed;
    [|apply QQQFacts.direction_none in Ed; lra].
  cbn [Py.bind] in E. eexists. exists st'. split; [exact E|].
  cbn [FixQQQRun.predicted_candlesticks FixQQQRun.predicted_close].
  rewrite Hl. repeat split; assumption.
Qed.

Lemma qqq_run_candles_witness :
  exists res st',
    FixQQQRun.fix_qqq_predictions 739527 100 Samples.rng = Some (res, st')
    /\ map date (FixQQQRun.predicted_candlesticks res)
       = Calendar.trading_walk 739527 5
    /\ Forall ohlc_ok (FixQQQRun.predicted_candlesticks res)
    /\ option_map close (Py.last_item (FixQQQRun.predicted_candlesticks res))
       = Some (FixQQQRun.predicted_close res)
    /\ stream st' = stream Samples.rng
    /\ cursor st' = (cursor Samples.rng + 75)%nat.
Proof.
  apply (qqq_run_candles 739527 100 Samples.rng).
  - reflexivity.
  - intros n. cbn. discriminate.
Defined.

(** X20. With a positive last close and no variate below -100 the QQQ repair
    writes ten Monte Carlo paths and five confidence bands, every one of
    them with one point for each of the five predicted dates, in date
    order; and the bands never cross: p10 <= p25 <= p50 <= p75 <= p90 on
    every date. *)
Theorem qqq_run_bands (last_date : Z) (last_close : Q) (st : RandomState) :
  0 < last_close -> (forall n, -100 <= stream st n) ->
  exists res st',
    FixQQQRun.fix_qqq_predictions last_date last_close st = Some (res, st')
    /\ length (FixQQQRun.monte_carlo_paths res) = 10%nat
    /\ Forall (fun p => map FixQQQRun.point_date p
                        = Calendar.trading_walk last_date 5)
         (FixQQQRun.monte_carlo_paths res)
    /\ FixQQQRun.dated (FixQQQRun.confidence_bands res)
         (Calendar.trading_walk last_date 5)
    /\ FixQQQRun.ordered (FixQQQRun.confidence_bands res).
Proof.
  intros Hpos Hz.
  destruct (QQQFacts.fix_qqq_run last_date last_close st
              (Qlt_le_weak _ _ Hpos) Hz)
    as (predicted & paths & bands & c & st' & E & _ & _ & _ & Hn & Hp & Hd & Ho
        & _).
  destruct (FixQQQ.direction last_close (close c)) as [dir|] eqn:Ed;
    [|apply QQQFacts.direction_none in Ed; lra].
  cbn [Py.bind] in E. eexists. exists st'. split; [exact E|].
  cbn [FixQQQRun.monte_carlo_paths FixQQQRun.confidence_bands].
  split; [exact Hn|]. split; [exact Hp|]. split; [exact Hd | exact Ho].
Qed.

Lemma qqq_run_bands_witness :
  exists res st',
    FixQQQRun.fix_qqq_predictions 739527 100 Samples.rng = Some (res, st')
    /\ length (FixQQQRun.monte_carlo_paths res) = 10%nat
    /\ Forall (fun p => map FixQQQRun.point_date p
                        = Calendar.trading_walk 739527 5)
         (FixQQQRun.monte_carlo_paths res)
    /\ FixQQQRun.dated (FixQQQRun.confidence_bands res)
         (Calendar.trading_walk 739527 5)
    /\ FixQQQRun.ordered (FixQQQRun.confidence_bands res).
Proof.
  apply (qqq_run_bands 739527 100 Samples.rng).
  - reflexivity.
  - intros n. cbn. discriminate.
Defined.

(** ** The statistics summary *)

Module TallyFacts.
Import GenerateStats GenerateStatsRun.

Lemma analyze_file_counts predicted historical t :
  (valid_predictions t
   <= valid_predictions (analyze_file predicted historical t)
   <= S (valid_predictions t))%nat
  /\ (length (price_changes t) = valid_predictions t ->
      length (price_changes (analyze_file predicted historical t))
      = valid_predictions (analyze_file predicted historical t)).
Proof.
  unfold analyze_file.
  destruct (Py.last_item predicted) as [p|];
    [|split; [lia | trivial]].
  destruct (Py.last_item historical) as [h|];
    [|split; [lia | trivial]].
  destruct (Qlt_le_dec 0 (close h)); [|split; [lia | trivial]].
  destruct (Qlt_le_dec 0 (close p)); [|split; [lia | trivial]].
  unfold count. cbn [valid_predictions price_changes].
  split; [lia|]. intros H. rewrite length_app, H. cbn [length]. lia.
Qed.

Lemma sample_loop_spec files :
  forall tally failed,
    tallied tally -> length (price_changes tally) = valid_predictions tally ->
    tallied (fst (sample_loop files tally failed))
    /\ length (price_changes (fst (sample_loop files tally failed)))
       = valid_predictions (fst (sample_loop files tally failed))
    /\ (valid_predictions (fst (sample_loop files tally failed))
        + snd (sample_loop files tally failed)
        <= valid_predictions tally + failed + length files)%nat.
Proof.
  induction files as [|f files IH]; intros tally failed Ht Hl.
  - cbn [sample_loop fst snd length]. repeat split; try assumption. lia.
  - destruct f as [| |predicted historical]; cbn [sample_loop length].
    + destruct (IH tally (S failed) Ht Hl) as (A & B & C).
      repeat split; try assumption. lia.
    + destruct (IH tally failed Ht Hl) as (A & B & C).
      repeat split; try assumption. lia.
    + destruct (analyze_file_counts predicted historical tally) as [V L].
      destruct (IH (analyze_file predicted historical tally) failed
                  (OverviewFacts.analyze_file_tallied _ _ _ Ht) (L Hl))
        as (A & B & C).
      repeat split; try assumption. lia.
Qed.

Lemma py_int_nonneg x : 0 <= x -> PyExt.py_int x = Qfloor x.
Proof.
  intros H. unfold PyExt.py_int. destruct (Qlt_le_dec x 0); [lra | reflexivity].
Qed.

Lemma scale_nonneg c T v :
  (0 < v)%nat ->
  0 <= inject_Z (Z.of_nat c)
       * (inject_Z (Z.of_nat T) / inject_Z (Z.of_nat v)).
Proof.
  intros Hv.
  assert (0 < inject_Z (Z.of_nat v))
    by (change 0 with (inject_Z 0); rewrite <- Zlt_Qlt; lia).
  assert (0 <= inject_Z (Z.of_nat c))
    by (change 0 with (inject_Z 0); rewrite <- Zle_Qle; lia).
  assert (0 <= inject_Z (Z.of_nat T))
    by (change 0 with (inject_Z 0); rewrite <- Zle_Qle; lia).
  apply Qmult_le_0_compat; [assumption|].
  apply Qle_shift_div_l; [assumption | lra].
Qed.

Lemma scaled_nonneg c T v : (0 < v)%nat -> (0 <= scaled c T v)%Z.
Proof.
  intros Hv. unfold scaled.
  rewrite (py_int_nonneg _ (scale_nonneg c T v Hv)).
  change 0%Z with (Qfloor 0). apply Qfloor_resp_le, scale_nonneg, Hv.
Qed.

Lemma scaled_le c T v :
  (0 < v)%nat ->
  inject_Z (scaled c T v)
  <= inject_Z (Z.of_nat c) * (inject_Z (Z.of_nat T) / inject_Z (Z.of_nat v)).
Proof.
  intros Hv. unfold scaled.
  rewrite (py_int_nonneg _ (scale_nonneg c T v Hv)). apply Qfloor_le.
Qed.

Lemma scaled_sum a b c T v :
  (0 < v)%nat -> (a + b + c = v)%nat ->
  (scaled a T v + scaled b T v + scaled c T v <= Z.of_nat T)%Z.
Proof.
  intros Hv Hs.
  pose proof (scaled_le a T v Hv) as Ha.
  pose proof (scaled_le b T v Hv) as Hb.
  pose proof (scaled_le c T v Hv) as Hc.
  rewrite Zle_Qle, !inject_Z_plus.
  assert (0 < inject_Z (Z.of_nat v)) as Hp
    by (change 0 with (inject_Z 0); rewrite <- Zlt_Qlt; lia).
  assert (inject_Z (Z.of_nat a) + inject_Z (Z.of_nat b) + inject_Z (Z.of_nat c)
          == inject_Z (Z.of_nat v)) as Hq.
  { rewrite <- !inject_Z_plus. subst v. now rewrite !Nat2Z.inj_add. }
  set (k := inject_Z (Z.of_nat T) / inject_Z (Z.of_nat v)) in *.
  assert (inject_Z (Z.of_nat v) * k == inject_Z (Z.of_nat T)) as Hk
    by (unfold k; field; lra).
  rewrite <- Hk, <- Hq. lra.
Qed.

End TallyFacts.

(** X21. Of the files sampled, none is counted twice: the valid predictions and
    the failed files together never exceed the analysed sample, which
    itself is at most 500 and at most the number of files, and the three
    direction counts behind the estimates add up to the valid
    predictions. *)
Theorem sample_counts_bounded (total_files : nat)
    (sample_files : list GenerateStatsRun.SampleFile) :
  length sample_files = Nat.min 500 total_files ->
  let s := GenerateStatsRun.analyze_predictions total_files sample_files in
  (GenerateStatsRun.valid_predictions_in_sample s
   + GenerateStatsRun.failed_files s
   <= GenerateStatsRun.analyzed_sample s)%nat
  /\ (GenerateStatsRun.analyzed_sample s <= 500)%nat
  /\ (GenerateStatsRun.analyzed_sample s
      <= GenerateStatsRun.total_predictions s)%nat
  /\ GenerateStatsRun.total_predictions s = total_files.
Proof.
  intros Hl. unfold GenerateStatsRun.analyze_predictions.
  destruct (TallyFacts.sample_loop_spec sample_files
              (GenerateStats.mkTally 0 0 0 0 []) 0 eq_refl eq_refl)
    as (_ & _ & Hc).
  destruct (GenerateStatsRun.sample_loop sample_files
              (GenerateStats.mkTally 0 0 0 0 []) 0) as [tally failed].
  cbn [fst snd GenerateStats.valid_predictions] in Hc.
  cbn [GenerateStatsRun.valid_predictions_in_sample
         GenerateStatsRun.failed_files GenerateStatsRun.analyzed_sample
         GenerateStatsRun.total_predictions].
  rewrite Hl in Hc. split; [lia|]. split; [lia|]. split; [lia | reflexivity].
Qed.

Lemma sample_counts_bounded_witness :
  let s :=
    GenerateStatsRun.analyze_predictions 3
      [GenerateStatsRun.Unreadable; GenerateStatsRun.NoPredictions;
       GenerateStatsRun.Chart Samples.window Samples.window] in
  (GenerateStatsRun.valid_predictions_in_sample s
   + GenerateStatsRun.failed_files s
   <= GenerateStatsRun.analyzed_sample s)%nat
  /\ (GenerateStatsRun.analyzed_sample s <= 500)%nat
  /\ (GenerateStatsRun.analyzed_sample s
      <= GenerateStatsRun.total_predictions s)%nat
  /\ GenerateStatsRun.total_predictions s = 3%nat.
Proof.
  apply (sample_counts_bounded 3
           [GenerateStatsRun.Unreadable; GenerateStatsRun.NoPredictions;
            GenerateStatsRun.Chart Samples.window Samples.window]).
  reflexivity.
Defined.

(** X22. The estimates scaled up to the full dataset are never negative and
    never add up to more than the number of prediction files (the
    truncation of each can only lose files); with no valid prediction in
    the sample all three are zero. *)
Theorem estimates_within_total (total_files : nat)
    (sample_files : list GenerateStatsRun.SampleFile) :
  let s := GenerateStatsRun.analyze_predictions total_files sample_files in
  (0 <= GenerateStatsRun.estimated_bullish s)%Z
  /\ (0 <= GenerateStatsRun.estimated_bearish s)%Z
  /\ (0 <= GenerateStatsRun.estimated_neutral s)%Z
  /\ (GenerateStatsRun.estimated_bullish s
      + GenerateStatsRun.estimated_bearish s
      + GenerateStatsRun.estimated_neutral s <= Z.of_nat total_files)%Z
  /\ (GenerateStatsRun.valid_predictions_in_sample s = 0%nat ->
      GenerateStatsRun.estimated_bullish s = 0%Z
      /\ GenerateStatsRun.estimated_bearish s = 0%Z
      /\ GenerateStatsRun.estimated_neutral s = 0%Z).
Proof.
  unfold GenerateStatsRun.analyze_predictions.
  destruct (TallyFacts.sample_loop_spec sample_files
              (GenerateStats.mkTally 0 0 0 0 []) 0 eq_refl eq_refl)
    as (Ht & _ & _).
  destruct (GenerateStatsRun.sample_loop sample_files
              (GenerateStats.mkTally 0 0 0 0 []) 0) as [tally failed].
  cbn [fst] in Ht.
  cbn [GenerateStatsRun.estimated_bullish GenerateStatsRun.estimated_bearish
         GenerateStatsRun.estimated_neutral
         GenerateStatsRun.valid_predictions_in_sample].
  destruct (0 <? GenerateStats.valid_predictions tally)%nat eqn:E.
  - apply Nat.ltb_lt in E.
    split; [now apply TallyFacts.scaled_nonneg|].
    split; [now apply TallyFacts.scaled_nonneg|].
    split; [now apply TallyFacts.scaled_nonneg|].
    split; [apply TallyFacts.scaled_sum; [exact E | exact Ht] | lia].
  - repeat split; lia.
Qed.

(** ** The structure validator *)

Module ValidatorFacts.
Import Validator.

Lemma ohlc_check_true o h l c :
  ohlc_check o h l c = true <-> l <= o /\ o <= h /\ l <= c /\ c <= h.
Proof.
  unfold ohlc_check. rewrite !andb_true_iff, !Qle_bool_iff. tauto.
Qed.

Lemma validate_candle_nil data_type i c :
  validate_candle data_type i c = [] <-> well_formed c.
Proof.
  split.
  - destruct c as [[[d|text]|] [o|] [h|] [l|] [cl|] [v|]];
      unfold validate_candle;
      cbn [j_date j_open j_high j_low j_close j_volume is_none when app];
      try discriminate.
    + destruct (ohlc_check o h l cl) eqn:E; cbn [negb when app];
        [intros _ | discriminate].
      exists d, o, h, l, cl, v. split; [reflexivity|].
      now apply ohlc_check_true.
    + destruct (ohlc_check o h l cl); cbn [negb when app]; discriminate.
  - intros (d & o & h & l & cl & v & -> & H).
    apply ohlc_check_true in H. unfold validate_candle.
    cbn [j_date j_open j_high j_low j_close j_volume is_none when app].
    rewrite H. reflexivity.
Qed.

Lemma validate_candles_from_nil data_type candlesticks :
  forall i,
    validate_candles_from i candlesticks data_type = []
    <-> Forall well_formed candlesticks.
Proof.
  induction candlesticks as [|c rest IH]; intros i; cbn [validate_candles_from].
  - split; [constructor | reflexivity].
  - split.
    + intros H. apply app_eq_nil in H. destruct H as [Hc Hr].
      constructor; [now apply (validate_candle_nil data_type i) | now apply (IH (S i))].
    + intros H. inversion H as [|? ? Hc Hr]; subst.
      apply (validate_candle_nil data_type i) in Hc. apply (IH (S i)) in Hr.
      now rewrite Hc, Hr.
Qed.

(** A file is valid exactly when it has no error. *)
Lemma validate_file_valid content :
  fst (fst (validate_file content)) = true
  <-> snd (fst (validate_file content)) = [].
Proof.
  destruct content as [| |data]; cbn [validate_file fst snd];
    try (split; discriminate).
  match goal with |- _ <-> ?e = [] => destruct e end;
    split; (reflexivity || discriminate).
Qed.

(** What the loop keeps: the total, the number of files judged, and, once
    they hold, the agreement of the flags and of the error list with the
    number of invalid files. *)
Lemma validate_loop_spec files :
  forall r,
    total_files (validate_loop files r) = total_files r
    /\ (valid_files (validate_loop files r) + invalid_files (validate_loop files r)
        = valid_files r + invalid_files r + length files)%nat
    /\ web_app_ready (validate_loop files r) = web_app_ready r
    /\ ((schema_compliance r = true <-> invalid_files r = 0%nat) ->
        (schema_compliance (validate_loop files r) = true
         <-> invalid_files (validate_loop files r) = 0%nat))
    /\ ((errors r = [] <-> invalid_files r = 0%nat) ->
        (errors (validate_loop files r) = []
         <-> invalid_files (validate_loop files r) = 0%nat)).
Proof.
  induction files as [|[ticker content] files IH]; intros r.
  - cbn [validate_loop length]. repeat split; try tauto. lia.
  - cbn [validate_loop length].
    pose proof (validate_file_valid content) as V.
    destruct (validate_file content) as [[is_valid errs] warns].
    cbn [fst snd] in V.
    match goal with |- context [validate_loop files ?r'] =>
      destruct (IH r') as (T & C & W & S & E)
    end.
    cbn [total_files valid_files invalid_files web_app_ready
           schema_compliance errors] in T, C, W, S, E.
    split; [exact T|]. split; [destruct is_valid; lia|].
    split; [exact W|]. split.
    + intros HS. apply S. destruct is_valid; [exact HS|].
      split; [discriminate | lia].
    + intros HE. apply E. destruct is_valid.
      * assert (errs = []) as -> by now apply V.
        cbn [map]. rewrite app_nil_r. exact HE.
      * split; [|lia]. intros H. apply app_eq_nil in H. destruct H as [_ H].
        destruct errs; [|discriminate H].
        assert (false = true) by now apply V. discriminate.
Qed.

(** What a valid file must hold. *)
Lemma valid_file_sections data :
  fst (fst (validate_file (Loaded data))) = true ->
  exists section historical predicted,
    j_ticker_info data <> None /\ j_chart_data data <> None
    /\ j_summary_stats data <> None
    /\ j_data data = Some section
    /\ j_historical_candlesticks section = Some historical
    /\ j_predicted_candlesticks section = Some predicted
    /\ Forall well_formed historical /\ Forall well_formed predicted.
Proof.
  intros H. apply validate_file_valid in H. cbn [validate_file fst snd] in H.
  apply app_eq_nil in H. destruct H as [Htop H].
  apply app_eq_nil in H. destruct H as [_ H].
  apply app_eq_nil in H. destruct H as [Hsec _].
  destruct (j_ticker_info data) as [info|]; [|discriminate Htop].
  destruct (j_data data) as [section|]; [|discriminate Htop].
  destruct (j_chart_data data) as [chart|]; [|discriminate Htop].
  destruct (j_summary_stats data) as [stats|]; [|discriminate Htop].
  unfold validate_data in Hsec.
  destruct (j_historical_candlesticks section) as [historical|] eqn:Eh;
    [|destruct (j_predicted_candlesticks section) as [[|? ?]|];
      discriminate Hsec].
  destruct (j_predicted_candlesticks section) as [predicted|] eqn:Ep.
  - exists section, historical, predicted.
    repeat (split; [discriminate || reflexivity || assumption|]).
    destruct predicted as [|c rest]; cbn [fst] in Hsec.
    + split; [|constructor].
      now apply (validate_candles_from_nil "historical_candlesticks" historical 0).
    + apply app_eq_nil in Hsec. destruct Hsec as [Hh Hp]. split.
      * now apply (validate_candles_from_nil "historical_candlesticks" historical 0).
      * now apply (validate_candles_from_nil "predicted_candlesticks" (c :: rest) 0).
  - cbn [fst] in Hsec. apply app_eq_nil in Hsec. destruct Hsec as [_ Hp].
    discriminate Hp.
Qed.

Lemma sample_length {A} sample_size (files : list A) :
  (length (sample sample_size files) <= length files)%nat.
Proof.
  unfold sample. destruct sample_size as [[|n]|]; try lia.
  rewrite length_firstn. lia.
Qed.

End ValidatorFacts.

(** X23. A list of candles passes the candlestick validation exactly when every
    candle has all six keys, a date that parses, and prices with
    low <= open <= high and low <= close <= high. *)
Theorem candlesticks_pass_iff_well_formed
    (candlesticks : list Validator.JCandle) (data_type : string) :
  Validator.validate_candlestick_data candlesticks data_type = []
  <-> Forall Validator.well_formed candlesticks.
Proof.
  unfold Validator.validate_candlestick_data.
  apply ValidatorFacts.validate_candles_from_nil.
Qed.

(** X24. A file is valid only if all four top-level sections are there and
    [data] holds both candle lists, every candle of them complete and in
    OHLC order.  The updater writes its candles under [chart_data]
    instead, so the validator rejects every file the updater writes,
    whatever its content: with the two lists, three of the six ticker
    fields and eight of the nine summary fields are missing, which makes
    thirteen errors. *)
Theorem validator_rejects_updater_files (j : PredictionJson) :
  (forall data,
     fst (fst (Validator.validate_file (Validator.Loaded data))) = true ->
     exists section historical predicted,
       Validator.j_ticker_info data <> None
       /\ Validator.j_chart_data data <> None
       /\ Validator.j_summary_stats data <> None
       /\ Validator.j_data data = Some section
       /\ Validator.j_historical_candlesticks section = Some historical
       /\ Validator.j_predicted_candlesticks section = Some predicted
       /\ Forall Validator.well_formed historical
       /\ Forall Validator.well_formed predicted)
  /\ Validator.validate_file (Validator.Loaded (Validator.written_by_updater j))
     = (false,
        [ Validator.MissingTickerInfo "last_update";
          Validator.MissingTickerInfo "lookback_days";
          Validator.MissingTickerInfo "prediction_days";
          Validator.MissingHistorical;
          Validator.MissingPredicted;
          Validator.MissingSummary "last_close";
          Validator.MissingSummary "predicted_close";
          Validator.MissingSummary "price_change";
          Validator.MissingSummary "price_change_percent";
          Validator.MissingSummary "direction";
          Validator.MissingSummary "confidence";
          Validator.MissingSummary "avg_volume";
          Validator.MissingSummary "data_quality" ],
        []).
Proof.
  split.
  - intros data H. now apply ValidatorFacts.valid_file_sections.
  - reflexivity.
Qed.

(** X25. A validation run from fresh results judges every file of the sample
    once: the valid and the invalid files add up to the total, which is
    the size of the sample; and the flags and the error list agree: the
    data is web-app ready, and schema compliant, and free of errors,
    exactly when no file is invalid. *)
Theorem validation_run_counts (sample_size : option nat)
    (files : list (string * Validator.Content)) :
  let r := Validator.validate_all_files sample_size files
             Validator.initial_results in
  Validator.total_files r = length (Validator.sample sample_size files)
  /\ (Validator.total_files r <= length files)%nat
  /\ (Validator.valid_files r + Validator.invalid_files r
      = Validator.total_files r)%nat
  /\ (Validator.web_app_ready r = true <-> Validator.invalid_files r = 0%nat)
  /\ (Validator.schema_compliance r = true
      <-> Validator.invalid_files r = 0%nat)
  /\ (Validator.errors r = [] <-> Validator.invalid_files r = 0%nat).
Proof.
  unfold Validator.validate_all_files, Validator.initial_results.
  cbn [Validator.valid_files Validator.invalid_files Validator.errors
         Validator.warnings Validator.schema_compliance
         Validator.web_app_ready].
  pose proof (ValidatorFacts.sample_length sample_size files) as Hs.
  set (fs := Validator.sample sample_size files) in *.
  destruct (ValidatorFacts.validate_loop_spec fs
              (Validator.mkResults (length fs) 0 0 [] [] true true))
    as (T & C & W & S & E).
  cbn [Validator.total_files Validator.valid_files Validator.invalid_files
         Validator.web_app_ready Validator.schema_compliance Validator.errors]
    in T, C, W, S, E.
  specialize (S ltac:(tauto)). specialize (E ltac:(tauto)).
  set (r := Validator.validate_loop fs _) in *.
  destruct (0 <? Validator.invalid_files r)%nat eqn:B.
  - apply Nat.ltb_lt in B.
    cbn [Validator.total_files Validator.valid_files Validator.invalid_files
           Validator.web_app_ready Validator.schema_compliance
           Validator.errors].
    split; [exact T|]. split; [lia|]. split; [lia|].
    split; [split; [discriminate | lia]|]. split; [exact S | exact E].
  - apply Nat.ltb_ge in B.
    split; [exact T|]. split; [lia|]. split; [lia|].
    split; [rewrite W; split; [lia | reflexivity]|].
    split; [exact S | exact E].
Qed.

(** ** The homepage statistics *)

Module HomepageFacts.
Import Homepage.

Lemma count_file_spec name content c :
  (bullish c + bearish c + neutral c <= with_predictions c)%nat ->
  (with_predictions c <= total_files c)%nat ->
  0 <= total_movement c ->
  (bullish (count_file name content c) + bearish (count_file name content c)
   + neutral (count_file name content c)
   <= with_predictions (count_file name content c))%nat
  /\ (with_predictions (count_file name content c)
      <= total_files (count_file name content c))%nat
  /\ 0 <= total_movement (count_file name content c)
  /\ total_files (count_file name content c)
     = (if skipped name then total_files c else S (total_files c)).
Proof.
  intros Hb Hw Hm. unfold count_file.
  destruct (skipped name); [repeat split; assumption|].
  destruct content as [data|];
    cbn [total_files with_predictions bullish bearish neutral total_movement];
    [|repeat split; try assumption; lia].
  destruct (truthy (data_predicted data) || truthy (chart_predicted data));
    cbn [total_files with_predictions bullish bearish neutral total_movement];
    [|repeat split; try assumption; lia].
  destruct (file_summary data) as [summary_stats|];
    cbn [total_files with_predictions bullish bearish neutral total_movement];
    [|repeat split; try assumption; lia].
  set (direction := match summary_direction summary_stats with
                    | Some d => d
                    | None => "Neutral"%string
                    end).
  assert (forall p, 0 <= total_movement c + Qabs p) as Hp
    by (intros p; pose proof (Qabs_nonneg p); lra).
  destruct (summary_price_change_percent summary_stats) as [[p|]|];
    cbn [total_files with_predictions bullish bearish neutral total_movement];
    destruct (String.eqb direction "Bullish");
    destruct (String.eqb direction "Bearish");
    (split; [lia|]; split; [lia|]; split; [|reflexivity]);
    solve [apply Hp | exact Hm].
Qed.

Lemma count_files_spec files :
  forall c,
    (bullish c + bearish c + neutral c <= with_predictions c)%nat ->
    (with_predictions c <= total_files c)%nat ->
    0 <= total_movement c ->
    let c' := fold_left (fun c f => count_file (fst f) (snd f) c) files c in
    (bullish c' + bearish c' + neutral c' <= with_predictions c')%nat
    /\ (with_predictions c' <= total_files c')%nat
    /\ 0 <= total_movement c'
    /\ (total_files c' <= total_files c + length files)%nat
    /\ (Forall (fun f => skipped (fst f) = false) files ->
        total_files c' = (total_files c + length files)%nat).
Proof.
  induction files as [|[name content] files IH]; intros c Hb Hw Hm.
  - cbn [fold_left length]. repeat split; try assumption; lia.
  - cbn [fold_left length fst snd].
    destruct (count_file_spec name content c Hb Hw Hm) as (Hb' & Hw' & Hm' & Ht).
    destruct (IH _ Hb' Hw' Hm') as (A & B & C & D & E).
    cbv zeta. split; [exact A|]. split; [exact B|]. split; [exact C|]. split.
    + rewrite Ht in D. destruct (skipped name); lia.
    + intros Hs. inversion Hs as [|? ? Hn Hr]; subst. cbn [fst] in Hn.
      rewrite (E Hr), Ht, Hn. lia.
Qed.

(** Neither name the loop passes over ends like the files the glob finds. *)
Lemma globbed_not_skipped stem :
  skipped (stem ++ "_ohlcv_prediction.json") = false.
Proof.
  unfold skipped. apply orb_false_iff. split; apply String.eqb_neq; intros H.
  - repeat (destruct stem as [|? stem]; cbn [append] in H;
            [discriminate H | try discriminate H; injection H as _ H]).
  - repeat (destruct stem as [|? stem]; cbn [append] in H;
            [discriminate H | try discriminate H; injection H as _ H]).
Qed.

Lemma py_round1_nonneg x : 0 <= x -> 0 <= PyExt.py_round1 x.
Proof.
  intros H. unfold PyExt.py_round1.
  assert (0 <= inject_Z (Num.round_half_even (x * 10))) as Hr.
  { change 0 with (inject_Z (Num.round_half_even (0 * 10))).
    rewrite <- Zle_Qle. apply NumFacts.round_half_even_mono. lra. }
  apply Qle_shift_div_l; lra.
Qed.

End HomepageFacts.

(** X26. The homepage counts are nested: the directions counted never exceed the
    files with predictions, those never exceed the files counted, and
    those never exceed the files found; the average movement shown is
    never negative.  The two summary names that the loop passes over do
    not end like the files the glob finds, so for globbed files every
    file found is counted. *)
Theorem homepage_counts_nested (files : list (string * option Homepage.JFile)) :
  let s := Homepage.count_predictions files in
  (Homepage.stats_bullish s + Homepage.stats_bearish s + Homepage.stats_neutral s
   <= Homepage.stats_with_predictions s)%nat
  /\ (Homepage.stats_with_predictions s <= Homepage.stats_total_files s)%nat
  /\ (Homepage.stats_total_files s <= length files)%nat
  /\ 0 <= Homepage.avg_movement s
  /\ (Forall (fun f => exists stem,
                fst f = (stem ++ "_ohlcv_prediction.json")%string) files ->
      Homepage.stats_total_files s = length files).
Proof.
  unfold Homepage.count_predictions.
  destruct (HomepageFacts.count_files_spec files (Homepage.mkCounts 0 0 0 0 0 0))
    as (A & B & C & D & E);
    cbn [Homepage.bullish Homepage.bearish Homepage.neutral
           Homepage.with_predictions Homepage.total_files
           Homepage.total_movement]; try lia; try lra.
  cbv zeta in A, B, C, D, E.
  set (c := fold_left _ files _) in *.
  cbn [Homepage.stats_bullish Homepage.stats_bearish Homepage.stats_neutral
         Homepage.stats_with_predictions Homepage.stats_total_files
         Homepage.avg_movement].
  cbn [Homepage.total_files] in D, E.
  split; [exact A|]. split; [exact B|]. split; [lia|]. split.
  - apply HomepageFacts.py_round1_nonneg.
    destruct (0 <? Homepage.with_predictions c)%nat eqn:W; [|lra].
    apply Nat.ltb_lt in W. apply Qle_shift_div_l; [|lra].
    change 0 with (inject_Z 0). rewrite <- Zlt_Qlt. lia.
  - intros Hg. rewrite E; [reflexivity|].
    eapply Forall_impl; [|exact Hg].
    intros f (stem & ->). apply HomepageFacts.globbed_not_skipped.
Qed.

(** ** The list of available tickers *)

Module TickerFacts.
Import AvailableTickers.

Lemma categorize_spec ticker c :
  (etfs (categorize ticker c) + technology (categorize ticker c)
   + finance (categorize ticker c) + other (categorize ticker c)
   = S (etfs c + technology c + finance c + other c))%nat
  /\ healthcare (categorize ticker c) = healthcare c
  /\ consumer (categorize ticker c) = consumer c
  /\ energy (categorize ticker c) = energy c
  /\ industrial (categorize ticker c) = industrial c
  /\ international (categorize ticker c) = international c.
Proof.
  unfold categorize.
  destruct (PyExt.any_in etf_patterns ticker);
    [|destruct (PyExt.any_in tech_patterns ticker);
      [|destruct (PyExt.any_in finance_patterns ticker)]];
    cbn [etfs technology finance other healthcare consumer energy industrial
           international];
    (split; [lia | repeat split]).
Qed.

Lemma categorize_all tickers :
  forall c,
    let c' := fold_left (fun c ticker => categorize ticker c) tickers c in
    (etfs c' + technology c' + finance c' + other c'
     = etfs c + technology c + finance c + other c + length tickers)%nat
    /\ healthcare c' = healthcare c
    /\ consumer c' = consumer c
    /\ energy c' = energy c
    /\ industrial c' = industrial c
    /\ international c' = international c.
Proof.
  induction tickers as [|t tickers IH]; intros c; cbn [fold_left length].
  - cbv zeta. repeat split. lia.
  - destruct (categorize_spec t c) as (S0 & H1 & H2 & H3 & H4 & H5).
    destruct (IH (categorize t c)) as (S' & G1 & G2 & G3 & G4 & G5).
    cbv zeta. split; [lia|]. repeat split; congruence.
Qed.

End TickerFacts.

(** X27. The record of available tickers lists every ticker found once, and
    counts each in exactly one of four categories: ETFs, technology,
    finance and other add up to the total, while healthcare, consumer,
    energy, industrial and international always stay at zero. *)
Theorem ticker_categories_partition (now : string) (extracted : list string) :
  let out := AvailableTickers.main now extracted in
  Permutation (AvailableTickers.tickers out) extracted
  /\ AvailableTickers.total_count out = length extracted
  /\ (AvailableTickers.etfs (AvailableTickers.categories out)
      + AvailableTickers.technology (AvailableTickers.categories out)
      + AvailableTickers.finance (AvailableTickers.categories out)
      + AvailableTickers.other (AvailableTickers.categories out)
      = AvailableTickers.total_count out)%nat
  /\ AvailableTickers.healthcare (AvailableTickers.categories out) = 0%nat
  /\ AvailableTickers.consumer (AvailableTickers.categories out) = 0%nat
  /\ AvailableTickers.energy (AvailableTickers.categories out) = 0%nat
  /\ AvailableTickers.industrial (AvailableTickers.categories out) = 0%nat
  /\ AvailableTickers.international (AvailableTickers.categories out) = 0%nat.
Proof.
  unfold AvailableTickers.main.
  cbn [AvailableTickers.tickers AvailableTickers.total_count
         AvailableTickers.categories].
  pose proof (FileFacts.sorted_strings_perm extracted) as P.
  destruct (TickerFacts.categorize_all (PyExt.sorted_strings extracted)
              (AvailableTickers.mkCategories 0 0 0 0 0 0 0 0 0))
    as (S0 & H1 & H2 & H3 & H4 & H5).
  cbv zeta in S0, H1, H2, H3, H4, H5.
  split; [exact P|]. split; [now apply Permutation_length|].
  split; [exact S0|]. repeat split; assumption.
Qed.

(** X28. A ticker that contains the letter C or the letter V is never counted
    as other: the one-letter finance patterns catch whatever the ETF and
    technology patterns leave. *)
Theorem tickers_with_C_or_V_never_other (ticker : string)
    (c : AvailableTickers.Categories) :
  PyExt.contains "C" ticker = true \/ PyExt.contains "V" ticker = true ->
  AvailableTickers.other (AvailableTickers.categorize ticker c)
  = AvailableTickers.other c.
Proof.
  intros H. unfold AvailableTickers.categorize.
  destruct (PyExt.any_in AvailableTickers.etf_patterns ticker); [reflexivity|].
  destruct (PyExt.any_in AvailableTickers.tech_patterns ticker); [reflexivity|].
  assert (PyExt.any_in AvailableTickers.finance_patterns ticker = true) as ->.
  { unfold PyExt.any_in, AvailableTickers.finance_patterns.
    apply existsb_exists.
    destruct H as [H|H];
      [exists "C"%string | exists "V"%string]; (split; [|exact H]);
      cbn [In]; tauto. }
  reflexivity.
Qed.

Lemma tickers_with_C_or_V_never_other_witness :
  AvailableTickers.other
    (AvailableTickers.categorize "CVS"
       (AvailableTickers.mkCategories 0 0 0 0 0 0 0 0 0))
  = 0%nat.
Proof.
  apply (tickers_with_C_or_V_never_other "CVS"
           (AvailableTickers.mkCategories 0 0 0 0 0 0 0 0 0)).
  left. reflexivity.
Defined.

(** ** The Kronos formatter *)

Module KronosFacts.
Import Kronos.

Lemma last_values_none predictions :
  last_values predictions = None <-> In [] predictions.
Proof.
  induction predictions as [|p rest IH]; cbn [last_values In].
  - split; [discriminate | intros []].
  - destruct (Py.last_item p) as [x|] eqn:E; cbn [Py.bind].
    + assert (p <> []) as Hp
        by (intros ->; discriminate E).
      destruct (last_values rest) as [xs|]; cbn [Py.bind].
      * split; [discriminate|]. intros [H|H]; [congruence|].
        apply IH in H. discriminate H.
      * split; [intros _; right; now apply IH | reflexivity].
    + apply StoreFacts.last_item_nil in E. subst p.
      split; [intros _; now left | reflexivity].
Qed.

End KronosFacts.

(** X29. The Kronos formatter raises in exactly three cases: an empty input
    frame, a Monte Carlo path with no value, or a last close of zero. *)
Theorem kronos_format_fails_iff (config : Kronos.Config) (ticker : string)
    (input_data : list Candle) (raw_prediction : Kronos.RawPrediction) :
  Kronos.format_prediction config ticker input_data raw_prediction = None
  <-> input_data = []
      \/ In [] (Kronos.raw_predictions raw_prediction)
      \/ exists last_row,
           Py.last_item input_data = Some last_row /\ close last_row == 0.
Proof.
  unfold Kronos.format_prediction.
  destruct input_data as [|first_row rest].
  - cbn [hd_error Py.bind]. split; [intros _; now left | reflexivity].
  - cbn [hd_error Py.bind].
    destruct (Py.last_item (first_row :: rest)) as [last_row|] eqn:El;
      [|apply StoreFacts.last_item_nil in El; discriminate El].
    cbn [Py.bind].
    pose proof (KronosFacts.last_values_none
                  (Kronos.raw_predictions raw_prediction)) as Hv.
    destruct (Kronos.raw_predictions raw_prediction) as [|p ps] eqn:Ep.
    + cbn [Py.bind]. destruct (Qeq_bool (close last_row) 0) eqn:Ez.
      * apply Qeq_bool_eq in Ez. split; [intros _|reflexivity].
        right; right. exists last_row. now split.
      * apply Qeq_bool_neq in Ez. split; [discriminate|].
        intros [H|[[]|(l & Hl & Hz)]]; [discriminate H|].
        injection Hl as <-. contradiction.
    + destruct (Kronos.last_values (p :: ps)) as [finals|]; cbn [Py.bind].
      * destruct (Qeq_bool (close last_row) 0) eqn:Ez.
        -- apply Qeq_bool_eq in Ez. split; [intros _|reflexivity].
           right; right. exists last_row. now split.
        -- apply Qeq_bool_neq in Ez. split; [discriminate|].
           intros [H|[H|(l & Hl & Hz)]]; [discriminate H| |].
           ++ apply Hv in H. discriminate H.
           ++ injection Hl as <-. contradiction.
      * split; [intros _|reflexivity]. right; left. now apply Hv.
Qed.

(** X30. In every record the Kronos formatter returns, the prediction week
    starts three days after the last input date and ends four days later;
    it runs from a Monday to a Friday exactly when the input ends on a
    Friday.  The input span and length are those of the frame, and with
    no Monte Carlo run the predicted close is the last close and the
    predicted move is zero. *)
Theorem kronos_prediction_week (config : Kronos.Config) (ticker : string)
    (input_data : list Candle) (raw_prediction : Kronos.RawPrediction)
    (f : Kronos.Formatted) :
  Kronos.format_prediction config ticker input_data raw_prediction = Some f ->
  let s := Kronos.summary f in
  hd_error (map date input_data) = Some (Kronos.input_start_date s)
  /\ Py.last_item (map date input_data) = Some (Kronos.input_end_date s)
  /\ Kronos.input_length s = length input_data
  /\ Kronos.prediction_start_date s = (Kronos.input_end_date s + 3)%Z
  /\ Kronos.prediction_end_date s = (Kronos.input_end_date s + 7)%Z
  /\ (Calendar.weekday (Kronos.prediction_start_date s) = 0%Z
      <-> Calendar.weekday (Kronos.input_end_date s) = 4%Z)
  /\ (Calendar.weekday (Kronos.prediction_end_date s) = 4%Z
      <-> Calendar.weekday (Kronos.input_end_date s) = 4%Z)
  /\ (Kronos.raw_predictions raw_prediction = [] ->
      Kronos.predicted_end_close_price s = Kronos.input_end_date_close s
      /\ Kronos.predicted_move s == 0).
Proof.
  unfold Kronos.format_prediction. intros H.
  destruct input_data as [|first_row rest]; [discriminate H|].
  cbn [hd_error Py.bind] in H.
  destruct (Py.last_item (first_row :: rest)) as [last_row|] eqn:El;
    [|discriminate H].
  cbn [Py.bind] in H.
  assert (Py.last_item (map date (first_row :: rest)) = Some (date last_row))
    as Hd.
  { unfold Py.last_item in *. rewrite <- map_rev.
    destruct (rev (first_row :: rest)); [discriminate El|].
    cbn [map hd_error] in *. now injection El as ->. }
  match type of H with
  | Py.bind ?m _ = _ => destruct m as [median_close|] eqn:Em; [|discriminate H]
  end.
  cbn [Py.bind] in H.
  destruct (Qeq_bool (close last_row) 0) eqn:Ez; [discriminate H|].
  apply Qeq_bool_neq in Ez. injection H as <-.
  cbn [Kronos.summary Kronos.input_start_date Kronos.input_end_date
         Kronos.input_length Kronos.prediction_start_date
         Kronos.prediction_end_date Kronos.predicted_end_close_price
         Kronos.input_end_date_close Kronos.predicted_move].
  split; [reflexivity|]. split; [exact Hd|]. split; [reflexivity|].
  split; [reflexivity|]. split; [lia|].
  split; [unfold Calendar.weekday; split; intros W;
          Z.div_mod_to_equations; lia|].
  split; [unfold Calendar.weekday; split; intros W;
          Z.div_mod_to_equations; lia|].
  intros Hr. rewrite Hr in Em. injection Em as <-.
  split; [reflexivity|]. field. exact Ez.
Qed.

Lemma kronos_prediction_week_witness :
  exists f,
    Kronos.format_prediction (Kronos.mkConfig 120 5 10) "QQQ" Samples.window
      (Kronos.mkRawPrediction [] []) = Some f
    /\ Kronos.prediction_start_date (Kronos.summary f) = 739530%Z
    /\ Kronos.predicted_move (Kronos.summary f) == 0.
Proof.
  destruct (Kronos.format_prediction (Kronos.mkConfig 120 5 10) "QQQ"
              Samples.window (Kronos.mkRawPrediction [] [])) as [f|] eqn:E;
    [|vm_compute in E; discriminate E].
  exists f. split; [reflexivity|].
  pose proof (kronos_prediction_week (Kronos.mkConfig 120 5 10) "QQQ"
                Samples.window (Kronos.mkRawPrediction [] []) f E) as W.
  cbv zeta in W. destruct W as (_ & He & _ & Hs & _ & _ & _ & Hm).
  split.
  - rewrite Hs. change (Py.last_item (map date Samples.window))
      with (Some 739527%Z) in He.
    injection He as <-. reflexivity.
  - now apply Hm.
Defined.
